(** * PolicyEngine API: computation cache, dispatch and dependency resolution

    A shallow embedding of
      - [policyengine_api/economy_api/compute_api.py]
      - [policyengine_api/endpoints/computed_household.py]
      - [policyengine_api/endpoints/policy.py]
    together with the properties of the cache/dispatch layer.

    Python objects are modelled as follows.
      - [str] is [string]; a character is a code point below 256.
      - a [dict] whose iteration order is observable (the request's
        options, a JSON object) is an association list in insertion order;
      - a database row (a dict of column values) and a keyword-argument
        dict are [gmap string value];
      - a function that may raise returns [result]; functions that read or
        write the database, call the simulator or the comparator, or start
        a thread live in the monad [M] over [world]. *)

From Stdlib Require Import ZArith Ascii String List.
From stdpp Require Import base option list strings gmap fin_maps pretty.

Set Warnings "-register-all,-clear-no-such-hyp".

Local Open Scope string_scope.
Local Open Scope Z_scope.
Local Open Scope list_scope.

(** ** Column values *)

Inductive value : Type :=
  | VNone
  | VInt (z : Z)
  | VStr (s : string).

#[global] Instance value_eq_dec : EqDecision value.
Proof. solve_decision. Defined.

#[global] Instance value_inhabited : Inhabited value := populate VNone.

(** ** JSON documents and [json.dumps]

    [json] is the type of the Python values that [json.dumps] accepts and
    [json.loads] returns: [None] is [JNull], a [dict] is [JDict] with its
    entries in insertion order.  A float is kept as the literal that
    [repr] prints for it. *)

Module Json.

Inductive json : Type :=
  | JNull
  | JBool (b : bool)
  | JInt (z : Z)
  | JFloat (literal : string)
  | JStr (s : string)
  | JList (items : list json)
  | JDict (entries : list (string * json)).

Definition dquote : ascii := "034"%char.
Definition backslash : ascii := "092"%char.

Definition hex_digit (n : N) : ascii :=
  match n with
  | 0 => "0" | 1 => "1" | 2 => "2" | 3 => "3" | 4 => "4" | 5 => "5"
  | 6 => "6" | 7 => "7" | 8 => "8" | 9 => "9" | 10 => "a" | 11 => "b"
  | 12 => "c" | 13 => "d" | 14 => "e" | _ => "f"
  end%N%char.

(** [ESCAPE_DCT] and the replacement function of
    [py_encode_basestring_ascii]: the double quote and the backslash, the
    short escapes b, f, n, r and t, then a four-digit hexadecimal escape
    for every other character outside the range from space to tilde. *)
Definition escape_char (c : ascii) : string :=
  let n := N_of_ascii c in
  if Ascii.eqb c dquote then String backslash (String dquote "")
  else if Ascii.eqb c backslash then String backslash (String backslash "")
  else if (n =? 8)%N then String backslash "b"
  else if (n =? 12)%N then String backslash "f"
  else if (n =? 10)%N then String backslash "n"
  else if (n =? 13)%N then String backslash "r"
  else if (n =? 9)%N then String backslash "t"
  else if ((n <? 32) || (126 <? n))%N then
    String backslash
      (String "u" (String "0" (String "0"
        (String (hex_digit (n / 16)) (String (hex_digit (n mod 16)) "")))))
  else String c "".

Fixpoint escape (s : string) : string :=
  match s with
  | EmptyString => ""
  | String c s' => escape_char c +:+ escape s'
  end.

Definition quote (s : string) : string :=
  String dquote (escape s +:+ String dquote "").

(** [sep.join(parts)] *)
Fixpoint join (sep : string) (parts : list string) : string :=
  match parts with
  | [] => ""
  | [p] => p
  | p :: ps => p +:+ sep +:+ join sep ps
  end.

(** [json.dumps] with its default arguments: the default separators,
    [ensure_ascii=True], and no key sorting, so that the entries of a dict
    are written in insertion order. *)
Fixpoint json_dumps (j : json) : string :=
  match j with
  | JNull => "null"
  | JBool true => "true"
  | JBool false => "false"
  | JInt z => pretty z
  | JFloat literal => literal
  | JStr s => quote s
  | JList items => "[" +:+ join ", " (map json_dumps items) +:+ "]"
  | JDict entries =>
      "{" +:+ join ", "
                (map (λ kv, quote kv.1 +:+ ": " +:+ json_dumps kv.2) entries)
          +:+ "}"
  end.

(** A [dict] of [str] to [str], as [flask.request.args] yields. *)
Definition of_options (options : list (string * string)) : json :=
  JDict (map (λ kv, (kv.1, JStr kv.2)) options).

(** The text of one entry of a dict of [str] to [str]. *)
Definition dump_option (kv : string * string) : string :=
  quote kv.1 +:+ ": " +:+ quote kv.2.

(** Reading back: the value of a hexadecimal digit, and the character
    whose escape a string starts with. They state what the escapes
    determine; no function of the API calls them. *)
Definition hex_value (c : ascii) : option N :=
  let n := N_of_ascii c in
  if ((48 <=? n) && (n <=? 57))%N then Some (n - 48)%N
  else if ((97 <=? n) && (n <=? 102))%N then Some (n - 87)%N
  else None.

Definition unescape_head (s : string) : option (ascii * string) :=
  match s with
  | EmptyString => None
  | String c rest =>
      if Ascii.eqb c dquote then None
      else if Ascii.eqb c backslash then
        match rest with
        | String "u" (String "0" (String "0" (String h (String l rest')))) =>
            hi ← hex_value h; lo ← hex_value l;
            Some (ascii_of_N (16 * hi + lo), rest')
        | String d rest' =>
            if Ascii.eqb d dquote then Some (dquote, rest')
            else if Ascii.eqb d backslash then Some (backslash, rest')
            else if Ascii.eqb d "b" then Some ("008"%char, rest')
            else if Ascii.eqb d "f" then Some ("012"%char, rest')
            else if Ascii.eqb d "n" then Some ("010"%char, rest')
            else if Ascii.eqb d "r" then Some ("013"%char, rest')
            else if Ascii.eqb d "t" then Some ("009"%char, rest')
            else None
        | EmptyString => None
        end
      else Some (c, rest)
  end.

End Json.
Export Json.

(** ** [repr] of a [str]

    The text of [repr(s)]: the string between single quotes, or between
    double quotes when it holds a single quote and no double quote; the
    quote in use and the backslash are escaped, then tab, newline and
    carriage return; every other character that is not printable is
    written as a two-digit hexadecimal escape. Below 256 the characters
    that are not printable are the control characters, the no-break space
    and the soft hyphen. *)

(** Whether a character occurs in a string. *)
Fixpoint occurs (c : ascii) (s : string) : bool :=
  match s with
  | EmptyString => false
  | String c' s' => Ascii.eqb c' c || occurs c s'
  end.

Definition squote : ascii := "039"%char.

Definition repr_quote (s : string) : ascii :=
  if occurs squote s && negb (occurs dquote s) then dquote else squote.

Definition repr_char (q c : ascii) : string :=
  let n := N_of_ascii c in
  if Ascii.eqb c q || Ascii.eqb c backslash then
    String backslash (String c "")
  else if (n =? 9)%N then String backslash "t"
  else if (n =? 10)%N then String backslash "n"
  else if (n =? 13)%N then String backslash "r"
  else if ((n <? 32) || (n =? 127) || ((128 <=? n) && (n <=? 160))
           || (n =? 173))%N then
    String backslash
      (String "x"
         (String (hex_digit (n / 16)) (String (hex_digit (n mod 16)) "")))
  else String c "".

Fixpoint repr_chars (q : ascii) (s : string) : string :=
  match s with
  | EmptyString => ""
  | String c s' => repr_char q c +:+ repr_chars q s'
  end.

Definition repr (s : string) : string :=
  let q := repr_quote s in
  String q (repr_chars q s +:+ String q "").

(** ** Exceptions

    An exception is an instance of a class, raised with one argument, a
    [str]. *)

Record exn : Type := Exn { exn_class : string; exn_message : string }.

(** [str(e)]: the argument, as [BaseException.__str__] gives it for an
    exception with one argument; for a [KeyError], the [repr] of the
    argument, as [KeyError.__str__] gives it. *)
Definition exn_str (e : exn) : string :=
  if String.eqb (exn_class e) "KeyError" then repr (exn_message e)
  else exn_message e.

Inductive result (A : Type) : Type :=
  | Ok (a : A)
  | Raise (e : exn).
Arguments Ok {A} a.
Arguments Raise {A} e.

#[global] Instance result_ret : MRet result := λ A a, Ok a.

#[global] Instance result_bind : MBind result := λ A B k r,
  match r with
  | Ok a => k a
  | Raise e => Raise e
  end.

Definition TypeError (msg : string) : exn := Exn "TypeError" msg.
Definition KeyError (msg : string) : exn := Exn "KeyError" msg.
Definition ValueError (msg : string) : exn := Exn "ValueError" msg.

Definition none_not_subscriptable : exn :=
  TypeError "'NoneType' object is not subscriptable".

(** ** The database

    [PolicyEngineDatabase] is defined in [policyengine_api/data.py]; a row
    is the dict of its columns. *)

Abbreviation row := (gmap string value).
Abbreviation database := (gmap string (list (gmap string value))).

Definition mkrow (columns : list (string * value)) : row :=
  list_to_map columns.

Module Database.

(** Modelled from the spec: [policyengine_api/data.py] is missing.
    A row is selected by a set of key fields when it holds each of them
    with the given value. *)
Definition matches (kwargs r : row) : bool :=
  bool_decide (map_Forall (λ k v, r !! k = Some v) kwargs).

(** Modelled from the spec: [get(key_fields)] returns a record or absent;
    it is the first row of the table that the key fields select. *)
Definition get_in_table (db : database) (table_name : string) (kwargs : row)
  : option row :=
  List.find (matches kwargs) (db !!! table_name).

Definition column_max (column : string) (rows : list row) : Z :=
  foldr (λ r acc, match r !! column with
                  | Some (VInt z) => Z.max z acc
                  | _ => acc
                  end) 0 rows.

(** Modelled from the spec: the row an insert creates holds the match
    fields overridden by the value fields; an auto-increment column that
    neither of them sets receives the next free integer. *)
Definition new_row (rows : list row) (match_ update : row)
    (auto_increment : option string) : row :=
  let full_entry := update ∪ match_ in
  match auto_increment with
  | Some column =>
      match full_entry !! column with
      | Some _ => full_entry
      | None => <[column := VInt (column_max column rows + 1)]> full_entry
      end
  | None => full_entry
  end.

(** Modelled from the spec: [upsert(match_fields, value_fields,
    auto_increment_field)] inserts if no row matches the match fields and
    otherwise updates the matching rows in place with the value fields. *)
Definition set_in_table (db : database) (table_name : string)
    (match_ update : row) (auto_increment : option string) : database :=
  let rows := db !!! table_name in
  match List.find (matches match_) rows with
  | None =>
      <[table_name :=
          (rows ++ [new_row rows match_ update auto_increment])%list]> db
  | Some _ =>
      <[table_name :=
          map (λ r, if matches match_ r then update ∪ r else r) rows]> db
  end.

End Database.

(** ** The world the handlers run in *)

Record write_event : Type := Write {
  w_table : string;
  w_match : row;
  w_update : row;
  w_inserted : bool
}.

Record simulator_call : Type := SimulatorCall {
  sc_country_id : string;
  sc_policy_id : value;
  sc_region : string;
  sc_time_period : string;
  sc_options : list (string * string)
}.

(** The arguments of a started [threading.Thread] whose target is
    [set_reform_impact_data]. *)
Record thread : Type := Thread {
  th_baseline_policy_id : value;
  th_policy_id : value;
  th_country_id : string;
  th_region : string;
  th_time_period : string;
  th_options : list (string * string)
}.

Record world : Type := World {
  db : database;
  writes : list write_event;
  simulator_calls : list simulator_call;
  comparator_calls : list (json * json);
  slot_calls : list (string * string * string * string);
  threads : list thread
}.

(** ** State and exception monad *)

Definition M (A : Type) : Type := world → result A * world.

#[global] Instance M_ret : MRet M := λ A a w, (Ok a, w).

#[global] Instance M_bind : MBind M := λ A B k m w,
  match m w with
  | (Ok a, w') => k a w'
  | (Raise e, w') => (Raise e, w')
  end.

Definition raise {A} (e : exn) : M A := λ w, (Raise e, w).

(** [try: m except Exception as e: handler(e)] *)
Definition try_except {A} (m : M A) (handler : exn → M A) : M A :=
  λ w, match m w with
       | (Ok a, w') => (Ok a, w')
       | (Raise e, w') => handler e w'
       end.

Definition lift {A} (r : result A) : M A := λ w, (r, w).

(** [for x in items: state = body(state, x)], for a loop that rebinds or
    mutates a local. *)
Fixpoint fold_each {A S} (items : list A) (body : S → A → M S) (s : S)
  : M S :=
  match items with
  | [] => mret s
  | x :: items' => s' ← body s x; fold_each items' body s'
  end.

(** [for x in items: body(x)] *)
Fixpoint for_each {A B} (items : list A) (body : A → M B) : M unit :=
  match items with
  | [] => mret tt
  | x :: items' => body x;; for_each items' body
  end.

Definition get_in_table (table_name : string) (kwargs : row)
  : M (option row) :=
  λ w, (Ok (Database.get_in_table (db w) table_name kwargs), w).

Definition set_in_table (table_name : string) (match_ update : row)
    (auto_increment : option string) : M unit :=
  λ w,
    let inserted :=
      bool_decide (Database.get_in_table (db w) table_name match_ = None) in
    (Ok tt,
     World (Database.set_in_table (db w) table_name match_ update
              auto_increment)
           (writes w ++ [Write table_name match_ update inserted])%list
           (simulator_calls w) (comparator_calls w) (slot_calls w)
           (threads w)).

Definition thread_start (t : thread) : M unit :=
  λ w, (Ok tt,
        World (db w) (writes w) (simulator_calls w) (comparator_calls w)
              (slot_calls w) (threads w ++ [t])%list).

(** ** External collaborators

    The simulator, the comparator, [json.loads], the content hash and the
    engine version are imported by the three modules and defined elsewhere. *)

Class External : Type := {
  (** [policyengine_api.constants.VERSION] *)
  VERSION : string;
  (** [policyengine_api.economy_api.economy.compute_economy] *)
  compute_economy :
    string → value → string → string → list (string * string) → result json;
  (** [policyengine_api.economy_api.compare.compare_economic_outputs] *)
  compare_economic_outputs : json → json → result json;
  (** [json.loads] *)
  json_loads : string → result json;
  (** [policyengine_api.utils.hash_object] *)
  hash_object : json → string;
  (** [policyengine_api.country.validate_country]: an error response for
      an unknown country, [None] otherwise *)
  validate_country : string → option json
}.

(** The tax-benefit engine behind [calculate]: the country packages and
    [policyengine_core]. *)
Class Engine : Type := {
  country : Type;
  tax_benefit_system : Type;
  simulation : Type;
  (** the variable, the computed array and the population of one slot *)
  computed : Type;
  (** [COUNTRIES.get]; [COUNTRIES[country_id]] raises on [None] *)
  COUNTRIES : string → option country;
  country_system : country → tax_benefit_system;
  (** [system.clone()] followed by the parameter updates of the reform *)
  apply_patches : tax_benefit_system → json → result tax_benefit_system;
  (** [country.country_package.Simulation(tax_benefit_system, situation)] *)
  Simulation : country → tax_benefit_system → json → result simulation;
  (** [system.get_variable], [simulation.calculate] and
      [simulation.get_population] for an entity, a variable and a period *)
  run_variable :
    tax_benefit_system → simulation → string → string → string →
    result computed;
  (** the column of an entity in the reshaped result, as a list; raises
      [ValueError] when it holds an infinity *)
  axes_values : computed → nat → nat → result json;
  (** the value of one entity, converted by the value type of the
      variable *)
  entity_value : computed → string → result json
}.

(** ** Python dict helpers *)

(** [d.pop(key, None)] on a dict in insertion order *)
Fixpoint dict_pop (key : string) (d : list (string * string))
  : option string * list (string * string) :=
  match d with
  | [] => (None, [])
  | (k, v) :: d' =>
      if String.eqb k key then (Some v, d')
      else let '(r, d'') := dict_pop key d' in (r, (k, v) :: d'')
  end.

(** [row[column]] *)
Definition getitem (r : row) (column : string) : result value :=
  match r !! column with
  | Some v => Ok v
  | None => Raise (KeyError column)
  end.

(** The [text] of a column that holds a JSON document. *)
Definition text_of (v : value) : result string :=
  match v with
  | VStr s => Ok s
  | _ => Raise (TypeError "the JSON object must be str, bytes or bytearray")
  end.

Inductive response : Type :=
  | FlaskResponse (body : string) (status : Z)
  | Body (j : json).

(** [countries = dict(uk=uk, us=us)]; [countries.get(country_id)] is not
    [None] exactly for these two keys. *)
Definition countries_get (country_id : string) : option string :=
  if String.eqb country_id "uk" then Some "policyengine_uk"
  else if String.eqb country_id "us" then Some "policyengine_us"
  else None.

Section ComputeApi.
Context `{!External}.

(** *** [endpoints/policy.py] : [get_current_law_policy_id]

    The query selects the rows of the country with the hash of the empty
    reform; [fetchone()] is [None] when there is none, and [None[0]]
    raises. *)
Definition get_current_law_policy_id (country_id : string) : M value :=
  let policy_hash := hash_object (JDict []) in
  fetchone ← get_in_table "policy"
    (mkrow [("country_id", VStr country_id);
            ("policy_hash", VStr policy_hash)]);
  match fetchone with
  | None => raise none_not_subscriptable
  | Some r => mret (r !!! "id")
  end.

Definition economy_key (country_id : string) (policy_id : value)
    (region time_period : string) (options : list (string * string)) : row :=
  mkrow [("country_id", VStr country_id);
         ("policy_id", policy_id);
         ("region", VStr region);
         ("time_period", VStr time_period);
         ("options_json", VStr (json_dumps (of_options options)));
         ("api_version", VStr VERSION)].

Definition reform_impact_key (country_id : string)
    (policy_id baseline_policy_id : value) (region time_period : string)
    (options : list (string * string)) : row :=
  mkrow [("country_id", VStr country_id);
         ("reform_policy_id", policy_id);
         ("baseline_policy_id", baseline_policy_id);
         ("region", VStr region);
         ("time_period", VStr time_period);
         ("options_json", VStr (json_dumps (of_options options)));
         ("api_version", VStr VERSION)].

Definition call_compute_economy (country_id : string) (policy_id : value)
    (region time_period : string) (options : list (string * string))
  : M json :=
  λ w,
    (compute_economy country_id policy_id region time_period options,
     World (db w) (writes w)
           (simulator_calls w ++
              [SimulatorCall country_id policy_id region time_period
                 options])%list
           (comparator_calls w) (slot_calls w) (threads w)).

Definition call_compare_economic_outputs (baseline reform : json) : M json :=
  λ w,
    (compare_economic_outputs baseline reform,
     World (db w) (writes w) (simulator_calls w)
           (comparator_calls w ++ [(baseline, reform)])%list
           (slot_calls w) (threads w)).

(** *** [compute_api.py] : [ensure_economy_computed]

    The function has no [return] statement: every call evaluates to
    [None]. *)
Definition ensure_economy_computed (country_id : string) (policy_id : value)
    (region time_period : string) (options : list (string * string))
  : M json :=
  let key := economy_key country_id policy_id region time_period options in
  economy ← get_in_table "economy" key;
  match economy with
  | None =>
      try_except
        (economy_result ←
           call_compute_economy country_id policy_id region time_period
             options;
         set_in_table "economy" key
           (mkrow [("economy_json", VStr (json_dumps economy_result));
                   ("status", VStr "ok")])
           None)
        (λ e,
           set_in_table "economy" key
             (mkrow [("economy_json", VStr (json_dumps (JDict [])));
                     ("status", VStr "error");
                     ("message", VStr (exn_str e))])
             None);;
      mret JNull
  | Some _ => mret JNull
  end.

(** The value fields that [ensure_economy_computed] writes for an outcome
    of the simulator. *)
Definition economy_row_of (outcome : result json) : row :=
  match outcome with
  | Ok economy_result =>
      mkrow [("economy_json", VStr (json_dumps economy_result));
             ("status", VStr "ok")]
  | Raise e =>
      mkrow [("economy_json", VStr (json_dumps (JDict [])));
             ("status", VStr "error");
             ("message", VStr (exn_str e))]
  end.

Definition dependency_failure_message : string :=
  "Baseline or reform economy computation failed.".

(** *** [compute_api.py] : [set_reform_impact_data]

    [ensure_required] is the loop over the two required policy ids. *)
Definition ensure_required (baseline_policy_id policy_id : value)
    (country_id region time_period : string)
    (options : list (string * string)) : M unit :=
  for_each [baseline_policy_id; policy_id]
    (λ required_policy_id,
       ensure_economy_computed country_id required_policy_id region
         time_period options).

Definition set_reform_impact_data (baseline_policy_id policy_id : value)
    (country_id region time_period : string)
    (options : list (string * string)) : M json :=
  ensure_required baseline_policy_id policy_id country_id region time_period
    options;;
  baseline_economy ← get_in_table "economy"
    (economy_key country_id baseline_policy_id region time_period options);
  reform_economy ← get_in_table "economy"
    (economy_key country_id policy_id region time_period options);
  match baseline_economy, reform_economy with
  | None, _ => raise none_not_subscriptable
  | Some baseline_economy, reform_economy =>
      baseline_status ← lift (getitem baseline_economy "status");
      not_ok ←
        (if bool_decide (baseline_status ≠ VStr "ok") then mret true
         else match reform_economy with
              | None => raise none_not_subscriptable
              | Some reform_economy =>
                  reform_status ← lift (getitem reform_economy "status");
                  mret (bool_decide (reform_status ≠ VStr "ok"))
              end);
      let key :=
        reform_impact_key country_id policy_id baseline_policy_id region
          time_period options in
      if not_ok : bool then
        set_in_table "reform_impact" key
          (mkrow [("reform_impact_json", VStr (json_dumps (JDict [])));
                  ("status", VStr "error");
                  ("message", VStr dependency_failure_message)])
          None;;
        mret JNull
      else
        match reform_economy with
        | None => raise none_not_subscriptable
        | Some reform_economy =>
            baseline_json ← lift (getitem baseline_economy "economy_json");
            baseline_text ← lift (text_of baseline_json);
            baseline_economy ← lift (json_loads baseline_text);
            reform_json ← lift (getitem reform_economy "economy_json");
            reform_text ← lift (text_of reform_json);
            reform_economy ← lift (json_loads reform_text);
            impact ←
              call_compare_economic_outputs baseline_economy reform_economy;
            set_in_table "reform_impact" key
              (mkrow [("reform_impact_json", VStr (json_dumps impact));
                      ("status", VStr "ok")])
              None;;
            mret JNull
        end
  end.

(** *** [compute_api.py] : [score_policy_reform_against_baseline]

    [args] is [flask.request.args]. *)
Definition score_policy_reform_against_baseline
    (args : list (string * string)) (country_id : string)
    (policy_id : value) (baseline_policy_id : option value) : M response :=
  let options := args in
  let '(region, options) := dict_pop "region" options in
  let '(time_period, options) := dict_pop "time_period" options in
  match region, time_period with
  | None, _ => mret (FlaskResponse "Region not specified." 400)
  | Some _, None => mret (FlaskResponse "Time period not specified." 400)
  | Some region, Some time_period =>
      match countries_get country_id with
      | None =>
          mret (FlaskResponse ("Country " +:+ country_id +:+ " not found.")
                  404)
      | Some _ =>
          baseline_policy_id ←
            match baseline_policy_id with
            | None => get_current_law_policy_id country_id
            | Some b => mret b
            end;
          let key :=
            reform_impact_key country_id policy_id baseline_policy_id region
              time_period options in
          reform_impact ← get_in_table "reform_impact" key;
          match reform_impact with
          | None =>
              set_in_table "reform_impact" key
                (mkrow [("reform_impact_json", VStr (json_dumps (JDict [])));
                        ("status", VStr "computing")])
                None;;
              thread_start
                (Thread baseline_policy_id policy_id country_id region
                   time_period options)
          | Some _ => mret tt
          end;;
          mret (Body (JDict [("status", JStr "computing")]))
      end
  end.

(** A column of the record that a table holds under a key, if there is
    one. *)
Definition column_of (w : world) (table_name : string) (key : row)
    (column : string) : option value :=
  Database.get_in_table (db w) table_name key ≫= (.!! column).

Definition economy_status (w : world) (key : row) : option value :=
  column_of w "economy" key "status".

(** The body of a started thread: an exception that leaves the target is
    reported by the threading module and ends the thread. *)
Definition run_thread (t : thread) : M json :=
  set_reform_impact_data (th_baseline_policy_id t) (th_policy_id t)
    (th_country_id t) (th_region t) (th_time_period t) (th_options t).

(** *** [endpoints/policy.py] : [set_policy] *)

Definition json_of_value (v : value) : json :=
  match v with
  | VNone => JNull
  | VInt z => JInt z
  | VStr s => JStr s
  end.

Definition value_of_label (label : option string) : value :=
  match label with
  | None => VNone
  | Some l => VStr l
  end.

Definition policy_match (policy_hash : string) (policy_id : option value)
  : row :=
  let match_ := mkrow [("policy_hash", VStr policy_hash)] in
  match policy_id with
  | Some id => <["id" := id]> match_
  | None => match_
  end.

Definition set_policy (country_id : string) (policy_id : option value)
    (policy_json : json) (label : option string) : M json :=
  match validate_country country_id with
  | Some country_not_found => mret country_not_found
  | None =>
      let policy_hash := hash_object policy_json in
      set_in_table "policy" (policy_match policy_hash policy_id)
        (mkrow [("country_id", VStr country_id);
                ("policy_json", VStr (json_dumps policy_json));
                ("label", value_of_label label);
                ("api_version", VStr VERSION)])
        (Some "id");;
      policy ← get_in_table "policy"
        (mkrow [("country_id", VStr country_id);
                ("policy_hash", VStr policy_hash)]);
      match policy with
      | None => raise none_not_subscriptable
      | Some policy =>
          policy_id ← lift (getitem policy "id");
          mret (JDict [("status", JStr "ok");
                       ("message", JNull);
                       ("result",
                        JDict [("policy_id", json_of_value policy_id)])])
      end
  end.

End ComputeApi.

(** ** The log of writes *)

(** The writes of a log that went to a table under a key. *)
Definition writes_under (events : list write_event) (table_name : string)
    (key : row) : list write_event :=
  filter (λ e, w_table e = table_name ∧ w_match e = key) events.

(** The status that a write sets, and whether it inserted the row. *)
Definition write_summary (e : write_event) : option value * bool :=
  (w_update e !! "status", w_inserted e).

(** ** [endpoints/computed_household.py] *)

Abbreviation slot := (string * string * string * string)%type.

Module Py.

(** [len(x)] *)
Definition len (j : json) : result nat :=
  match j with
  | JStr s => Ok (String.length s)
  | JList items => Ok (length items)
  | JDict entries => Ok (length entries)
  | _ => Raise (TypeError "object has no len()")
  end.

Definition dict_get (entries : list (string * json)) (key : string)
  : option json :=
  snd <$> List.find (λ kv, String.eqb kv.1 key) entries.

Fixpoint dict_set (entries : list (string * json)) (key : string) (v : json)
  : list (string * json) :=
  match entries with
  | [] => [(key, v)]
  | (k, x) :: entries' =>
      if String.eqb k key then (k, v) :: entries'
      else (k, x) :: dict_set entries' key v
  end.

(** [x[key]] for a [str] key *)
Definition getitem (j : json) (key : string) : result json :=
  match j with
  | JDict entries =>
      match dict_get entries key with
      | Some v => Ok v
      | None => Raise (KeyError key)
      end
  | JList _ =>
      Raise (TypeError "list indices must be integers or slices, not str")
  | JStr _ => Raise (TypeError "string indices must be integers")
  | _ => Raise (TypeError "object is not subscriptable")
  end.

(** [x[key] = v] for a [str] key, as the object that [x] is afterwards *)
Definition setitem (j : json) (key : string) (v : json) : result json :=
  match j with
  | JDict entries => Ok (JDict (dict_set entries key v))
  | JList _ =>
      Raise (TypeError "list indices must be integers or slices, not str")
  | _ => Raise (TypeError "object does not support item assignment")
  end.

(** [key in x] for a [str] key *)
Definition contains (j : json) (key : string) : result bool :=
  match j with
  | JDict entries => Ok (bool_decide (is_Some (dict_get entries key)))
  | JList items =>
      Ok (existsb (λ x, match x with
                        | JStr s => String.eqb s key
                        | _ => false
                        end) items)
  | JStr s => Ok (bool_decide (is_Some (String.index 0 key s)))
  | _ => Raise (TypeError "argument is not iterable")
  end.

(** [x.keys()] *)
Definition keys (j : json) : result (list string) :=
  match j with
  | JDict entries => Ok (entries.*1)
  | _ => Raise (Exn "AttributeError" "object has no attribute 'keys'")
  end.

(** [s.split(sep)] for a one-character separator *)
Fixpoint split (sep : ascii) (s : string) : list string :=
  match s with
  | EmptyString => [""]
  | String c s' =>
      if Ascii.eqb c sep then "" :: split sep s'
      else match split sep s' with
           | part :: parts => String c part :: parts
           | [] => [String c ""]
           end
  end.

End Py.

(** *** [dpath]

    [dpath.segments.walk] yields the children of a node, the entries of a
    dict or the items of a list under their indices, and then walks each
    child in turn; it raises [InvalidKeyName] on a key that is the empty
    string. *)

(** The children of a node under the texts of their segments. *)
Definition children (j : json) : list (string * json) :=
  match j with
  | JDict entries => entries
  | JList items => imap (λ i x, (pretty i, x)) items
  | _ => []
  end.

(** A segment of a path: a key of a dict or an index of a list. *)
Inductive segment : Type :=
  | Key (k : string)
  | Index (i : nat).

(** [int_str]: the text of a segment in a joined path. *)
Definition int_str (s : segment) : string :=
  match s with
  | Key k => k
  | Index i => pretty i
  end.

(** [repr] of a tuple of segments. *)
Definition repr_segment (s : segment) : string :=
  match s with
  | Key k => repr k
  | Index i => pretty i
  end.

Definition repr_tuple (location : list segment) : string :=
  match location with
  | [s] => "(" +:+ repr_segment s +:+ ",)"
  | _ => "(" +:+ join ", " (map repr_segment location) +:+ ")"
  end.

(** [dpath.exceptions.InvalidKeyName] for an empty key at a location, with
    the text that [dpath] 2.0 gives it: the location as a tuple. *)
Definition InvalidKeyName (location : list segment) : exn :=
  Exn "InvalidKeyName"
    ("Empty string keys not allowed without "
     +:+ "dpath.options.ALLOW_EMPTY_STRING_KEYS=True: "
     +:+ repr_tuple location).

(** What a generator yields before it ends, and the exception that it
    ends with when it raises. *)
Definition yields (A : Type) : Type := (list A * option exn)%type.

(** One generator after another: the second runs when the first has ended
    without raising. *)
Definition then_yields {A} (first second : yields A) : yields A :=
  match first.2 with
  | Some e => first
  | None => (first.1 ++ second.1, second.2)
  end.

(** [for i, x in enumerate(l, i0): yield from f(i, x)] *)
Definition each_from {A B} (f : nat → A → yields B)
  : nat → list A → yields B :=
  fix go (i : nat) (l : list A) : yields B :=
    match l with
    | [] => ([], None)
    | x :: l' => then_yields (f i x) (go (S i) l')
    end.

(** The first loop of [walk] over the entries of a dict: it yields the
    entries under their paths until it meets an empty key, on which it
    raises. *)
Fixpoint list_entries (location : list segment)
    (entries : list (string * json)) : yields (list segment * json) :=
  match entries with
  | [] => ([], None)
  | (k, v) :: entries' =>
      if String.eqb k "" then ([], Some (InvalidKeyName (location ++ [Key k])))
      else
        then_yields ([(location ++ [Key k], v)], None)
          (list_entries location entries')
  end.

(** [dpath.segments.walk(obj, location)]: the children of the node under
    their paths, then the walk of each child in turn. A leaf and an empty
    container yield nothing. *)
Fixpoint walk (obj : json) (location : list segment) {struct obj}
  : yields (list segment * json) :=
  match obj with
  | JDict entries =>
      then_yields (list_entries location entries)
        (each_from (λ _ kv, walk kv.2 (location ++ [Key kv.1])) 0%nat
           entries)
  | JList items =>
      then_yields (imap (λ i x, (location ++ [Index i], x)) items, None)
        (each_from (λ i x, walk x (location ++ [Index i])) 0%nat items)
  | _ => ([], None)
  end.

(** Whether the search keeps what the walk has found: the glob of four
    stars matches the paths of four segments, and the filter selects the
    leaves that are [None]. *)
Definition keeper (found : list segment * json) : bool :=
  bool_decide (length found.1 = 4%nat)
  && match found.2 with
     | JNull => true
     | _ => false
     end.

(** [dpath.util.search(household, glob, afilter, yielded=True)] for the
    glob of four stars and the filter [t is None]: a generator over the
    walk of the household that yields the paths, joined by the separator,
    of the leaves at depth four that are [None], and that raises where
    the walk raises. *)
Definition search_none (household : json) : yields string :=
  let walked := walk household [] in
  (map (λ found, join "/" (map int_str found.1))
     (List.filter keeper walked.1),
   walked.2).


(** [entity_plural, entity_id, variable_name, period = path.split(sep)] *)
Definition unpack_path (path : string) : result slot :=
  match Py.split "/" path with
  | [entity_plural; entity_id; variable_name; period] =>
      Ok (entity_plural, entity_id, variable_name, period)
  | parts =>
      if bool_decide (length parts < 4)%nat then
        Raise (ValueError "not enough values to unpack (expected 4)")
      else Raise (ValueError "too many values to unpack (expected 4)")
  end.

Fixpoint get_requested_computations_of (paths : list string)
  : result (list slot) :=
  match paths with
  | [] => Ok []
  | path :: paths' =>
      computation ← unpack_path path;
      requested_computation_data ← get_requested_computations_of paths';
      Ok (computation :: requested_computation_data)
  end.

(** The loop over the generator: the paths are unpacked as the search
    yields them, so that the exception that ends the search is raised
    after the paths before it have been unpacked. *)
Definition get_requested_computations (household : json)
  : result (list slot) :=
  let requested_computations := search_none household in
  requested_computation_data ←
    get_requested_computations_of requested_computations.1;
  match requested_computations.2 with
  | Some e => Raise e
  | None => Ok requested_computation_data
  end.

(** The position at which the loop over [household[entity_plural].keys()]
    breaks, or their number when it never does. *)
Fixpoint entity_index_of (entity_id : string) (keys : list string) : nat :=
  match keys with
  | [] => 0
  | k :: keys' =>
      if String.eqb k entity_id then 0%nat
      else S (entity_index_of entity_id keys')
  end.

(** [household[entity_plural][entity_id][variable_name][period] = x] *)
Definition set_slot (household : json) (s : slot) (x : json) : result json :=
  let '(entity_plural, entity_id, variable_name, period) := s in
  entities ← Py.getitem household entity_plural;
  entity ← Py.getitem entities entity_id;
  variable ← Py.getitem entity variable_name;
  variable' ← Py.setitem variable period x;
  entity' ← Py.setitem entity variable_name variable';
  entities' ← Py.setitem entities entity_id entity';
  Py.setitem household entity_plural entities'.

(** [household[entity_plural][entity_id][variable_name][period]] *)
Definition get_slot (household : json) (s : slot) : result json :=
  let '(entity_plural, entity_id, variable_name, period) := s in
  entities ← Py.getitem household entity_plural;
  entity ← Py.getitem entities entity_id;
  variable ← Py.getitem entity variable_name;
  Py.getitem variable period.

(** What the computation of a slot reads of the household: whether it has
    axes, and the number and the keys of each of its entity groups. *)
Definition same_shape (h h' : json) : Prop :=
  Py.contains h "axes" = Py.contains h' "axes" ∧
  ∀ entity_plural,
    (Py.getitem h entity_plural ≫= Py.len)
      = (Py.getitem h' entity_plural ≫= Py.len) ∧
    (Py.getitem h entity_plural ≫= Py.keys)
      = (Py.getitem h' entity_plural ≫= Py.keys).

Section ComputedHousehold.
Context `{!External} `{!Engine}.

(** The attempt at a requested computation is recorded before anything
    of it can fail. *)
Definition record_slot (s : slot) : M unit :=
  λ w, (Ok tt,
        World (db w) (writes w) (simulator_calls w) (comparator_calls w)
              (slot_calls w ++ [s]) (threads w)).

(** The body of the [try] statement of [calculate] up to the assignment:
    the value computed for one requested computation. *)
Definition slot_result (system : tax_benefit_system) (sim : simulation)
    (household : json) (s : slot) : result json :=
  let '(entity_plural, entity_id, variable_name, period) := s in
  result ← run_variable system sim entity_plural variable_name period;
  has_axes ← Py.contains household "axes";
  if has_axes : bool then
    entities ← Py.getitem household entity_plural;
    count_entities ← Py.len entities;
    keys ← Py.keys entities;
    let entity_index := entity_index_of entity_id keys in
    axes_values result count_entities entity_index
  else
    entity_value result entity_id.

(** The body of the [try] statement, with the assignment to the slot. *)
Definition compute_slot (system : tax_benefit_system) (sim : simulation)
    (household : json) (s : slot) : M json :=
  record_slot s;;
  x ← lift (slot_result system sim household s);
  lift (set_slot household s x).

(** The household after the [try] statement for one requested
    computation: [except: pass] leaves it as it was. *)
Definition fill_slot (system : tax_benefit_system) (sim : simulation)
    (household : json) (s : slot) : json :=
  match slot_result system sim household s ≫= set_slot household s with
  | Ok household' => household'
  | Raise _ => household
  end.

(** The system that [calculate] simulates with: the system of the country,
    or its clone under the reform when the reform is not empty. *)
Definition reformed_system (c : country) (reform : json)
  : result tax_benefit_system :=
  let system := country_system c in
  n ← Py.len reform;
  if bool_decide (0 < n)%nat then apply_patches system reform
  else Ok system.

(** *** [calculate] *)
Definition calculate (c : country) (household reform : json) : M json :=
  system ← lift (reformed_system c reform);
  sim ← lift (Simulation c system household);
  household ← lift (json_loads (json_dumps household));
  requested_computations ← lift (get_requested_computations household);
  fold_each requested_computations
    (λ household s,
       try_except (compute_slot system sim household s)
         (λ _, mret household))
    household.

Definition str_value (v : value) : string :=
  match v with
  | VNone => "None"
  | VInt z => pretty z
  | VStr s => s
  end.

Definition computed_household_key (country_id : string)
    (household_id policy_id : value) : row :=
  mkrow [("country_id", VStr country_id);
         ("household_id", household_id);
         ("policy_id", policy_id);
         ("api_version", VStr VERSION)].

(** *** [get_household_under_policy] *)
Definition get_household_under_policy (country_id : string)
    (household_id policy_id : value) : M json :=
  let key := computed_household_key country_id household_id policy_id in
  pre_computed_household ← get_in_table "computed_household" key;
  match pre_computed_household with
  | Some pre_computed_household =>
      column ← lift (getitem pre_computed_household
                       "computed_household_json");
      text ← lift (text_of column);
      result ← lift (json_loads text);
      mret (JDict [("status", JStr "ok"); ("result", result)])
  | None =>
      household_data ← get_in_table "household"
        (mkrow [("country_id", VStr country_id); ("id", household_id)]);
      match household_data with
      | None =>
          mret (JDict [("status", JStr "error");
                       ("message",
                        JStr ("Household " +:+ str_value household_id
                              +:+ " not found in " +:+ country_id))])
      | Some household_data =>
          policy ← get_in_table "policy"
            (mkrow [("country_id", VStr country_id); ("id", policy_id)]);
          match policy with
          | None =>
              mret (JDict [("status", JStr "error");
                           ("message",
                            JStr ("Policy " +:+ str_value policy_id
                                  +:+ " not found in " +:+ country_id))])
          | Some policy =>
              policy_json ← lift (getitem policy "policy_json");
              policy_text ← lift (text_of policy_json);
              reform ← lift (json_loads policy_text);
              c ← match COUNTRIES country_id with
                  | Some c => mret c
                  | None => raise (KeyError country_id)
                  end;
              household_json ← lift (getitem household_data "household_json");
              household_text ← lift (text_of household_json);
              household ← lift (json_loads household_text);
              computed_household ← calculate c household reform;
              set_in_table "computed_household" key
                (mkrow [("computed_household_json",
                         VStr (json_dumps computed_household))])
                None;;
              mret (JDict [("status", JStr "ok");
                           ("message", JNull);
                           ("result", computed_household)])
          end
      end
  end.

End ComputedHousehold.

(** ** A concrete scenario

    Country [uk], policy 1 (the baseline), policy 2 (a reform) and a policy
    3 on which the simulator fails; [json.loads] is the inverse of
    [json.dumps] on the documents of the scenario. *)

Module Scenario.

Definition baseline_result : json := JDict [("budget", JInt 0)].
Definition reform_result : json := JDict [("budget", JInt 5)].

Definition simulator (country_id : string) (policy_id : value)
    (region time_period : string) (options : list (string * string))
  : result json :=
  match policy_id with
  | VStr "1" => Ok baseline_result
  | VStr "2" => Ok reform_result
  | _ => Raise (ValueError "Simulation failed")
  end.

Definition comparator (baseline reform : json) : result json :=
  Ok (JDict [("baseline", baseline); ("reform", reform)]).

Definition failing_comparator (baseline reform : json) : result json :=
  Raise (KeyError "budget").

Definition household : json :=
  JDict [("people",
          JDict [("you",
                  JDict [("age", JDict [("2023", JInt 30)]);
                         ("income_tax", JDict [("2023", JNull)]);
                         ("benefits", JDict [("2023", JNull)])])])].

Definition documents : list json :=
  [baseline_result; reform_result; JDict []; household].

Definition loads (text : string) : result json :=
  match List.find (λ j, String.eqb (json_dumps j) text) documents with
  | Some j => Ok j
  | None => Raise (Exn "JSONDecodeError" "Expecting value")
  end.

Definition validate (country_id : string) : option json :=
  match countries_get country_id with
  | Some _ => None
  | None =>
      Some (JDict [("status", JStr "error");
                   ("message",
                    JStr ("Country " +:+ country_id +:+ " not found."))])
  end.

Definition external : External := {|
  VERSION := "0.1.0";
  compute_economy := simulator;
  compare_economic_outputs := comparator;
  json_loads := loads;
  hash_object := json_dumps;
  validate_country := validate
|}.

Definition external_failing_comparator : External := {|
  VERSION := "0.1.0";
  compute_economy := simulator;
  compare_economic_outputs := failing_comparator;
  json_loads := loads;
  hash_object := json_dumps;
  validate_country := validate
|}.

(** An engine in which [income_tax] cannot be computed and every other
    variable is 7 for every entity. *)
Definition engine : Engine := {|
  country := string;
  tax_benefit_system := unit;
  simulation := unit;
  computed := string;
  COUNTRIES := countries_get;
  country_system := λ _, tt;
  apply_patches := λ system _, Ok system;
  Simulation := λ _ _ _, Ok tt;
  run_variable := λ _ _ entity_plural variable_name period,
    if String.eqb variable_name "income_tax" then
      Raise (Exn "VariableNotFoundError" "income_tax")
    else Ok variable_name;
  axes_values := λ _ _ _, Ok (JList [JInt 7]);
  entity_value := λ _ _, Ok (JInt 7)
|}.

Definition empty_world : world := World ∅ [] [] [] [] [].

Definition args : list (string * string) :=
  [("region", "uk"); ("time_period", "2024")].

(** A cache that holds a reform-impact record in status [error]. *)
Definition cached_error_world : world :=
  World
    {["reform_impact" :=
        [mkrow [("reform_impact_json", VStr "{}");
                ("status", VStr "error");
                ("message",
                 VStr "Baseline or reform economy computation failed.")]
         ∪ @reform_impact_key external "uk" (VStr "3") (VStr "1") "uk" "2024"
             []]]}
    [] [] [] [] [].

Definition household_row : row :=
  mkrow [("country_id", VStr "uk"); ("id", VInt 1);
         ("household_json", VStr (json_dumps household))].

Definition policy_row : row :=
  mkrow [("country_id", VStr "uk"); ("id", VInt 1);
         ("policy_hash", VStr "{}"); ("policy_json", VStr "{}")].

(** A database that holds one household and one policy. *)
Definition household_world : world :=
  World {["household" := [household_row]; "policy" := [policy_row]]}
    [] [] [] [] [].

Definition requested : list slot :=
  [("people", "you", "income_tax", "2023");
   ("people", "you", "benefits", "2023")].

End Scenario.

(** ** [endpoints/policy.py] : [get_policy]

    [PolicyFound policy policy_json] is the answer with status ok whose
    result is the row [policy] with its [policy_json] column replaced by
    the parsed document; [PolicyError] carries an error answer. *)

Inductive policy_response : Type :=
  | PolicyError (response : json)
  | PolicyFound (policy : row) (policy_json : json).

Definition error_response (message : string) : json :=
  JDict [("status", JStr "error"); ("message", JStr message)].

Section Policy.
Context `{!External}.

(** [policy = dict(policy)]
    [policy[policy_json] = json.loads(policy[policy_json])] and the return
    of the answer. *)
Definition policy_found (policy : row) : M policy_response :=
  column ← lift (getitem policy "policy_json");
  text ← lift (text_of column);
  policy_json ← lift (json_loads text);
  mret (PolicyFound policy policy_json).

Definition get_policy (country_id : string) (policy_id : option value)
    (policy_data : option json) : M policy_response :=
  match validate_country country_id with
  | Some country_not_found => mret (PolicyError country_not_found)
  | None =>
      match policy_id, policy_data with
      | Some policy_id, _ =>
          policy ← get_in_table "policy"
            (mkrow [("country_id", VStr country_id); ("id", policy_id)]);
          match policy with
          | None =>
              mret (PolicyError
                      (error_response
                         ("Policy " +:+ str_value policy_id
                          +:+ " not found in " +:+ country_id)))
          | Some policy => policy_found policy
          end
      | None, Some policy_data =>
          policy ← get_in_table "policy"
            (mkrow [("country_id", VStr country_id);
                    ("policy_hash", VStr (hash_object policy_data))]);
          match policy with
          | None =>
              mret (PolicyError
                      (error_response
                         ("Policy not found in " +:+ country_id)))
          | Some policy => policy_found policy
          end
      | None, None =>
          mret (PolicyError
                  (error_response
                     "Must provide either policy_id or policy_data"))
      end
  end.

End Policy.

(** ** Vocabulary of the statements about households *)

(** The [None] leaves at depth four of a household, as tuples of the four
    keys that lead to them, in the order of the traversal. *)
Definition none_leaves (household : json) : list slot :=
  kv1 ← children household;
  kv2 ← children kv1.2;
  kv3 ← children kv2.2;
  kv4 ← children kv3.2;
  match kv4.2 with
  | JNull => [(kv1.1, kv2.1, kv3.1, kv4.1)]
  | _ => []
  end.

(** No key of the slot holds the path separator. *)
Definition separator_free (s : slot) : Prop :=
  let '(entity_plural, entity_id, variable_name, period) := s in
  occurs "/" entity_plural = false ∧ occurs "/" entity_id = false ∧
  occurs "/" variable_name = false ∧ occurs "/" period = false.

(** The path of a slot, as the search yields it. *)
Definition join_slot (s : slot) : string :=
  let '(a, b, c, d) := s in join "/" [a; b; c; d].

(** No dict of the document, at any depth, has the empty string as a key:
    the documents that [dpath] walks to the end. *)
Fixpoint empty_key_free (j : json) : bool :=
  match j with
  | JList items => forallb empty_key_free items
  | JDict entries =>
      forallb (λ kv, negb (String.eqb kv.1 "") && empty_key_free kv.2)
        entries
  | _ => true
  end.

(** The nodes at a depth below a node, with the keys that lead to them,
    in the order of the traversal. *)
Fixpoint paths_at (n : nat) (obj : json) : list (list string * json) :=
  match n with
  | O => [([], obj)]
  | S n' =>
      kv ← children obj;
      (λ pv : list string * json, (kv.1 :: pv.1, pv.2)) <$> paths_at n' kv.2
  end.

Definition prefixed (prefix : list string) (pv : list string * json)
  : list string * json :=
  (prefix ++ pv.1, pv.2).

Definition texts (found : list segment * json) : list string * json :=
  (map int_str found.1, found.2).

Definition at_length (L : nat) (found : list segment * json) : bool :=
  bool_decide (length found.1 = L).

(** What the walk of a node of a document without empty keys does: it
    ends without raising, and the nodes that it yields under paths of a
    given length are the nodes at that depth. *)
Definition walks_well (obj : json) : Prop :=
  ∀ location L,
    (walk obj location).2 = None ∧
    texts <$> List.filter (at_length L) (walk obj location).1
    = if decide (L ≤ length location)%nat then []
      else prefixed (map int_str location)
             <$> paths_at (L - length location) obj.

(** ** Further instances of the scenario *)

Module Cases.

(** The scenario under the next version of the API. *)
Definition external_next_version : External := {|
  VERSION := "0.2.0";
  compute_economy := Scenario.simulator;
  compare_economic_outputs := Scenario.comparator;
  json_loads := Scenario.loads;
  hash_object := json_dumps;
  validate_country := Scenario.validate
|}.

(** Query parameters with options around the region and the time period. *)
Definition query : list (string * string) :=
  [("dataset", "frs"); ("region", "uk"); ("target", "general");
   ("time_period", "2024")].

(** A household in which the name of a person holds the separator. *)
Definition household_with_separator : json :=
  JDict [("people",
          JDict [("you/partner",
                  JDict [("age", JDict [("2023", JNull)])])])].

(** A household in which the name of a person is the empty string. *)
Definition household_with_empty_key : json :=
  JDict [("people",
          JDict [("", JDict [("age", JDict [("2023", JNull)])])])].

(** The household of the scenario after [calculate]: the benefits are
    filled in, the income tax could not be computed. *)
Definition computed_household : json :=
  JDict [("people",
          JDict [("you",
                  JDict [("age", JDict [("2023", JInt 30)]);
                         ("income_tax", JDict [("2023", JNull)]);
                         ("benefits", JDict [("2023", JInt 7)])])])].

(** The scenario with a [json.loads] that also reads these documents. *)
Definition extended_documents : list json :=
  Scenario.documents
    ++ [household_with_separator; household_with_empty_key;
        computed_household].

Definition extended_loads (text : string) : result json :=
  match
    List.find (λ j, String.eqb (json_dumps j) text) extended_documents
  with
  | Some j => Ok j
  | None => Raise (Exn "JSONDecodeError" "Expecting value")
  end.

Definition extended_external : External := {|
  VERSION := "0.1.0";
  compute_economy := Scenario.simulator;
  compare_economic_outputs := Scenario.comparator;
  json_loads := extended_loads;
  hash_object := json_dumps;
  validate_country := Scenario.validate
|}.

(** A database that holds a household and a policy of a country that has
    no entry in [COUNTRIES]. *)

Definition foreign_household_row : row :=
  mkrow [("country_id", VStr "fr"); ("id", VInt 1);
         ("household_json", VStr (json_dumps Scenario.household))].

Definition foreign_policy_row : row :=
  mkrow [("country_id", VStr "fr"); ("id", VInt 1);
         ("policy_hash", VStr "{}"); ("policy_json", VStr "{}")].

Definition foreign_world : world :=
  World
    {["household" := [foreign_household_row];
      "policy" := [foreign_policy_row]]}
    [] [] [] [] [].

(** A cache that already holds the economy of policy 1 in the US. *)
Definition us_economy_world : world :=
  (@ensure_economy_computed Scenario.external "us" (VStr "1") "us" "2024" []
     Scenario.empty_world).2.

End Cases.

(** * Properties *)

(** ** Sanity checks of the model *)

Example dumps_empty_dict : json_dumps (JDict []) = "{}".
Proof. reflexivity. Qed.

Example dumps_options :
  json_dumps (of_options [("a", "1"); ("b", "x y")]) =
  "{" +:+ quote "a" +:+ ": " +:+ quote "1" +:+ ", "
      +:+ quote "b" +:+ ": " +:+ quote "x y" +:+ "}".
Proof. reflexivity. Qed.

Example escape_control_characters :
  escape (String "010" (String "001" (String "127" (String "233" "~")))) =
  String backslash "n" +:+ String backslash "u0001"
    +:+ String backslash "u007f" +:+ String backslash "u00e9" +:+ "~".
Proof. reflexivity. Qed.

Example pop_region :
  dict_pop "region" [("a", "1"); ("region", "uk"); ("b", "2")]
  = (Some "uk", [("a", "1"); ("b", "2")]).
Proof. reflexivity. Qed.

Example split_path : Py.split "/" "people/you//2023"
  = ["people"; "you"; ""; "2023"].
Proof. reflexivity. Qed.

Example repr_plain : repr "budget" = "'budget'".
Proof. reflexivity. Qed.

Example repr_single_quote :
  repr "it's" = String dquote ("it's" +:+ String dquote "").
Proof. reflexivity. Qed.

Example str_of_key_error : exn_str (KeyError "budget") = "'budget'".
Proof. reflexivity. Qed.

Example str_of_value_error :
  exn_str (ValueError "Simulation failed") = "Simulation failed".
Proof. reflexivity. Qed.

Example requested_of_household :
  get_requested_computations Scenario.household = Ok Scenario.requested.
Proof. reflexivity. Qed.

Example requested_with_empty_key :
  get_requested_computations Cases.household_with_empty_key
  = Raise (InvalidKeyName [Key "people"; Key ""]).
Proof. reflexivity. Qed.

Example empty_key_message :
  exn_message (InvalidKeyName [Key "people"; Key ""])
  = "Empty string keys not allowed without "
    +:+ "dpath.options.ALLOW_EMPTY_STRING_KEYS=True: ('people', '')".
Proof. reflexivity. Qed.

Example requested_with_separator_in_key :
  get_requested_computations
    (JDict [("people", JDict [("a/b", JDict [("age", JDict [("2023", JNull)])])])])
  = Raise (ValueError "too many values to unpack (expected 4)").
Proof. reflexivity. Qed.

(** ** The database *)

Section DatabaseFacts.
Implicit Types (kwargs key update r : row) (rows : list row) (d : database).

Lemma matches_subseteq kwargs r : Database.matches kwargs r = true ↔ kwargs ⊆ r.
Proof.
  unfold Database.matches. rewrite bool_decide_eq_true, map_subseteq_spec.
  reflexivity.
Qed.

Lemma matches_update key update r :
  key ##ₘ update → Database.matches key r = true →
  Database.matches key (update ∪ r) = true.
Proof.
  rewrite !matches_subseteq. intros Hdisj Hsub.
  apply map_subseteq_spec. intros k v Hk.
  rewrite lookup_union_r.
  - by eapply lookup_weaken.
  - by eapply map_disjoint_Some_l.
Qed.

Lemma matches_new_row rows key update auto_increment :
  key ##ₘ update →
  Database.matches key (Database.new_row rows key update auto_increment) = true.
Proof.
  intros Hdisj. apply matches_subseteq. unfold Database.new_row.
  assert (key ⊆ update ∪ key) as Hsub by apply map_union_subseteq_r, map_disjoint_sym, Hdisj.
  destruct auto_increment as [column|]; [|done].
  destruct ((update ∪ key) !! column) eqn:Hc; [done|].
  etrans; [exact Hsub|]. by apply insert_subseteq.
Qed.

Lemma update_subseteq_new_row rows key update auto_increment :
  update ⊆ Database.new_row rows key update auto_increment.
Proof.
  unfold Database.new_row.
  assert (update ⊆ update ∪ key) as Hsub by apply map_union_subseteq_l.
  destruct auto_increment as [column|]; [|done].
  destruct ((update ∪ key) !! column) eqn:Hc; [done|].
  etrans; [exact Hsub|]. by apply insert_subseteq.
Qed.

Lemma find_app_None {A} (f : A → bool) (l1 l2 : list A) :
  List.find f l1 = None → List.find f (l1 ++ l2) = List.find f l2.
Proof.
  induction l1 as [|x l1 IH]; simpl; [done|].
  destruct (f x); [done|]. exact IH.
Qed.

Lemma find_map_update (f : row → bool) (g : row → row) rows r :
  (∀ x, f x = true → f (g x) = true) →
  List.find f rows = Some r →
  List.find f (map (λ x, if f x then g x else x) rows) = Some (g r).
Proof.
  intros Hg. induction rows as [|x rows IH]; simpl; [done|].
  destruct (f x) eqn:Hx.
  - intros [= <-]. by rewrite Hg.
  - rewrite Hx. exact IH.
Qed.

(** A lookup under the key of an upsert returns the row that the upsert
    wrote. *)
Lemma get_set_in_table d table_name key update auto_increment :
  key ##ₘ update →
  Database.get_in_table
    (Database.set_in_table d table_name key update auto_increment)
    table_name key =
  Some (match Database.get_in_table d table_name key with
        | Some r => update ∪ r
        | None => Database.new_row (d !!! table_name) key update auto_increment
        end).
Proof.
  intros Hdisj. unfold Database.get_in_table, Database.set_in_table.
  destruct (List.find (Database.matches key) (d !!! table_name)) as [r|] eqn:Hfind.
  - rewrite lookup_total_insert_eq.
    apply (find_map_update (Database.matches key) (λ x, update ∪ x)); [|done].
    intros x. by apply matches_update.
  - rewrite lookup_total_insert_eq, find_app_None by done.
    simpl. by rewrite matches_new_row.
Qed.

Lemma get_set_in_table_other d table_name table_name' key kwargs update auto_increment :
  table_name ≠ table_name' →
  Database.get_in_table
    (Database.set_in_table d table_name key update auto_increment)
    table_name' kwargs =
  Database.get_in_table d table_name' kwargs.
Proof.
  intros Hne. unfold Database.get_in_table, Database.set_in_table.
  destruct (List.find (Database.matches key) (d !!! table_name));
    by rewrite lookup_total_insert_ne.
Qed.

(** A lookup under the key of an upsert finds a row that holds the value
    fields of the upsert. *)
Lemma get_set_in_table_holds d table_name (key update : row) auto_increment :
  key ##ₘ update →
  ∃ record,
    Database.get_in_table
      (Database.set_in_table d table_name key update auto_increment)
      table_name key = Some record ∧
    update ⊆ record.
Proof.
  intros Hdisj. eexists. split; [by apply get_set_in_table|].
  destruct (Database.get_in_table d table_name key).
  - apply map_union_subseteq_l.
  - apply update_subseteq_new_row.
Qed.

(** An insert under one key is not seen under a key that the new row does
    not match. *)
Lemma get_set_in_table_miss d table_name key key' update auto_increment :
  Database.get_in_table d table_name key = None →
  Database.get_in_table d table_name key' = None →
  Database.matches key'
    (Database.new_row (d !!! table_name) key update auto_increment) = false →
  Database.get_in_table
    (Database.set_in_table d table_name key update auto_increment)
    table_name key' = None.
Proof.
  unfold Database.get_in_table, Database.set_in_table.
  intros -> Hmiss Hnew.
  rewrite lookup_total_insert_eq, find_app_None by done.
  simpl. by rewrite Hnew.
Qed.
End DatabaseFacts.

(** ** The serialization of the options *)

Section SerializationFacts.

Lemma string_app_cons c (s1 s2 : string) :
  String c s1 +:+ s2 = String c (s1 +:+ s2).
Proof. reflexivity. Qed.

Lemma string_app_assoc (s1 s2 s3 : string) :
  (s1 +:+ s2) +:+ s3 = s1 +:+ (s2 +:+ s3).
Proof.
  induction s1 as [|c s1 IH]; [done|].
  by rewrite !string_app_cons, IH.
Qed.

Lemma unescape_head_escape_char c rest :
  unescape_head (escape_char c +:+ rest) = Some (c, rest).
Proof.
  destruct c as [[] [] [] [] [] [] [] []]; reflexivity.
Qed.

Lemma escape_prefix_free s1 s2 rest1 rest2 :
  escape s1 +:+ String dquote rest1 = escape s2 +:+ String dquote rest2 →
  s1 = s2 ∧ rest1 = rest2.
Proof.
  revert s2. induction s1 as [|c1 s1 IH]; intros [|c2 s2]; simpl;
    rewrite ?string_app_assoc; intros Heq.
  - by injection Heq as ->.
  - apply (f_equal unescape_head) in Heq.
    by rewrite unescape_head_escape_char in Heq.
  - apply (f_equal unescape_head) in Heq.
    by rewrite unescape_head_escape_char in Heq.
  - apply (f_equal unescape_head) in Heq.
    rewrite !unescape_head_escape_char in Heq.
    injection Heq as -> Heq. by destruct (IH _ Heq) as [-> ->].
Qed.

Lemma quote_prefix_free s1 s2 rest1 rest2 :
  quote s1 +:+ rest1 = quote s2 +:+ rest2 → s1 = s2 ∧ rest1 = rest2.
Proof.
  unfold quote. rewrite !string_app_cons, !string_app_assoc,
    !string_app_cons.
  intros [= Heq]. by apply escape_prefix_free.
Qed.

Lemma dump_option_prefix_free kv1 kv2 rest1 rest2 :
  dump_option kv1 +:+ rest1 = dump_option kv2 +:+ rest2 →
  kv1 = kv2 ∧ rest1 = rest2.
Proof.
  destruct kv1 as [k1 v1], kv2 as [k2 v2]. unfold dump_option.
  simpl fst; simpl snd. rewrite !string_app_assoc. intros Heq.
  apply quote_prefix_free in Heq as [-> Heq].
  change (": " +:+ quote v1 +:+ rest1 = ": " +:+ quote v2 +:+ rest2) in Heq.
  apply (inj (String.app ": ")) in Heq.
  by apply quote_prefix_free in Heq as [-> ->].
Qed.

Lemma json_dumps_of_options o :
  json_dumps (of_options o) = "{" +:+ join ", " (map dump_option o) +:+ "}".
Proof.
  unfold of_options. simpl. by rewrite map_map.
Qed.

Lemma dump_option_head kv rest :
  ∃ rest', dump_option kv +:+ rest = String dquote rest'.
Proof.
  unfold dump_option, quote. rewrite !string_app_cons. by eexists.
Qed.

Lemma join_options_cons kv o :
  join ", " (map dump_option (kv :: o)) +:+ "}" =
  dump_option kv +:+
    match o with
    | [] => "}"
    | _ => ", " +:+ (join ", " (map dump_option o) +:+ "}")
    end.
Proof.
  destruct o as [|kv' o]; [done|].
  change (map dump_option (kv :: kv' :: o))
    with (dump_option kv :: map dump_option (kv' :: o)).
  change (join ", " (dump_option kv :: map dump_option (kv' :: o)))
    with (dump_option kv +:+ ", " +:+ join ", " (map dump_option (kv' :: o))).
  by rewrite !string_app_assoc.
Qed.

Lemma join_options_injective o1 o2 :
  join ", " (map dump_option o1) +:+ "}"
    = join ", " (map dump_option o2) +:+ "}" →
  o1 = o2.
Proof.
  revert o2. induction o1 as [|kv1 o1 IH]; intros [|kv2 o2];
    rewrite ?join_options_cons; intros Heq.
  - done.
  - lazymatch type of Heq with
    | _ = dump_option _ +:+ ?rest =>
        destruct (dump_option_head kv2 rest) as [rest' Hhead]
    end.
    rewrite Hhead in Heq. discriminate.
  - lazymatch type of Heq with
    | dump_option _ +:+ ?rest = _ =>
        destruct (dump_option_head kv1 rest) as [rest' Hhead]
    end.
    rewrite Hhead in Heq. discriminate.
  - apply dump_option_prefix_free in Heq as [-> Heq].
    f_equal. destruct o1 as [|kv1' o1], o2 as [|kv2' o2]; try done.
    apply IH. by apply (inj (String.app ", ")) in Heq.
Qed.

Lemma json_dumps_of_options_injective o1 o2 :
  json_dumps (of_options o1) = json_dumps (of_options o2) → o1 = o2.
Proof.
  rewrite !json_dumps_of_options. intros Heq.
  apply (inj (String.app "{")) in Heq. by apply join_options_injective.
Qed.

End SerializationFacts.

(** Closed goals on rows and worlds are decided by evaluation. *)
Ltac by_computation :=
  lazymatch goal with
  | |- ?P => refine (@bool_decide_unpack P _ _); vm_compute; exact I
  end.

(** ** The monad *)

Section MonadFacts.

Lemma bind_ok {A B} (m : M A) (k : A → M B) w a w' :
  m w = (Ok a, w') → (m ≫= k) w = k a w'.
Proof. intros Hm. unfold mbind, M_bind. by rewrite Hm. Qed.

Lemma bind_raise {A B} (m : M A) (k : A → M B) w e w' :
  m w = (Raise e, w') → (m ≫= k) w = (Raise e, w').
Proof. intros Hm. unfold mbind, M_bind. by rewrite Hm. Qed.

End MonadFacts.

(** ** The household computation *)

Section DictFacts.
Implicit Types (entries : list (string * json)) (j : json).

Lemma string_eqb_decide (k1 k2 : string) :
  String.eqb k1 k2 = bool_decide (k1 = k2).
Proof.
  destruct (String.eqb_spec k1 k2).
  - by rewrite bool_decide_eq_true_2.
  - by rewrite bool_decide_eq_false_2.
Qed.

Lemma dict_get_dict_set entries key key' v :
  Py.dict_get (Py.dict_set entries key v) key' =
  if decide (key = key') then Some v else Py.dict_get entries key'.
Proof.
  unfold Py.dict_get.
  induction entries as [|[k x] entries IH]; simpl.
  - rewrite string_eqb_decide. by repeat case_decide; case_bool_decide.
  - rewrite !string_eqb_decide. case_bool_decide as Hk; simpl.
    + subst k. rewrite string_eqb_decide.
      case_decide; case_bool_decide; done.
    + rewrite string_eqb_decide. case_bool_decide as Hk'; simpl.
      * subst k. by rewrite decide_False by done.
      * exact IH.
Qed.

Lemma dict_set_keys entries key v :
  is_Some (Py.dict_get entries key) →
  (Py.dict_set entries key v).*1 = entries.*1.
Proof.
  unfold Py.dict_get.
  induction entries as [|[k x] entries IH]; simpl.
  - by intros [? ?].
  - rewrite string_eqb_decide. case_bool_decide; simpl; [done|].
    intros Hsome. f_equal. by apply IH.
Qed.

Lemma getitem_setitem j key v j' key' :
  Py.setitem j key v = Ok j' →
  Py.getitem j' key' =
  if decide (key = key') then Ok v else Py.getitem j key'.
Proof.
  destruct j; try done. simpl. intros [= <-]. simpl.
  rewrite dict_get_dict_set. by case_decide.
Qed.

End DictFacts.

Section SlotFacts.
Context `{!Engine}.
Implicit Types (household : json) (s : slot).

Lemma same_shape_refl h : same_shape h h.
Proof. by split. Qed.

Lemma same_shape_trans h1 h2 h3 :
  same_shape h1 h2 → same_shape h2 h3 → same_shape h1 h3.
Proof.
  intros [Ha1 He1] [Ha2 He2]. split; [congruence|].
  intros e. destruct (He1 e), (He2 e). split; congruence.
Qed.


Lemma set_slot_inv h e i v p x h' :
  set_slot h (e, i, v, p) x = Ok h' →
  ∃ entities entity variable variable' entity' entities',
    Py.getitem h e = Ok entities ∧
    Py.getitem entities i = Ok entity ∧
    Py.getitem entity v = Ok variable ∧
    Py.setitem variable p x = Ok variable' ∧
    Py.setitem entity v variable' = Ok entity' ∧
    Py.setitem entities i entity' = Ok entities' ∧
    Py.setitem h e entities' = Ok h'.
Proof.
  unfold set_slot.
  destruct (Py.getitem h e) as [entities|] eqn:He; [simpl|done].
  destruct (Py.getitem entities i) as [entity|] eqn:Hi; [simpl|done].
  destruct (Py.getitem entity v) as [variable|] eqn:Hv; [simpl|done].
  destruct (Py.setitem variable p x) as [variable'|] eqn:Hp'; [simpl|done].
  destruct (Py.setitem entity v variable') as [entity'|] eqn:Hv';
    [simpl|done].
  destruct (Py.setitem entities i entity') as [entities'|] eqn:Hi';
    [simpl|done].
  intros Hset. by eexists entities, entity, variable, variable', entity',
    entities'.
Qed.

Lemma setitem_existing_shape j key old v j' :
  Py.getitem j key = Ok old →
  Py.setitem j key v = Ok j' →
  Py.len j' = Py.len j ∧ Py.keys j' = Py.keys j ∧
  ∀ key', is_Some (Py.dict_get (children j') key')
          ↔ is_Some (Py.dict_get (children j) key').
Proof.
  destruct j as [| | | | | |entries]; try done. simpl.
  destruct (Py.dict_get entries key) as [old'|] eqn:Hget; [|done].
  intros _ [= <-]. simpl.
  assert ((Py.dict_set entries key v).*1 = entries.*1) as Hkeys
    by (apply dict_set_keys; by rewrite Hget).
  split; [|split].
  - f_equal. by rewrite <- (length_fmap fst), Hkeys, length_fmap.
  - by rewrite Hkeys.
  - intros key'. rewrite dict_get_dict_set. case_decide; [|done].
    subst key'. rewrite Hget. split; by eauto.
Qed.

Lemma set_slot_same_shape h s x h' :
  set_slot h s x = Ok h' → same_shape h h'.
Proof.
  destruct s as [[[e i] v] p]. intros Hset.
  apply set_slot_inv in Hset
    as (entities & entity & variable & variable' & entity' & entities'
        & He & Hi & Hv & Hp' & Hv' & Hi' & He').
  destruct (setitem_existing_shape _ _ _ _ _ Hi Hi') as (Hlen & Hkeys & _).
  destruct (setitem_existing_shape _ _ _ _ _ He He') as (_ & _ & Hdom).
  split.
  - destruct h; try done. destruct h'; try done. simpl in *.
    f_equal. apply bool_decide_ext. symmetry. apply Hdom.
  - intros e2. rewrite (getitem_setitem _ _ _ _ e2 He').
    case_decide; [subst e2|done]. rewrite He. simpl. by rewrite Hlen, Hkeys.
Qed.


Lemma fill_slot_same_shape system sim h s :
  same_shape h (fill_slot system sim h s).
Proof.
  unfold fill_slot.
  destruct (slot_result system sim h s) as [x|]; simpl;
    [|apply same_shape_refl].
  destruct (set_slot h s x) eqn:Hset; [|apply same_shape_refl].
  by eapply set_slot_same_shape.
Qed.

Lemma foldl_fill_slot_same_shape system sim h requested :
  same_shape h (foldl (fill_slot system sim) h requested).
Proof.
  revert h. induction requested as [|s requested IH]; intros h; simpl.
  - apply same_shape_refl.
  - eapply same_shape_trans; [apply fill_slot_same_shape|apply IH].
Qed.


End SlotFacts.

Section HouseholdFacts.
Context `{!External} `{!Engine}.

Lemma try_compute_slot system sim h s w :
  try_except (compute_slot system sim h s) (λ _, mret h) w =
  (Ok (fill_slot system sim h s),
   World (db w) (writes w) (simulator_calls w) (comparator_calls w)
         (slot_calls w ++ [s]) (threads w)).
Proof.
  unfold try_except, compute_slot, fill_slot, mbind, M_bind, record_slot,
    lift.
  destruct (slot_result system sim h s) as [x|]; simpl; [|done].
  by destruct (set_slot h s x).
Qed.

(** The loop of [calculate] attempts every requested computation in turn
    and never raises. *)
Lemma calculate_loop system sim requested h w :
  fold_each requested
    (λ household s,
       try_except (compute_slot system sim household s)
         (λ _, mret household)) h w =
  (Ok (foldl (fill_slot system sim) h requested),
   World (db w) (writes w) (simulator_calls w) (comparator_calls w)
         (slot_calls w ++ requested) (threads w)).
Proof.
  revert h w. induction requested as [|s requested IH]; intros h w; simpl.
  - rewrite app_nil_r. by destruct w.
  - erewrite bind_ok by apply try_compute_slot.
    rewrite IH. simpl. by rewrite <- app_assoc.
Qed.

Lemma calculate_fills c household0 reform system sim household requested w :
  reformed_system c reform = Ok system →
  Simulation c system household0 = Ok sim →
  json_loads (json_dumps household0) = Ok household →
  get_requested_computations household = Ok requested →
  calculate c household0 reform w =
  (Ok (foldl (fill_slot system sim) household requested),
   World (db w) (writes w) (simulator_calls w) (comparator_calls w)
         (slot_calls w ++ requested) (threads w)).
Proof.
  intros Hsystem Hsim Hcopy Hrequested. unfold calculate.
  unfold mbind at 1 2 3 4, M_bind, lift.
  rewrite Hsystem, Hsim, Hcopy, Hrequested. apply calculate_loop.
Qed.

End HouseholdFacts.

(** ** The log of writes *)

Section WriteLog.
Implicit Types (events : list write_event) (e : write_event).

Lemma writes_under_app events1 events2 table_name key :
  writes_under (events1 ++ events2) table_name key =
  writes_under events1 table_name key ++ writes_under events2 table_name key.
Proof. apply filter_app. Qed.

Lemma writes_under_single e table_name key :
  writes_under [e] table_name key =
  if decide (w_table e = table_name ∧ w_match e = key) then [e] else [].
Proof. unfold writes_under. rewrite filter_cons, filter_nil. done. Qed.

Lemma writes_under_other_table events table_name table_name' key :
  Forall (λ e, w_table e = table_name') events →
  table_name' ≠ table_name →
  writes_under events table_name key = [].
Proof.
  intros Hall Hne. induction Hall as [|e events He _ IH]; [done|].
  unfold writes_under in *. rewrite filter_cons.
  rewrite decide_False by (intros [? _]; congruence). exact IH.
Qed.

End WriteLog.

(** ** The compute API *)

Section ComputeApiFacts.
Context `{!External}.

Lemma economy_key_disjoint c p r t o outcome :
  economy_key c p r t o ##ₘ economy_row_of outcome.
Proof.
  apply map_disjoint_dom. unfold economy_key, mkrow.
  destruct outcome; simpl; rewrite !dom_insert_L; set_solver.
Qed.

(** On a cache hit [ensure_economy_computed] does nothing. *)
Lemma ensure_economy_computed_hit c p r t o w cached :
  Database.get_in_table (db w) "economy" (economy_key c p r t o)
    = Some cached →
  ensure_economy_computed c p r t o w = (Ok JNull, w).
Proof.
  intros Hhit. unfold ensure_economy_computed.
  erewrite bind_ok; [|unfold get_in_table; by rewrite Hhit].
  reflexivity.
Qed.

(** On a miss it calls the simulator once and writes one terminal row. *)
Lemma ensure_economy_computed_miss c p r t o w :
  Database.get_in_table (db w) "economy" (economy_key c p r t o) = None →
  ensure_economy_computed c p r t o w =
  (Ok JNull,
   World
     (Database.set_in_table (db w) "economy" (economy_key c p r t o)
        (economy_row_of (compute_economy c p r t o)) None)
     (writes w ++
        [Write "economy" (economy_key c p r t o)
           (economy_row_of (compute_economy c p r t o)) true])
     (simulator_calls w ++ [SimulatorCall c p r t o])
     (comparator_calls w) (slot_calls w) (threads w)).
Proof.
  intros Hmiss. unfold ensure_economy_computed.
  erewrite bind_ok; [|unfold get_in_table; by rewrite Hmiss].
  unfold mbind, M_bind, try_except, call_compute_economy, set_in_table.
  destruct (compute_economy c p r t o) as [payload|e]; simpl;
    by rewrite Hmiss.
Qed.

(** A failure of the simulator never leaves [ensure_economy_computed]. *)
Lemma ensure_economy_computed_returns c p r t o w :
  ∃ w', ensure_economy_computed c p r t o w = (Ok JNull, w').
Proof.
  destruct (Database.get_in_table (db w) "economy" (economy_key c p r t o))
    as [cached|] eqn:Hget.
  - eexists. by eapply ensure_economy_computed_hit.
  - eexists. by apply ensure_economy_computed_miss.
Qed.

(** The status column of the economy record of a key, if any. *)
Lemma economy_row_of_status outcome :
  economy_row_of outcome !! "status" =
  Some (VStr (match outcome with Ok _ => "ok" | Raise _ => "error" end)).
Proof. by destruct outcome. Qed.

Lemma ensure_economy_computed_frame c p r t o w :
  ∃ w', ensure_economy_computed c p r t o w = (Ok JNull, w') ∧
    comparator_calls w' = comparator_calls w ∧
    threads w' = threads w ∧
    ∀ table_name kwargs, table_name ≠ "economy" →
      Database.get_in_table (db w') table_name kwargs
      = Database.get_in_table (db w) table_name kwargs.
Proof.
  destruct (Database.get_in_table (db w) "economy" (economy_key c p r t o))
    as [cached|] eqn:Hget.
  - exists w. split; [by eapply ensure_economy_computed_hit|done].
  - eexists. split; [by apply ensure_economy_computed_miss|].
    simpl. repeat split. intros table_name kwargs Hne.
    by apply get_set_in_table_other.
Qed.

Lemma ensure_required_frame b p c r t o w :
  ∃ w', ensure_required b p c r t o w = (Ok tt, w') ∧
    comparator_calls w' = comparator_calls w ∧
    threads w' = threads w ∧
    ∀ table_name kwargs, table_name ≠ "economy" →
      Database.get_in_table (db w') table_name kwargs
      = Database.get_in_table (db w) table_name kwargs.
Proof.
  destruct (ensure_economy_computed_frame c b r t o w)
    as (w1 & Hb & Hcmp1 & Hth1 & Hdb1).
  destruct (ensure_economy_computed_frame c p r t o w1)
    as (w2 & Hp & Hcmp2 & Hth2 & Hdb2).
  exists w2. split.
  - unfold ensure_required. simpl.
    erewrite bind_ok by exact Hb. erewrite bind_ok by exact Hp. done.
  - split; [congruence|]. split; [congruence|].
    intros table_name kwargs Hne. by rewrite Hdb2, Hdb1.
Qed.

Lemma reform_impact_key_disjoint c p b r t o (update : row) :
  dom update ⊆ {["reform_impact_json"; "status"; "message"]} →
  reform_impact_key c p b r t o ##ₘ update.
Proof.
  intros Hdom. apply map_disjoint_dom. unfold reform_impact_key, mkrow.
  simpl. rewrite !dom_insert_L. set_solver.
Qed.

(** C2, as amended: when, after the two prerequisites have been ensured,
    at least one of the two economy records has a status other than ok,
    the resolver writes the reform-impact record with status error and the
    message [Baseline or reform economy computation failed.], and the
    comparator is not called. *)
Theorem dependency_failure_propagates b p c r t o w sb sp :
  let w2 := (ensure_required b p c r t o w).2 in
  economy_status w2 (economy_key c b r t o) = Some sb →
  economy_status w2 (economy_key c p r t o) = Some sp →
  sb ≠ VStr "ok" ∨ sp ≠ VStr "ok" →
  ∃ w',
    set_reform_impact_data b p c r t o w = (Ok JNull, w') ∧
    comparator_calls w' = comparator_calls w ∧
    column_of w' "reform_impact" (reform_impact_key c p b r t o) "status"
      = Some (VStr "error") ∧
    column_of w' "reform_impact" (reform_impact_key c p b r t o) "message"
      = Some (VStr "Baseline or reform economy computation failed.").
Proof.
  destruct (ensure_required_frame b p c r t o w)
    as (w2 & Hreq & Hcmp & _ & _).
  rewrite Hreq. simpl. unfold economy_status, column_of.
  intros Hsb Hsp Hfail.
  destruct (Database.get_in_table (db w2) "economy" (economy_key c b r t o))
    as [rb|] eqn:Hrb; [|done].
  destruct (Database.get_in_table (db w2) "economy" (economy_key c p r t o))
    as [rp|] eqn:Hrp; [|done].
  simpl in Hsb, Hsp.
  set (update := mkrow [("reform_impact_json", VStr (json_dumps (JDict [])));
                        ("status", VStr "error");
                        ("message", VStr dependency_failure_message)]).
  destruct (get_set_in_table_holds (db w2) "reform_impact"
              (reform_impact_key c p b r t o) update None)
    as (record & Hrecord & Hsub).
  { apply reform_impact_key_disjoint. unfold update, mkrow. simpl.
    rewrite !dom_insert_L. set_solver. }
  exists (World
            (Database.set_in_table (db w2) "reform_impact"
               (reform_impact_key c p b r t o) update None)
            (writes w2 ++
               [Write "reform_impact" (reform_impact_key c p b r t o) update
                  (bool_decide
                     (Database.get_in_table (db w2) "reform_impact"
                        (reform_impact_key c p b r t o) = None))])
            (simulator_calls w2) (comparator_calls w2) (slot_calls w2)
            (threads w2)).
  split; [|split; [exact Hcmp|]].
  - unfold set_reform_impact_data.
    erewrite bind_ok by exact Hreq.
    unfold mbind, M_bind, get_in_table, lift, getitem.
    rewrite Hrb, Hrp, Hsb. simpl.
    destruct (decide (sb = VStr "ok")) as [->|Hne].
    + rewrite bool_decide_eq_false_2 by (intros Hx; by apply Hx).
      rewrite Hsp. simpl.
      rewrite bool_decide_eq_true_2 by (destruct Hfail; done).
      reflexivity.
    + rewrite bool_decide_eq_true_2 by done. reflexivity.
  - simpl. rewrite Hrecord. simpl.
    split; eapply lookup_weaken; try exact Hsub; reflexivity.
Qed.

(** C4: when both economy records have status ok after the prerequisites
    have been ensured, the written reform-impact record has status ok and
    its payload is the output of the comparator on exactly the two stored
    results, the baseline first; the comparator is called once. *)
Theorem reform_impact_is_comparison
    b p c r t o w rb rp text_b text_p result_b result_p impact :
  let w2 := (ensure_required b p c r t o w).2 in
  Database.get_in_table (db w2) "economy" (economy_key c b r t o) = Some rb →
  Database.get_in_table (db w2) "economy" (economy_key c p r t o) = Some rp →
  rb !! "status" = Some (VStr "ok") →
  rp !! "status" = Some (VStr "ok") →
  rb !! "economy_json" = Some (VStr text_b) →
  rp !! "economy_json" = Some (VStr text_p) →
  json_loads text_b = Ok result_b →
  json_loads text_p = Ok result_p →
  compare_economic_outputs result_b result_p = Ok impact →
  ∃ w',
    set_reform_impact_data b p c r t o w = (Ok JNull, w') ∧
    comparator_calls w' = comparator_calls w ++ [(result_b, result_p)] ∧
    column_of w' "reform_impact" (reform_impact_key c p b r t o) "status"
      = Some (VStr "ok") ∧
    column_of w' "reform_impact" (reform_impact_key c p b r t o)
      "reform_impact_json" = Some (VStr (json_dumps impact)).
Proof.
  destruct (ensure_required_frame b p c r t o w)
    as (w2 & Hreq & Hcmp & _ & _).
  rewrite Hreq. simpl.
  intros Hrb Hrp Hsb Hsp Htb Htp Hlb Hlp Himpact.
  set (update := mkrow [("reform_impact_json", VStr (json_dumps impact));
                        ("status", VStr "ok")]).
  destruct (get_set_in_table_holds (db w2) "reform_impact"
              (reform_impact_key c p b r t o) update None)
    as (record & Hrecord & Hsub).
  { apply reform_impact_key_disjoint. unfold update, mkrow. simpl.
    rewrite !dom_insert_L. set_solver. }
  exists (World
            (Database.set_in_table (db w2) "reform_impact"
               (reform_impact_key c p b r t o) update None)
            (writes w2 ++
               [Write "reform_impact" (reform_impact_key c p b r t o) update
                  (bool_decide
                     (Database.get_in_table (db w2) "reform_impact"
                        (reform_impact_key c p b r t o) = None))])
            (simulator_calls w2)
            (comparator_calls w2 ++ [(result_b, result_p)]) (slot_calls w2)
            (threads w2)).
  split; [|split; [simpl; by rewrite Hcmp|]].
  - unfold set_reform_impact_data.
    erewrite bind_ok by exact Hreq.
    unfold mbind, M_bind, get_in_table, lift, getitem, text_of,
      call_compare_economic_outputs, set_in_table.
    rewrite Hrb, Hrp, Hsb. simpl.
    rewrite Hsp. simpl. rewrite Htb, Hlb, Htp, Hlp, Himpact. reflexivity.
  - unfold column_of. simpl. rewrite Hrecord. simpl.
    split; eapply lookup_weaken; try exact Hsub; reflexivity.
Qed.

(** Under the same conditions, a comparator that raises ends the resolver
    with its exception, and nothing is written after the prerequisites. *)
Lemma comparator_failure_propagates
    b p c r t o w rb rp text_b text_p result_b result_p e :
  let w2 := (ensure_required b p c r t o w).2 in
  Database.get_in_table (db w2) "economy" (economy_key c b r t o) = Some rb →
  Database.get_in_table (db w2) "economy" (economy_key c p r t o) = Some rp →
  rb !! "status" = Some (VStr "ok") →
  rp !! "status" = Some (VStr "ok") →
  rb !! "economy_json" = Some (VStr text_b) →
  rp !! "economy_json" = Some (VStr text_p) →
  json_loads text_b = Ok result_b →
  json_loads text_p = Ok result_p →
  compare_economic_outputs result_b result_p = Raise e →
  ∃ w',
    set_reform_impact_data b p c r t o w = (Raise e, w') ∧
    db w' = db w2 ∧ writes w' = writes w2.
Proof.
  destruct (ensure_required_frame b p c r t o w) as (w2 & Hreq & _).
  rewrite Hreq. simpl.
  intros Hrb Hrp Hsb Hsp Htb Htp Hlb Hlp Hraise.
  eexists. split; [|split].
  - unfold set_reform_impact_data.
    erewrite bind_ok by exact Hreq.
    unfold mbind, M_bind, get_in_table, lift, getitem, text_of,
      call_compare_economic_outputs, set_in_table.
    rewrite Hrb, Hrp, Hsb. simpl.
    rewrite Hsp. simpl. rewrite Htb, Hlb, Htp, Hlp, Hraise. reflexivity.
  - reflexivity.
  - reflexivity.
Qed.

(** C7, as amended: a second [ensure_economy_computed] after a first one
    that computed the key with status ok changes nothing: it returns [None]
    like the first, the world after it is the world before it, so the
    stored record is unchanged and the simulator has been called exactly
    once over the two calls, and a lookup of the key yields the stored
    payload of the first call. *)
Theorem ensure_economy_computed_idempotent c p r t o w payload :
  Database.get_in_table (db w) "economy" (economy_key c p r t o) = None →
  compute_economy c p r t o = Ok payload →
  ∃ w1 stored,
    ensure_economy_computed c p r t o w = (Ok JNull, w1) ∧
    ensure_economy_computed c p r t o w1 = (Ok JNull, w1) ∧
    simulator_calls w1 = simulator_calls w ++ [SimulatorCall c p r t o] ∧
    Database.get_in_table (db w1) "economy" (economy_key c p r t o)
      = Some stored ∧
    stored !! "status" = Some (VStr "ok") ∧
    stored !! "economy_json" = Some (VStr (json_dumps payload)).
Proof.
  intros Hmiss Hsim.
  pose proof (ensure_economy_computed_miss c p r t o w Hmiss) as Hfirst.
  rewrite Hsim in Hfirst.
  pose proof (get_set_in_table (db w) "economy" (economy_key c p r t o)
                (economy_row_of (Ok payload)) None
                (economy_key_disjoint c p r t o (Ok payload))) as Hget.
  rewrite Hmiss in Hget.
  eexists _, _. split; [exact Hfirst|].
  split; [eapply ensure_economy_computed_hit; exact Hget|].
  split; [reflexivity|]. split; [exact Hget|].
  split; reflexivity.
Qed.

(** C10: without a current-law policy row for the country,
    [get_current_law_policy_id] raises, and a compare request without a
    baseline policy id ends with that exception instead of a response. *)
Theorem compare_without_current_law_raises
    args country_id policy_id w region time_period options options' pkg :
  dict_pop "region" args = (Some region, options') →
  dict_pop "time_period" options' = (Some time_period, options) →
  countries_get country_id = Some pkg →
  Database.get_in_table (db w) "policy"
    (mkrow [("country_id", VStr country_id);
            ("policy_hash", VStr (hash_object (JDict [])))]) = None →
  get_current_law_policy_id country_id w
    = (Raise none_not_subscriptable, w) ∧
  score_policy_reform_against_baseline args country_id policy_id None w
    = (Raise none_not_subscriptable, w).
Proof.
  intros Hregion Htime Hcountry Hrow.
  assert (get_current_law_policy_id country_id w
            = (Raise none_not_subscriptable, w)) as Hraise.
  { unfold get_current_law_policy_id.
    erewrite bind_ok; [|unfold get_in_table; by rewrite Hrow]. done. }
  split; [exact Hraise|].
  unfold score_policy_reform_against_baseline.
  rewrite Hregion, Htime, Hcountry.
  by erewrite bind_raise.
Qed.

Lemma economy_key_policy_id c q r t o outcome :
  (economy_row_of outcome ∪ economy_key c q r t o) !! "policy_id" = Some q.
Proof. by destruct outcome. Qed.

Lemma economy_key_no_match c q q' r t o outcome :
  q ≠ q' →
  Database.matches (economy_key c q' r t o)
    (economy_row_of outcome ∪ economy_key c q r t o) = false.
Proof.
  intros Hne. apply not_true_is_false. rewrite matches_subseteq.
  intros Hsub.
  assert (economy_key c q' r t o !! "policy_id" = Some q') as Hq' by done.
  eapply lookup_weaken in Hq'; [|exact Hsub].
  rewrite economy_key_policy_id in Hq'. congruence.
Qed.

Lemma economy_key_inj c q q' r t o :
  economy_key c q r t o = economy_key c q' r t o → q = q'.
Proof.
  intros Heq. apply (f_equal (.!! "policy_id")) in Heq.
  by injection Heq.
Qed.

Local Abbreviation economy_write c q r t o :=
  (Write "economy" (economy_key c q r t o)
     (economy_row_of (compute_economy c q r t o)) true).

Lemma economy_write_summary c q r t o :
  ∃ status, (status = "ok" ∨ status = "error") ∧
    write_summary (economy_write c q r t o) = (Some (VStr status), true).
Proof.
  unfold write_summary. simpl. rewrite economy_row_of_status.
  destruct (compute_economy c q r t o); eauto.
Qed.

Lemma writes_under_economy_write c q r t o :
  writes_under [economy_write c q r t o] "economy" (economy_key c q r t o)
  = [economy_write c q r t o].
Proof. rewrite writes_under_single. by rewrite decide_True. Qed.

Lemma writes_under_economy_write_ne c q q' r t o :
  q ≠ q' →
  writes_under [economy_write c q r t o] "economy" (economy_key c q' r t o)
  = [].
Proof.
  intros Hne. rewrite writes_under_single. rewrite decide_False; [done|].
  intros [_ Heq]. simpl in Heq. by apply economy_key_inj in Heq.
Qed.

(** The writes of the loop over the prerequisites: they all go to the
    economy table, and a prerequisite that the cache did not hold is written
    exactly once, by an insert that carries its terminal status. *)
Lemma ensure_required_events b p c r t o w :
  ∃ w' events,
    ensure_required b p c r t o w = (Ok tt, w') ∧
    writes w' = writes w ++ events ∧
    Forall (λ e, w_table e = "economy") events ∧
    ∀ q, q = b ∨ q = p →
      Database.get_in_table (db w) "economy" (economy_key c q r t o) = None →
      ∃ status, (status = "ok" ∨ status = "error") ∧
        write_summary <$>
          writes_under events "economy" (economy_key c q r t o)
        = [(Some (VStr status), true)].
Proof.
  unfold ensure_required. simpl.
  destruct (Database.get_in_table (db w) "economy" (economy_key c b r t o))
    as [cached_b|] eqn:Hb.
  - (* the baseline is cached *)
    erewrite bind_ok by (by eapply ensure_economy_computed_hit).
    destruct (Database.get_in_table (db w) "economy" (economy_key c p r t o))
      as [cached_p|] eqn:Hp.
    + erewrite bind_ok by (by eapply ensure_economy_computed_hit).
      exists w, []. rewrite app_nil_r. repeat split; [done|].
      intros q [-> | ->]; congruence.
    + erewrite bind_ok by (by eapply ensure_economy_computed_miss).
      eexists _, [economy_write c p r t o]. repeat split.
      { by repeat constructor. }
      intros q [-> | ->] Hq; [congruence|].
      rewrite writes_under_economy_write.
      destruct (economy_write_summary c p r t o) as (status & ? & Hsum).
      exists status. split; [done|]. simpl. by rewrite Hsum.
  - (* the baseline is computed *)
    erewrite bind_ok by (by eapply ensure_economy_computed_miss).
    set (wb := World _ _ _ _ _ _).
    destruct (Database.get_in_table (db wb) "economy" (economy_key c p r t o))
      as [cached_p|] eqn:Hp.
    + erewrite bind_ok by (by eapply ensure_economy_computed_hit).
      eexists wb, [economy_write c b r t o]. repeat split.
      { by repeat constructor. }
      intros q Hq Hmiss.
      assert (q = b) as ->.
      { destruct Hq as [-> | ->]; [done|].
        destruct (decide (b = p)) as [|Hne]; [done|]. exfalso.
        unfold wb in Hp. simpl in Hp.
        rewrite get_set_in_table_miss in Hp; [done..|].
        by apply economy_key_no_match. }
      rewrite writes_under_economy_write.
      destruct (economy_write_summary c b r t o) as (status & ? & Hsum).
      exists status. split; [done|]. simpl. by rewrite Hsum.
    + erewrite bind_ok by (by eapply ensure_economy_computed_miss).
      assert (b ≠ p) as Hne.
      { intros ->. unfold wb in Hp. simpl in Hp.
        rewrite get_set_in_table in Hp by apply economy_key_disjoint.
        done. }
      eexists _, [economy_write c b r t o; economy_write c p r t o].
      repeat split.
      { simpl. by rewrite <- app_assoc. }
      { by repeat constructor. }
      intros q Hq Hmiss.
      change [economy_write c b r t o; economy_write c p r t o]
        with ([economy_write c b r t o] ++ [economy_write c p r t o]).
      rewrite writes_under_app.
      destruct Hq as [-> | ->].
      * rewrite writes_under_economy_write,
          (writes_under_economy_write_ne c p b) by done.
        destruct (economy_write_summary c b r t o) as (status & ? & Hsum).
        exists status. split; [done|]. simpl. by rewrite Hsum.
      * rewrite writes_under_economy_write,
          (writes_under_economy_write_ne c b p) by done.
        destruct (economy_write_summary c p r t o) as (status & ? & Hsum).
        exists status. split; [done|]. simpl. by rewrite Hsum.
Qed.

(** When [set_reform_impact_data] returns, it has made one write to the
    reform-impact table after the writes of the prerequisites, and that
    write sets status ok or status error. *)
Lemma set_reform_impact_data_returns b p c r t o w w2 :
  set_reform_impact_data b p c r t o w = (Ok JNull, w2) →
  ∃ w' update status,
    ensure_required b p c r t o w = (Ok tt, w') ∧
    (status = "ok" ∨ status = "error") ∧
    update !! "status" = Some (VStr status) ∧
    writes w2 =
      writes w' ++
        [Write "reform_impact" (reform_impact_key c p b r t o) update
           (bool_decide
              (Database.get_in_table (db w') "reform_impact"
                 (reform_impact_key c p b r t o) = None))] ∧
    column_of w2 "reform_impact" (reform_impact_key c p b r t o) "status"
      = Some (VStr status).
Proof.
  destruct (ensure_required_frame b p c r t o w) as (w' & Hreq & _).
  unfold set_reform_impact_data.
  unfold mbind, M_bind, get_in_table, lift, getitem, text_of,
    call_compare_economic_outputs, set_in_table, raise.
  intros Hrun. rewrite Hreq in Hrun.
  assert (∀ update status d,
    update !! "status" = Some (VStr status) →
    dom update ⊆ {["reform_impact_json"; "status"; "message"]} →
    (Database.get_in_table
       (Database.set_in_table d "reform_impact"
          (reform_impact_key c p b r t o) update None)
       "reform_impact" (reform_impact_key c p b r t o) ≫= (.!! "status"))
    = Some (VStr status)) as Hcolumn.
  { intros update status d Hstatus Hdom.
    destruct (get_set_in_table_holds d "reform_impact"
                (reform_impact_key c p b r t o) update None)
      as (record & -> & Hsub); [by apply reform_impact_key_disjoint|].
    simpl. by eapply lookup_weaken. }
  assert (∀ update status sims cmps slots ths,
    update !! "status" = Some (VStr status) →
    status = "ok" ∨ status = "error" →
    dom update ⊆ {["reform_impact_json"; "status"; "message"]} →
    (Ok JNull,
     World
       (Database.set_in_table (db w') "reform_impact"
          (reform_impact_key c p b r t o) update None)
       (writes w' ++
          [Write "reform_impact" (reform_impact_key c p b r t o) update
             (bool_decide
                (Database.get_in_table (db w') "reform_impact"
                   (reform_impact_key c p b r t o) = None))])
       sims cmps slots ths) = (Ok JNull, w2) →
    ∃ w'0 update0 status0,
      (Ok (), w') = (Ok (), w'0) ∧
      (status0 = "ok" ∨ status0 = "error") ∧
      update0 !! "status" = Some (VStr status0) ∧
      writes w2 =
        writes w'0 ++
          [Write "reform_impact" (reform_impact_key c p b r t o) update0
             (bool_decide
                (Database.get_in_table (db w'0) "reform_impact"
                   (reform_impact_key c p b r t o) = None))] ∧
      column_of w2 "reform_impact" (reform_impact_key c p b r t o) "status"
        = Some (VStr status0)) as Hfinish.
  { intros update status sims cmps slots ths Hstatus Hterminal Hdom [= <-].
    exists w', update, status. split; [done|]. split; [done|].
    split; [done|]. split; [done|].
    unfold column_of. simpl. by apply Hcolumn. }
  rewrite Hreq.
  destruct (Database.get_in_table (db w') "economy" (economy_key c b r t o))
    as [rb|]; [|done].
  destruct (rb !! "status") as [sb|]; [simpl in Hrun|done].
  assert (dom (mkrow [("reform_impact_json", VStr (json_dumps (JDict [])));
                      ("status", VStr "error");
                      ("message", VStr dependency_failure_message)])
            ⊆ ({["reform_impact_json"; "status"; "message"]} : gset string))
    as Hdom_error.
  { unfold mkrow. simpl. rewrite !dom_insert_L. set_solver. }
  revert Hrun. destruct (bool_decide (sb ≠ VStr "ok")); intros Hrun.
  { simpl in Hrun. eapply Hfinish; [| |exact Hdom_error|exact Hrun];
      [reflexivity|by right]. }
  destruct (Database.get_in_table (db w') "economy" (economy_key c p r t o))
    as [rp|]; [|done].
  destruct (rp !! "status") as [sp|]; [simpl in Hrun|done].
  revert Hrun. destruct (bool_decide (sp ≠ VStr "ok")); intros Hrun.
  { simpl in Hrun. eapply Hfinish; [| |exact Hdom_error|exact Hrun];
      [reflexivity|by right]. }
  simpl in Hrun.
  destruct (rb !! "economy_json") as [[| |text_b]|]; try done.
  simpl in Hrun.
  destruct (json_loads text_b) as [result_b|]; [|done].
  destruct (rp !! "economy_json") as [[| |text_p]|]; try done.
  simpl in Hrun.
  destruct (json_loads text_p) as [result_p|]; [|done].
  destruct (compare_economic_outputs result_b result_p) as [impact|];
    [|done].
  simpl in Hrun.
  eapply Hfinish; [| | |exact Hrun]; [reflexivity|by left|].
  unfold mkrow. simpl. rewrite !dom_insert_L. set_solver.
Qed.

Lemma score_policy_reform_against_baseline_miss
    args c p b w region time_period options options' pkg :
  dict_pop "region" args = (Some region, options') →
  dict_pop "time_period" options' = (Some time_period, options) →
  countries_get c = Some pkg →
  Database.get_in_table (db w) "reform_impact"
    (reform_impact_key c p b region time_period options) = None →
  score_policy_reform_against_baseline args c p (Some b) w =
  (Ok (Body (JDict [("status", JStr "computing")])),
   World
     (Database.set_in_table (db w) "reform_impact"
        (reform_impact_key c p b region time_period options)
        (mkrow [("reform_impact_json", VStr (json_dumps (JDict [])));
                ("status", VStr "computing")]) None)
     (writes w ++
        [Write "reform_impact"
           (reform_impact_key c p b region time_period options)
           (mkrow [("reform_impact_json", VStr (json_dumps (JDict [])));
                   ("status", VStr "computing")]) true])
     (simulator_calls w) (comparator_calls w) (slot_calls w)
     (threads w ++ [Thread b p c region time_period options])).
Proof.
  intros Hregion Htime Hcountry Hmiss.
  unfold score_policy_reform_against_baseline.
  rewrite Hregion, Htime, Hcountry.
  unfold mbind, M_bind, get_in_table, set_in_table, thread_start. simpl.
  rewrite Hmiss. simpl. rewrite Hmiss. reflexivity.
Qed.

(** On a cache hit the request writes nothing and starts no thread. *)
Lemma score_policy_reform_against_baseline_hit
    args c p b w region time_period options options' pkg cached :
  dict_pop "region" args = (Some region, options') →
  dict_pop "time_period" options' = (Some time_period, options) →
  countries_get c = Some pkg →
  Database.get_in_table (db w) "reform_impact"
    (reform_impact_key c p b region time_period options) = Some cached →
  score_policy_reform_against_baseline args c p (Some b) w =
  (Ok (Body (JDict [("status", JStr "computing")])), w).
Proof.
  intros Hregion Htime Hcountry Hhit.
  unfold score_policy_reform_against_baseline.
  rewrite Hregion, Htime, Hcountry.
  unfold mbind, M_bind, get_in_table. simpl. by rewrite Hhit.
Qed.

(** A request without a baseline is the request with the current law as
    its baseline. *)
Lemma score_policy_reform_against_baseline_current_law
    args c p baseline b w :
  baseline = Some b
  ∨ baseline = None ∧ (get_current_law_policy_id c w).1 = Ok b →
  score_policy_reform_against_baseline args c p baseline w
  = score_policy_reform_against_baseline args c p (Some b) w.
Proof.
  intros [->|[-> Hcurrent]]; [done|].
  unfold score_policy_reform_against_baseline.
  destruct (dict_pop "region" args) as [[region|] options']; [|done].
  destruct (dict_pop "time_period" options') as [[time_period|] options];
    [|done].
  destruct (countries_get c); [|done].
  unfold mbind at 1 4, M_bind.
  unfold get_current_law_policy_id, mbind, M_bind, get_in_table in *.
  destruct (Database.get_in_table (db w) "policy" _) as [r|];
    simpl in Hcurrent; [|done].
  injection Hcurrent as <-. reflexivity.
Qed.

(** C5, as amended: when a request misses and its resolver thread then
    runs on the state that the request left, the reform-impact record is
    written exactly twice under its key, first by the insert of the
    computing placeholder and then by one update to ok or error; an economy
    record that the run computes is written exactly once, by an insert that
    already carries its terminal status ok or error. The baseline is the
    one given, or the current law when none is given. *)
Theorem write_discipline
    args c p baseline b w region time_period options options' pkg :
  dict_pop "region" args = (Some region, options') →
  dict_pop "time_period" options' = (Some time_period, options) →
  countries_get c = Some pkg →
  baseline = Some b
  ∨ baseline = None ∧ (get_current_law_policy_id c w).1 = Ok b →
  Database.get_in_table (db w) "reform_impact"
    (reform_impact_key c p b region time_period options) = None →
  ∃ w1,
    score_policy_reform_against_baseline args c p baseline w =
      (Ok (Body (JDict [("status", JStr "computing")])), w1) ∧
    threads w1 = threads w ++ [Thread b p c region time_period options] ∧
    ∀ w2,
      run_thread (Thread b p c region time_period options) w1
        = (Ok JNull, w2) →
      ∃ events status,
        writes w2 = writes w ++ events ∧
        (status = "ok" ∨ status = "error") ∧
        column_of w2 "reform_impact"
          (reform_impact_key c p b region time_period options) "status"
          = Some (VStr status) ∧
        write_summary <$>
          writes_under events "reform_impact"
            (reform_impact_key c p b region time_period options)
          = [(Some (VStr "computing"), true); (Some (VStr status), false)] ∧
        ∀ q, q = b ∨ q = p →
          Database.get_in_table (db w) "economy"
            (economy_key c q region time_period options) = None →
          ∃ status_q, (status_q = "ok" ∨ status_q = "error") ∧
            write_summary <$>
              writes_under events "economy"
                (economy_key c q region time_period options)
            = [(Some (VStr status_q), true)].
Proof.
  intros Hregion Htime Hcountry Hbaseline Hmiss.
  rewrite (score_policy_reform_against_baseline_current_law _ _ _ _ b)
    by exact Hbaseline.
  eexists. split; [by eapply score_policy_reform_against_baseline_miss|].
  split; [reflexivity|].
  set (key := reform_impact_key c p b region time_period options).
  set (placeholder :=
         mkrow [("reform_impact_json", VStr (json_dumps (JDict [])));
                ("status", VStr "computing")]).
  set (w1 := World _ _ _ _ _ _).
  intros w2 Hrun. unfold run_thread in Hrun. simpl in Hrun.
  apply set_reform_impact_data_returns in Hrun
    as (w' & update & status & Hreq & Hterminal & Hstatus & Hwrites & Hcol).
  destruct (ensure_required_events b p c region time_period options w1)
    as (w'' & events & Hreq' & Hevents & Hall & Heconomy).
  assert (w'' = w') as -> by congruence.
  destruct (ensure_required_frame b p c region time_period options w1)
    as (w'' & Hreq'' & _ & _ & Hframe).
  assert (w'' = w') as -> by congruence.
  assert (Database.get_in_table (db w') "reform_impact" key ≠ None)
    as Hplaced.
  { rewrite Hframe by done. unfold w1. simpl.
    rewrite get_set_in_table; [done|].
    apply reform_impact_key_disjoint. unfold placeholder, mkrow. simpl.
    rewrite !dom_insert_L. set_solver. }
  rewrite bool_decide_eq_false_2 in Hwrites by done.
  exists ([Write "reform_impact" key placeholder true] ++ events
            ++ [Write "reform_impact" key update false]), status.
  split; [|split; [done|split; [done|split]]].
  - rewrite Hwrites, Hevents. unfold w1. simpl.
    by rewrite <- !app_assoc.
  - rewrite !writes_under_app, !writes_under_single.
    rewrite !decide_True by done.
    rewrite (writes_under_other_table events "reform_impact" "economy")
      by done.
    simpl. unfold write_summary. simpl. by rewrite Hstatus.
  - intros q Hq Hmiss_q.
    rewrite !writes_under_app, !writes_under_single.
    rewrite !decide_False by (intros [? _]; done).
    rewrite app_nil_r. simpl. apply Heconomy; [done|].
    unfold w1. simpl. by rewrite get_set_in_table_other.
Qed.
End ComputeApiFacts.

(** ** The scenario: instances and evaluations *)

Lemma compare_without_current_law_raises_witness :
  @get_current_law_policy_id Scenario.external "uk" Scenario.empty_world
    = (Raise none_not_subscriptable, Scenario.empty_world) ∧
  @score_policy_reform_against_baseline Scenario.external Scenario.args "uk"
    (VStr "2") None Scenario.empty_world
    = (Raise none_not_subscriptable, Scenario.empty_world).
Proof.
  apply (@compare_without_current_law_raises Scenario.external Scenario.args
           "uk" (VStr "2") Scenario.empty_world "uk" "2024" []
           [("time_period", "2024")] "policyengine_uk");
    reflexivity.
Defined.

(** C7, as the claim states it, fails on what the call returns: after a
    first call that resolved the key to status ok, both calls have returned
    [None], not the stored payload, which only a lookup of the key yields. *)
Lemma ensure_returns_none :
  let key :=
    @economy_key Scenario.external "uk" (VStr "1") "uk" "2024" [] in
  let first :=
    @ensure_economy_computed Scenario.external "uk" (VStr "1") "uk" "2024" []
      Scenario.empty_world in
  let second :=
    @ensure_economy_computed Scenario.external "uk" (VStr "1") "uk" "2024" []
      first.2 in
  economy_status first.2 key = Some (VStr "ok") ∧
  column_of second.2 "economy" key "economy_json"
    = Some (VStr (json_dumps Scenario.baseline_result)) ∧
  @json_loads Scenario.external (json_dumps Scenario.baseline_result)
    = Ok Scenario.baseline_result ∧
  first.1 = Ok JNull ∧
  second.1 = Ok JNull ∧
  second.1 ≠ Ok Scenario.baseline_result.
Proof. vm_compute. repeat split. discriminate. Qed.

Lemma ensure_economy_computed_idempotent_witness :
  ∃ w1 stored,
    @ensure_economy_computed Scenario.external "uk" (VStr "1") "uk" "2024" []
      Scenario.empty_world = (Ok JNull, w1) ∧
    @ensure_economy_computed Scenario.external "uk" (VStr "1") "uk" "2024" []
      w1 = (Ok JNull, w1) ∧
    simulator_calls w1 =
      simulator_calls Scenario.empty_world
        ++ [SimulatorCall "uk" (VStr "1") "uk" "2024" []] ∧
    Database.get_in_table (db w1) "economy"
      (@economy_key Scenario.external "uk" (VStr "1") "uk" "2024" [])
      = Some stored ∧
    stored !! "status" = Some (VStr "ok") ∧
    stored !! "economy_json"
      = Some (VStr (json_dumps Scenario.baseline_result)).
Proof.
  apply (@ensure_economy_computed_idempotent Scenario.external "uk" (VStr "1")
           "uk" "2024" [] Scenario.empty_world Scenario.baseline_result);
    reflexivity.
Defined.

Lemma dependency_failure_propagates_witness :
  ∃ w',
    @set_reform_impact_data Scenario.external (VStr "3") (VStr "2") "uk" "uk"
      "2024" [] Scenario.empty_world = (Ok JNull, w') ∧
    comparator_calls w' = comparator_calls Scenario.empty_world ∧
    column_of w' "reform_impact"
      (@reform_impact_key Scenario.external "uk" (VStr "2") (VStr "3") "uk"
         "2024" []) "status" = Some (VStr "error") ∧
    column_of w' "reform_impact"
      (@reform_impact_key Scenario.external "uk" (VStr "2") (VStr "3") "uk"
         "2024" []) "message"
      = Some (VStr "Baseline or reform economy computation failed.").
Proof.
  apply (@dependency_failure_propagates Scenario.external (VStr "3")
           (VStr "2") "uk" "uk" "2024" [] Scenario.empty_world
           (VStr "error") (VStr "ok")).
  - vm_compute. reflexivity.
  - vm_compute. reflexivity.
  - left. discriminate.
Defined.

(** C2, as the claim states it, fails on the text of the message: after
    the simulator has failed on the baseline policy 3, the reform-impact
    record has status error and a message, but not the message of the
    claim. *)
Lemma dependency_failure_message_differs :
  let w' :=
    (@set_reform_impact_data Scenario.external (VStr "3") (VStr "2") "uk"
       "uk" "2024" [] Scenario.empty_world).2 in
  let key :=
    @reform_impact_key Scenario.external "uk" (VStr "2") (VStr "3") "uk"
      "2024" [] in
  economy_status w'
    (@economy_key Scenario.external "uk" (VStr "3") "uk" "2024" [])
    = Some (VStr "error") ∧
  column_of w' "reform_impact" key "status" = Some (VStr "error") ∧
  column_of w' "reform_impact" key "message"
    ≠ Some (VStr "baseline or reform economy computation failed").
Proof. vm_compute. repeat split. discriminate. Qed.

Lemma reform_impact_is_comparison_witness :
  ∃ w',
    @set_reform_impact_data Scenario.external (VStr "1") (VStr "2") "uk" "uk"
      "2024" [] Scenario.empty_world = (Ok JNull, w') ∧
    comparator_calls w' =
      comparator_calls Scenario.empty_world
        ++ [(Scenario.baseline_result, Scenario.reform_result)] ∧
    column_of w' "reform_impact"
      (@reform_impact_key Scenario.external "uk" (VStr "2") (VStr "1") "uk"
         "2024" []) "status" = Some (VStr "ok") ∧
    column_of w' "reform_impact"
      (@reform_impact_key Scenario.external "uk" (VStr "2") (VStr "1") "uk"
         "2024" []) "reform_impact_json" =
      Some (VStr (json_dumps
                    (JDict [("baseline", Scenario.baseline_result);
                            ("reform", Scenario.reform_result)]))).
Proof.
  apply (@reform_impact_is_comparison Scenario.external (VStr "1") (VStr "2")
           "uk" "uk" "2024" [] Scenario.empty_world
           (economy_row_of (Ok Scenario.baseline_result)
              ∪ @economy_key Scenario.external "uk" (VStr "1") "uk" "2024" [])
           (economy_row_of (Ok Scenario.reform_result)
              ∪ @economy_key Scenario.external "uk" (VStr "2") "uk" "2024" [])
           (json_dumps Scenario.baseline_result)
           (json_dumps Scenario.reform_result)
           Scenario.baseline_result Scenario.reform_result).
  - by_computation.
  - by_computation.
  - vm_compute. reflexivity.
  - vm_compute. reflexivity.
  - vm_compute. reflexivity.
  - vm_compute. reflexivity.
  - vm_compute. reflexivity.
  - vm_compute. reflexivity.
  - vm_compute. reflexivity.
Defined.

(** C3: a failure of the comparator is not caught. With two economies in
    status ok and a comparator that raises, the exception leaves
    [set_reform_impact_data], no terminal record is written, and the
    reform-impact record stays in status computing. *)
Theorem comparator_failure_escapes :
  let request :=
    @score_policy_reform_against_baseline
      Scenario.external_failing_comparator Scenario.args "uk" (VStr "2")
      (Some (VStr "1")) Scenario.empty_world in
  let t := Thread (VStr "1") (VStr "2") "uk" "uk" "2024" [] in
  let resolved := @run_thread Scenario.external_failing_comparator t request.2 in
  request.1 = Ok (Body (JDict [("status", JStr "computing")])) ∧
  threads request.2 = [t] ∧
  resolved.1 = Raise (KeyError "budget") ∧
  economy_status resolved.2
    (@economy_key Scenario.external_failing_comparator "uk" (VStr "1") "uk"
       "2024" []) = Some (VStr "ok") ∧
  economy_status resolved.2
    (@economy_key Scenario.external_failing_comparator "uk" (VStr "2") "uk"
       "2024" []) = Some (VStr "ok") ∧
  column_of resolved.2 "reform_impact"
    (@reform_impact_key Scenario.external_failing_comparator "uk" (VStr "2")
       (VStr "1") "uk" "2024" []) "status"
    = Some (VStr "computing").
Proof. vm_compute. repeat split. Qed.

(** C1: a cache hit is answered with status computing whatever the cached
    record holds. With a cached reform-impact record in status error, the
    request starts no computation and writes nothing, but it returns
    neither the status nor the message of the record. *)
Theorem cached_error_reported_as_computing :
  let key :=
    @reform_impact_key Scenario.external "uk" (VStr "3") (VStr "1") "uk"
      "2024" [] in
  column_of Scenario.cached_error_world "reform_impact" key "status"
    = Some (VStr "error") ∧
  column_of Scenario.cached_error_world "reform_impact" key "message"
    = Some (VStr "Baseline or reform economy computation failed.") ∧
  @score_policy_reform_against_baseline Scenario.external Scenario.args "uk"
    (VStr "3") (Some (VStr "1")) Scenario.cached_error_world
  = (Ok (Body (JDict [("status", JStr "computing")])),
     Scenario.cached_error_world).
Proof. vm_compute. repeat split. Qed.

(** C9: the match fields of the upsert in [set_policy] leave the country
    out. Setting the empty reform in the UK and then in the US leaves one
    policy row, which now belongs to the US: both calls return id 1, and
    the UK has lost its policy. A third call in the US under a label
    resolves to the same row and id. *)
Theorem set_policy_overwrites_country :
  let ok_1 :=
    Ok (JDict [("status", JStr "ok"); ("message", JNull);
               ("result", JDict [("policy_id", JInt 1)])]) in
  let first :=
    @set_policy Scenario.external "uk" None (JDict []) None
      Scenario.empty_world in
  let second :=
    @set_policy Scenario.external "us" None (JDict []) None first.2 in
  let third :=
    @set_policy Scenario.external "us" None (JDict []) (Some "No reform")
      second.2 in
  first.1 = ok_1 ∧ second.1 = ok_1 ∧ third.1 = ok_1 ∧
  column_of first.2 "policy"
    (mkrow [("country_id", VStr "uk"); ("policy_hash", VStr "{}")]) "id"
    = Some (VInt 1) ∧
  length (db second.2 !!! "policy") = 1%nat ∧
  Database.get_in_table (db second.2) "policy"
    (mkrow [("country_id", VStr "uk"); ("policy_hash", VStr "{}")]) = None ∧
  column_of second.2 "policy"
    (mkrow [("country_id", VStr "us"); ("policy_hash", VStr "{}")]) "id"
    = Some (VInt 1) ∧
  length (db third.2 !!! "policy") = 1%nat.
Proof. vm_compute. repeat split. Qed.

(** C5, as the claim states it, fails for economy records: in a run that
    misses on every key, the economy record of the baseline reaches status
    ok through a single write, an insert that already carries the terminal
    status; only the reform-impact record is written twice. *)
Lemma economy_record_written_once :
  let request :=
    @score_policy_reform_against_baseline Scenario.external Scenario.args
      "uk" (VStr "2") (Some (VStr "1")) Scenario.empty_world in
  let t := Thread (VStr "1") (VStr "2") "uk" "uk" "2024" [] in
  let resolved := @run_thread Scenario.external t request.2 in
  threads request.2 = [t] ∧
  resolved.1 = Ok JNull ∧
  economy_status resolved.2
    (@economy_key Scenario.external "uk" (VStr "1") "uk" "2024" [])
    = Some (VStr "ok") ∧
  write_summary <$>
    writes_under (writes resolved.2) "economy"
      (@economy_key Scenario.external "uk" (VStr "1") "uk" "2024" [])
    = [(Some (VStr "ok"), true)] ∧
  write_summary <$>
    writes_under (writes resolved.2) "reform_impact"
      (@reform_impact_key Scenario.external "uk" (VStr "2") (VStr "1") "uk"
         "2024" [])
    = [(Some (VStr "computing"), true); (Some (VStr "ok"), false)].
Proof. vm_compute. repeat split. Qed.

(** ** The cache key *)

Section KeyFacts.
Context `{!External}.

Lemma economy_key_options_json c p r t o :
  economy_key c p r t o !! "options_json"
  = Some (VStr (json_dumps (of_options o))).
Proof. reflexivity. Qed.

Lemma reform_impact_key_options_json c p b r t o :
  reform_impact_key c p b r t o !! "options_json"
  = Some (VStr (json_dumps (of_options o))).
Proof. reflexivity. Qed.

(** C6, as amended: the key holds the serialization of the options in the
    order in which they were supplied, without sorting: two option lists
    give the same economy key, and the same reform-impact key, exactly when
    they hold the same entries in the same order. *)
Theorem key_determines_options_order c p b r t o1 o2 :
  (economy_key c p r t o1 = economy_key c p r t o2 ↔ o1 = o2) ∧
  (reform_impact_key c p b r t o1 = reform_impact_key c p b r t o2
   ↔ o1 = o2).
Proof.
  split; (split; [|by intros ->]); intros Heq;
    apply (f_equal (.!! "options_json")) in Heq;
    rewrite ?economy_key_options_json, ?reform_impact_key_options_json in Heq;
    apply json_dumps_of_options_injective; congruence.
Qed.
End KeyFacts.

(** C6, as the claim states it, fails: the options [a=1, b=2] and
    [b=2, a=1] are equal as maps, but their serializations and hence the
    keys differ, and the second request misses the row of the first: it
    inserts a second row and starts a second thread. *)
Lemma reordered_options_change_key :
  let o1 := [("a", "1"); ("b", "2")] in
  let o2 := [("b", "2"); ("a", "1")] in
  let first :=
    @score_policy_reform_against_baseline Scenario.external
      (Scenario.args ++ o1) "uk" (VStr "2") (Some (VStr "1"))
      Scenario.empty_world in
  let second :=
    @score_policy_reform_against_baseline Scenario.external
      (Scenario.args ++ o2) "uk" (VStr "2") (Some (VStr "1")) first.2 in
  (list_to_map o1 : gmap string string) = list_to_map o2 ∧
  json_dumps (of_options o1) ≠ json_dumps (of_options o2) ∧
  @economy_key Scenario.external "uk" (VStr "2") "uk" "2024" o1
    ≠ @economy_key Scenario.external "uk" (VStr "2") "uk" "2024" o2 ∧
  @reform_impact_key Scenario.external "uk" (VStr "2") (VStr "1") "uk" "2024"
    o1
    ≠ @reform_impact_key Scenario.external "uk" (VStr "2") (VStr "1") "uk"
        "2024" o2 ∧
  length (db first.2 !!! "reform_impact") = 1%nat ∧
  length (db second.2 !!! "reform_impact") = 2%nat ∧
  length (threads second.2) = 2%nat.
Proof.
  split; [by_computation|].
  split; [vm_compute; discriminate|].
  split; [by_computation|].
  split; [by_computation|].
  vm_compute. repeat split.
Qed.

(** In the scenario the computation of [income_tax] fails and that of
    [benefits] succeeds: the first slot stays [None], the second holds 7,
    and the household is returned with status ok. *)
Example household_example :
  (@get_household_under_policy Scenario.external Scenario.engine "uk"
     (VInt 1) (VInt 1) Scenario.household_world).1 =
  Ok (JDict
        [("status", JStr "ok"); ("message", JNull);
         ("result",
          JDict [("people",
                  JDict [("you",
                          JDict [("age", JDict [("2023", JInt 30)]);
                                 ("income_tax", JDict [("2023", JNull)]);
                                 ("benefits",
                                  JDict [("2023", JInt 7)])])])])]).
Proof. vm_compute. reflexivity. Qed.

Lemma write_discipline_witness :
  ∃ w1,
    @score_policy_reform_against_baseline Scenario.external Scenario.args
      "uk" (VStr "2") (Some (VStr "1")) Scenario.empty_world =
      (Ok (Body (JDict [("status", JStr "computing")])), w1) ∧
    threads w1 =
      threads Scenario.empty_world
        ++ [Thread (VStr "1") (VStr "2") "uk" "uk" "2024" []] ∧
    ∀ w2,
      @run_thread Scenario.external
        (Thread (VStr "1") (VStr "2") "uk" "uk" "2024" []) w1
        = (Ok JNull, w2) →
      ∃ events status,
        writes w2 = writes Scenario.empty_world ++ events ∧
        (status = "ok" ∨ status = "error") ∧
        column_of w2 "reform_impact"
          (@reform_impact_key Scenario.external "uk" (VStr "2") (VStr "1")
             "uk" "2024" []) "status"
          = Some (VStr status) ∧
        write_summary <$>
          writes_under events "reform_impact"
            (@reform_impact_key Scenario.external "uk" (VStr "2") (VStr "1")
               "uk" "2024" [])
          = [(Some (VStr "computing"), true); (Some (VStr status), false)] ∧
        ∀ q, q = VStr "1" ∨ q = VStr "2" →
          Database.get_in_table (db Scenario.empty_world) "economy"
            (@economy_key Scenario.external "uk" q "uk" "2024" []) = None →
          ∃ status_q, (status_q = "ok" ∨ status_q = "error") ∧
            write_summary <$>
              writes_under events "economy"
                (@economy_key Scenario.external "uk" q "uk" "2024" [])
            = [(Some (VStr status_q), true)].
Proof.
  apply (@write_discipline Scenario.external Scenario.args "uk" (VStr "2")
           (Some (VStr "1")) (VStr "1") Scenario.empty_world "uk" "2024" []
           [("time_period", "2024")] "policyengine_uk").
  - reflexivity.
  - reflexivity.
  - reflexivity.
  - left. reflexivity.
  - by_computation.
Defined.

(** * Further properties of the code *)

(** ** The request handler *)

Section RequestFacts.
Context `{!External}.
Implicit Types (d args : list (string * string)).

(** [d.pop(key, None)] on a dict without the key. *)
Lemma dict_pop_absent key d :
  key ∉ d.*1 → dict_pop key d = (None, d).
Proof.
  induction d as [|[k v] d IH]; simpl; [done|].
  intros Hnot. apply not_elem_of_cons in Hnot as [Hne Hnot].
  rewrite (proj2 (String.eqb_neq k key)) by congruence.
  by rewrite IH.
Qed.

(** [d.pop(key, None)] on a dict with the key: the entry is returned and
    removed, the other entries keep their order. *)
Lemma dict_pop_present key d :
  NoDup d.*1 → key ∈ d.*1 →
  ∃ v, (key, v) ∈ d ∧
    dict_pop key d = (Some v, filter (λ kv, kv.1 ≠ key) d).
Proof.
  induction d as [|[k v] d IH]; simpl.
  - intros _ Hin. by apply elem_of_nil in Hin.
  - intros Hnodup Hin. apply NoDup_cons in Hnodup as [Hfresh Hnodup].
    destruct (String.eqb_spec k key) as [->|Hne].
    + exists v. split; [left|].
      rewrite filter_cons_False by (simpl; auto).
      f_equal. symmetry. clear IH Hin Hnodup.
      induction d as [|[k' v'] d IH]; [done|].
      simpl in Hfresh. apply not_elem_of_cons in Hfresh as [Hne Hfresh].
      rewrite filter_cons_True by (simpl; congruence).
      f_equal. by apply IH.
    + apply elem_of_cons in Hin as [Heq|Hin]; [congruence|].
      destruct (IH Hnodup Hin) as (v' & Hv' & ->).
      exists v'. split; [by right|].
      by rewrite filter_cons_True by (simpl; congruence).
Qed.

Lemma unique_keys_functional d key v1 v2 :
  NoDup d.*1 → (key, v1) ∈ d → (key, v2) ∈ d → v1 = v2.
Proof.
  induction d as [|[k v] d IH]; simpl.
  - intros _ Hin. by apply elem_of_nil in Hin.
  - intros Hnodup Hin1 Hin2. apply NoDup_cons in Hnodup as [Hfresh Hnodup].
    apply elem_of_cons in Hin1 as [Hin1|Hin1];
      apply elem_of_cons in Hin2 as [Hin2|Hin2]; simplify_eq.
    + done.
    + exfalso. apply Hfresh. apply list_elem_of_fmap. by exists (k, v2).
    + exfalso. apply Hfresh. apply list_elem_of_fmap. by exists (k, v1).
    + by apply IH.
Qed.

Lemma dict_pop_some key d :
  key ∈ d.*1 → ∃ v d', dict_pop key d = (Some v, d') ∧
    ∀ key', key' ≠ key → (key' ∈ d'.*1 ↔ key' ∈ d.*1).
Proof.
  induction d as [|[k v] d IH]; simpl.
  - intros Hin. by apply elem_of_nil in Hin.
  - intros Hin. destruct (String.eqb_spec k key) as [->|Hne].
    + exists v, d. split; [done|]. intros key' Hne.
      rewrite elem_of_cons. naive_solver.
    + apply elem_of_cons in Hin as [Heq|Hin]; [congruence|].
      destruct (IH Hin) as (v' & d' & -> & Hkeys).
      exists v', ((k, v) :: d'). split; [done|]. intros key' Hne'.
      simpl. rewrite !elem_of_cons, Hkeys by done. done.
Qed.

(** A request without a region, without a time period or for an unknown
    country is answered with a 400 or 404 response, in this order of
    precedence, and touches nothing: no lookup result is used, nothing is
    written and no thread is started. *)
Theorem invalid_request_untouched args c p b w :
  "region" ∉ args.*1 ∨ "time_period" ∉ args.*1 ∨ countries_get c = None →
  score_policy_reform_against_baseline args c p b w =
  (Ok (if decide ("region" ∈ args.*1)
       then if decide ("time_period" ∈ args.*1)
            then FlaskResponse ("Country " +:+ c +:+ " not found.") 404
            else FlaskResponse "Time period not specified." 400
       else FlaskResponse "Region not specified." 400), w).
Proof.
  intros Hinvalid. unfold score_policy_reform_against_baseline.
  destruct (decide ("region" ∈ args.*1)) as [Hregion|Hregion].
  - destruct (dict_pop_some "region" args Hregion)
      as (region & options' & -> & Hkeys).
    destruct (decide ("time_period" ∈ args.*1)) as [Htime|Htime].
    + apply Hkeys in Htime; [|done].
      destruct (dict_pop_some "time_period" options' Htime)
        as (tp & options & -> & _).
      destruct Hinvalid as [?|[Hno| ->]]; [done| |done].
      exfalso. apply Hno. by apply Hkeys.
    + rewrite dict_pop_absent; [done|]. by rewrite Hkeys.
  - rewrite dict_pop_absent by done.
    by destruct (dict_pop "time_period" args) as [[?|] ?].
Qed.

(** After a request that missed, the same request is a hit: it writes
    nothing and starts no second thread, so two identical requests in a row
    start one resolution. *)
Theorem repeated_request_starts_one_thread
    args c p b w region time_period options options' pkg :
  dict_pop "region" args = (Some region, options') →
  dict_pop "time_period" options' = (Some time_period, options) →
  countries_get c = Some pkg →
  Database.get_in_table (db w) "reform_impact"
    (reform_impact_key c p b region time_period options) = None →
  ∃ w1,
    score_policy_reform_against_baseline args c p (Some b) w =
      (Ok (Body (JDict [("status", JStr "computing")])), w1) ∧
    score_policy_reform_against_baseline args c p (Some b) w1 =
      (Ok (Body (JDict [("status", JStr "computing")])), w1) ∧
    threads w1 = threads w ++ [Thread b p c region time_period options] ∧
    column_of w1 "reform_impact"
      (reform_impact_key c p b region time_period options) "status"
      = Some (VStr "computing").
Proof.
  intros Hregion Htime Hcountry Hmiss.
  set (placeholder :=
         mkrow [("reform_impact_json", VStr (json_dumps (JDict [])));
                ("status", VStr "computing")]).
  destruct (get_set_in_table_holds (db w) "reform_impact"
              (reform_impact_key c p b region time_period options)
              placeholder None) as (record & Hrecord & Hsub).
  { apply reform_impact_key_disjoint. unfold placeholder, mkrow. simpl.
    rewrite !dom_insert_L. set_solver. }
  eexists. split; [by eapply score_policy_reform_against_baseline_miss|].
  split; [|split; [reflexivity|]].
  - eapply score_policy_reform_against_baseline_hit;
      [exact Hregion|exact Htime|exact Hcountry|exact Hrecord].
  - unfold column_of. cbn [db]. unfold placeholder in *.
    rewrite Hrecord. simpl.
    eapply lookup_weaken; [|exact Hsub]. reflexivity.
Qed.

(** The options of the key are the query parameters without the region and
    the time period, in the order in which they were given: where these two
    stand among the parameters makes no difference to the key. *)
Theorem options_are_the_other_parameters args c p b w region time_period pkg :
  NoDup args.*1 →
  ("region", region) ∈ args →
  ("time_period", time_period) ∈ args →
  countries_get c = Some pkg →
  let options :=
    filter (λ kv, kv.1 ≠ "region" ∧ kv.1 ≠ "time_period") args in
  Database.get_in_table (db w) "reform_impact"
    (reform_impact_key c p b region time_period options) = None →
  threads (score_policy_reform_against_baseline args c p (Some b) w).2 =
    threads w ++ [Thread b p c region time_period options].
Proof.
  intros Hnodup Hregion Htime Hcountry options Hmiss.
  destruct (dict_pop_present "region" args Hnodup) as (region' & Hin & Hpop).
  { apply list_elem_of_fmap. by exists ("region", region). }
  assert (region' = region) as ->.
  { by eapply (unique_keys_functional args "region"). }
  set (options' := filter (λ kv, kv.1 ≠ "region") args) in *.
  assert (NoDup options'.*1) as Hnodup'.
  { unfold options'. clear -Hnodup.
    induction args as [|[k v] args IH]; [constructor|].
    simpl in Hnodup. apply NoDup_cons in Hnodup as [Hfresh Hnodup].
    rewrite filter_cons. case_decide; [|by apply IH].
    simpl. apply NoDup_cons. split; [|by apply IH].
    intros Hin. apply Hfresh.
    apply list_elem_of_fmap in Hin as ([k' v'] & -> & Hin).
    apply list_elem_of_filter in Hin as [_ Hin].
    apply list_elem_of_fmap. by exists (k', v'). }
  assert (("time_period", time_period) ∈ options') as Htime'.
  { apply list_elem_of_filter. by split. }
  destruct (dict_pop_present "time_period" options' Hnodup')
    as (time_period' & Hin' & Hpop').
  { apply list_elem_of_fmap. by exists ("time_period", time_period). }
  assert (time_period' = time_period) as ->.
  { by eapply (unique_keys_functional options' "time_period"). }
  assert (filter (λ kv, kv.1 ≠ "time_period") options' = options) as Hoptions.
  { unfold options', options. rewrite list_filter_filter.
    apply list_filter_iff. intros [k v]. simpl. tauto. }
  rewrite Hoptions in Hpop'.
  by erewrite score_policy_reform_against_baseline_miss.
Qed.

End RequestFacts.

(** ** The economy cache *)

Section TableFacts.
Implicit Types (key update r : row) (rows : list row) (d : database).

Lemma find_app_Some {A} (f : A → bool) (l1 l2 : list A) x :
  List.find f l1 = Some x → List.find f (l1 ++ l2) = Some x.
Proof.
  induction l1 as [|y l1 IH]; simpl; [done|].
  destruct (f y); [done|]. exact IH.
Qed.

Lemma set_in_table_other_table d table_name table_name' key update
    auto_increment :
  table_name ≠ table_name' →
  Database.set_in_table d table_name key update auto_increment
    !!! table_name' = d !!! table_name'.
Proof.
  intros Hne. unfold Database.set_in_table.
  destruct (List.find (Database.matches key) (d !!! table_name));
    by rewrite lookup_total_insert_ne.
Qed.

(** An upsert that finds no row appends one row and changes no other. *)
Lemma set_in_table_insert d table_name key update auto_increment :
  Database.get_in_table d table_name key = None →
  Database.set_in_table d table_name key update auto_increment
    !!! table_name =
  d !!! table_name
    ++ [Database.new_row (d !!! table_name) key update auto_increment].
Proof.
  unfold Database.get_in_table, Database.set_in_table. intros ->.
  by rewrite lookup_total_insert_eq.
Qed.

End TableFacts.

(** The fields of an economy key. *)
Lemma economy_key_fields `{!External} c p r t o :
  economy_key c p r t o !! "country_id" = Some (VStr c) ∧
  economy_key c p r t o !! "policy_id" = Some p ∧
  economy_key c p r t o !! "region" = Some (VStr r) ∧
  economy_key c p r t o !! "time_period" = Some (VStr t) ∧
  economy_key c p r t o !! "options_json"
    = Some (VStr (json_dumps (of_options o))) ∧
  economy_key c p r t o !! "api_version" = Some (VStr VERSION).
Proof. repeat split. Qed.

(** Two requests have the same economy key exactly when they agree on the
    country, the policy, the region, the time period, the options in their
    order and the version of the API. *)
Theorem economy_key_injective (E1 E2 : External) c p r t o c' p' r' t' o' :
  @economy_key E1 c p r t o = @economy_key E2 c' p' r' t' o' ↔
  c = c' ∧ p = p' ∧ r = r' ∧ t = t' ∧ o = o' ∧
  @VERSION E1 = @VERSION E2.
Proof.
  split.
  - intros Heq.
    destruct (@economy_key_fields E1 c p r t o)
      as (Hc & Hp & Hr & Ht & Ho & Hv).
    destruct (@economy_key_fields E2 c' p' r' t' o')
      as (Hc' & Hp' & Hr' & Ht' & Ho' & Hv').
    rewrite Heq in Hc, Hp, Hr, Ht, Ho, Hv.
    repeat split; try congruence.
    apply json_dumps_of_options_injective. congruence.
  - intros (-> & -> & -> & -> & -> & Hv). unfold economy_key.
    by rewrite Hv.
Qed.

Lemma economy_key_matches_own_row (E1 E2 : External) c p r t o c' p' r' t' o'
    outcome :
  Database.matches (@economy_key E2 c' p' r' t' o')
    (economy_row_of outcome ∪ @economy_key E1 c p r t o) = true →
  @economy_key E2 c' p' r' t' o' = @economy_key E1 c p r t o.
Proof.
  rewrite matches_subseteq. intros Hsub.
  destruct (@economy_key_fields E2 c' p' r' t' o')
    as (Hc' & Hp' & Hr' & Ht' & Ho' & Hv').
  eapply lookup_weaken in Hc', Hp', Hr', Ht', Ho', Hv'; try exact Hsub.
  assert (∀ column, column ∈ ["country_id"; "policy_id"; "region";
                              "time_period"; "options_json"; "api_version"] →
            (economy_row_of outcome ∪ @economy_key E1 c p r t o) !! column
            = @economy_key E1 c p r t o !! column) as Hkey.
  { intros column Hin. apply lookup_union_r.
    destruct outcome; set_unfold; destruct_or!; subst; reflexivity. }
  rewrite Hkey in Hc', Hp', Hr', Ht', Ho', Hv' by set_solver.
  destruct (@economy_key_fields E1 c p r t o)
    as (Hc & Hp & Hr & Ht & Ho & Hv).
  assert (c' = c) as -> by congruence.
  assert (p' = p) as -> by congruence.
  assert (r' = r) as -> by congruence.
  assert (t' = t) as -> by congruence.
  assert (json_dumps (of_options o') = json_dumps (of_options o)) as Hoptions
    by congruence.
  assert (@VERSION E2 = @VERSION E1) as Hversion by congruence.
  unfold economy_key. by rewrite Hoptions, Hversion.
Qed.

Section EnsureFacts.
Context `{!External}.

(** A failure of the simulator is stored as a terminal error record that
    carries the text of the exception, and it is not retried: the next call
    for the key finds the record and does nothing. *)
Theorem simulator_failure_is_cached c p r t o w e :
  Database.get_in_table (db w) "economy" (economy_key c p r t o) = None →
  compute_economy c p r t o = Raise e →
  ∃ w1,
    ensure_economy_computed c p r t o w = (Ok JNull, w1) ∧
    ensure_economy_computed c p r t o w1 = (Ok JNull, w1) ∧
    simulator_calls w1 = simulator_calls w ++ [SimulatorCall c p r t o] ∧
    economy_status w1 (economy_key c p r t o) = Some (VStr "error") ∧
    column_of w1 "economy" (economy_key c p r t o) "message"
      = Some (VStr (exn_str e)) ∧
    column_of w1 "economy" (economy_key c p r t o) "economy_json"
      = Some (VStr "{}").
Proof.
  intros Hmiss Hsim.
  pose proof (ensure_economy_computed_miss c p r t o w Hmiss) as Hfirst.
  rewrite Hsim in Hfirst.
  pose proof (get_set_in_table (db w) "economy" (economy_key c p r t o)
                (economy_row_of (Raise e)) None
                (economy_key_disjoint c p r t o (Raise e))) as Hget.
  rewrite Hmiss in Hget.
  eexists. split; [exact Hfirst|].
  split; [eapply ensure_economy_computed_hit; exact Hget|].
  split; [reflexivity|].
  unfold economy_status, column_of. cbn [db]. rewrite Hget.
  repeat split.
Qed.

End EnsureFacts.

(** Ensuring one economy leaves the record of every other key as it was,
    also for a key under another version of the API. *)
Lemma ensure_economy_computed_other_key (E1 E2 : External)
    c p r t o c' p' r' t' o' w :
  @economy_key E2 c' p' r' t' o' ≠ @economy_key E1 c p r t o →
  Database.get_in_table
    (db (@ensure_economy_computed E1 c p r t o w).2) "economy"
    (@economy_key E2 c' p' r' t' o')
  = Database.get_in_table (db w) "economy" (@economy_key E2 c' p' r' t' o').
Proof.
  intros Hne.
  destruct (Database.get_in_table (db w) "economy"
              (@economy_key E1 c p r t o)) as [cached|] eqn:Hget.
  - by erewrite ensure_economy_computed_hit.
  - rewrite ensure_economy_computed_miss by done. cbn [snd db].
    unfold Database.get_in_table.
    rewrite set_in_table_insert by done.
    destruct (List.find (Database.matches (@economy_key E2 c' p' r' t' o'))
                (db w !!! "economy")) as [found|] eqn:Hfind.
    + by erewrite find_app_Some.
    + rewrite find_app_None by done. simpl.
      destruct (Database.matches _ _) eqn:Hmatch; [|done].
      exfalso. apply Hne.
      by eapply economy_key_matches_own_row.
Qed.

(** A record computed under one version of the API is not served under
    another: after the economy has been ensured under the first version,
    the request under the second version still misses and calls the
    simulator itself. *)
Theorem version_invalidates_cache (E1 E2 : External) c p r t o w :
  @VERSION E1 ≠ @VERSION E2 →
  Database.get_in_table (db w) "economy" (@economy_key E2 c p r t o) = None →
  let w1 := (@ensure_economy_computed E1 c p r t o w).2 in
  Database.get_in_table (db w1) "economy" (@economy_key E2 c p r t o) = None ∧
  simulator_calls (@ensure_economy_computed E2 c p r t o w1).2
    = simulator_calls w1 ++ [SimulatorCall c p r t o].
Proof.
  intros Hversion Hmiss w1.
  assert (Database.get_in_table (db w1) "economy"
            (@economy_key E2 c p r t o) = None) as Hmiss1.
  { unfold w1. rewrite ensure_economy_computed_other_key; [done|].
    intros Heq. apply (f_equal (.!! "api_version")) in Heq.
    apply Hversion. by injection Heq. }
  split; [done|]. by rewrite ensure_economy_computed_miss.
Qed.

(** ** The resolver *)

Section ResolverFacts.
Context `{!External}.

Lemma ensure_economy_computed_appends c q r t o w :
  ∃ w' new,
    ensure_economy_computed c q r t o w = (Ok JNull, w') ∧
    db w' !!! "economy" = db w !!! "economy" ++ new ∧
    simulator_calls w' =
      simulator_calls w ++ ((λ _, SimulatorCall c q r t o) <$> new) ∧
    (length new ≤ 1)%nat ∧
    (is_Some (Database.get_in_table (db w) "economy" (economy_key c q r t o))
     → new = []).
Proof.
  destruct (Database.get_in_table (db w) "economy" (economy_key c q r t o))
    as [cached|] eqn:Hget.
  - exists w, []. rewrite !app_nil_r.
    split; [by eapply ensure_economy_computed_hit|]. repeat split; simpl; lia.
  - eexists _, [_]. split; [by apply ensure_economy_computed_miss|].
    cbn [db simulator_calls]. rewrite set_in_table_insert by done.
    repeat split; [simpl; lia|]. by intros [? ?].
Qed.

(** The loop over the prerequisites only appends to the economy table: no
    existing row is changed or removed, at most two rows are added, one
    per call of the simulator, and at most one when the baseline is the
    reform. *)
Lemma ensure_required_appends b p c r t o w :
  ∃ w' new,
    ensure_required b p c r t o w = (Ok tt, w') ∧
    db w' !!! "economy" = db w !!! "economy" ++ new ∧
    length (simulator_calls w')
      = (length (simulator_calls w) + length new)%nat ∧
    (length new ≤ 2)%nat ∧
    (b = p → (length new ≤ 1)%nat).
Proof.
  destruct (ensure_economy_computed_appends c b r t o w)
    as (w1 & new1 & Hb & Hdb1 & Hsim1 & Hlen1 & Hhit1).
  destruct (ensure_economy_computed_appends c p r t o w1)
    as (w2 & new2 & Hp & Hdb2 & Hsim2 & Hlen2 & Hhit2).
  exists w2, (new1 ++ new2). split.
  { unfold ensure_required. simpl.
    erewrite bind_ok by exact Hb. erewrite bind_ok by exact Hp. done. }
  split; [by rewrite Hdb2, Hdb1, app_assoc|].
  split; [rewrite Hsim2, Hsim1, !length_app, !length_fmap; lia|].
  split; [rewrite length_app; lia|].
  intros ->. rewrite length_app.
  destruct (Database.get_in_table (db w) "economy" (economy_key c p r t o))
    as [cached|] eqn:Hget.
  - rewrite Hhit1 by done. simpl. lia.
  - assert (new2 = []) as ->; [|simpl; lia].
    apply Hhit2.
    rewrite ensure_economy_computed_miss in Hb by done.
    injection Hb as <-. cbn [db].
    rewrite get_set_in_table by apply economy_key_disjoint. done.
Qed.

Lemma ensure_economy_computed_own c q r t o w :
  Database.get_in_table (db (ensure_economy_computed c q r t o w).2) "economy"
    (economy_key c q r t o) =
  Some (match Database.get_in_table (db w) "economy" (economy_key c q r t o)
        with
        | Some cached => cached
        | None =>
            economy_row_of (compute_economy c q r t o) ∪ economy_key c q r t o
        end).
Proof.
  destruct (Database.get_in_table (db w) "economy" (economy_key c q r t o))
    as [cached|] eqn:Hget.
  - by erewrite ensure_economy_computed_hit.
  - rewrite ensure_economy_computed_miss by done. cbn [snd db].
    rewrite get_set_in_table by apply economy_key_disjoint.
    by rewrite Hget.
Qed.

Lemma ensure_required_steps b p c r t o w :
  (ensure_required b p c r t o w).2 =
  (ensure_economy_computed c p r t o
     (ensure_economy_computed c b r t o w).2).2.
Proof.
  destruct (ensure_economy_computed_returns c b r t o w) as [w1 Hb].
  destruct (ensure_economy_computed_returns c p r t o w1) as [w2 Hp].
  unfold ensure_required. simpl.
  erewrite bind_ok by exact Hb. erewrite bind_ok by exact Hp.
  rewrite Hb. simpl. by rewrite Hp.
Qed.

(** After the loop over the prerequisites, each of the two has a record:
    the one the cache held before, or else the outcome of its own
    simulation, ok or error. The failure of one prerequisite neither stops
    the other from being computed nor changes its record. *)
Theorem prerequisites_resolved_independently b p c r t o w q :
  q = b ∨ q = p →
  Database.get_in_table (db (ensure_required b p c r t o w).2) "economy"
    (economy_key c q r t o) =
  Some (match Database.get_in_table (db w) "economy" (economy_key c q r t o)
        with
        | Some cached => cached
        | None =>
            economy_row_of (compute_economy c q r t o) ∪ economy_key c q r t o
        end).
Proof.
  intros Hq. rewrite ensure_required_steps.
  destruct (decide (b = p)) as [->|Hne].
  - assert (q = p) as -> by (by destruct Hq).
    pose proof (ensure_economy_computed_own c p r t o w) as Hown.
    erewrite (ensure_economy_computed_hit c p r t o
                (ensure_economy_computed c p r t o w).2) by exact Hown.
    exact Hown.
  - destruct Hq as [-> | ->].
    + rewrite (ensure_economy_computed_other_key _ _ c p r t o c b r t o).
      * apply ensure_economy_computed_own.
      * intros Heq. by apply economy_key_inj in Heq.
    + rewrite ensure_economy_computed_own.
      rewrite (ensure_economy_computed_other_key _ _ c b r t o c p r t o);
        [done|].
      intros Heq. apply economy_key_inj in Heq. congruence.
Qed.

Lemma set_reform_impact_data_economy b p c r t o w :
  ∃ w',
    ensure_required b p c r t o w = (Ok tt, w') ∧
    db (set_reform_impact_data b p c r t o w).2 !!! "economy"
      = db w' !!! "economy" ∧
    simulator_calls (set_reform_impact_data b p c r t o w).2
      = simulator_calls w'.
Proof.
  destruct (ensure_required_frame b p c r t o w) as (w' & Hreq & _).
  exists w'. split; [done|].
  unfold set_reform_impact_data, mbind, M_bind, get_in_table, lift, getitem,
    text_of, call_compare_economic_outputs, set_in_table, raise.
  rewrite Hreq.
  destruct (Database.get_in_table (db w') "economy" (economy_key c b r t o))
    as [rb|]; [|done].
  destruct (rb !! "status") as [sb|]; simpl; [|done].
  destruct (bool_decide (sb ≠ VStr "ok")); simpl.
  { by rewrite set_in_table_other_table. }
  destruct (Database.get_in_table (db w') "economy" (economy_key c p r t o))
    as [rp|]; [|done].
  destruct (rp !! "status") as [sp|]; simpl; [|done].
  destruct (bool_decide (sp ≠ VStr "ok")); simpl.
  { by rewrite set_in_table_other_table. }
  destruct (rb !! "economy_json") as [[| |text_b]|]; simpl; try done.
  destruct (json_loads text_b) as [result_b|]; simpl; [|done].
  destruct (rp !! "economy_json") as [[| |text_p]|]; simpl; try done.
  destruct (json_loads text_p) as [result_p|]; simpl; [|done].
  destruct (compare_economic_outputs result_b result_p); simpl; [|done].
  by rewrite set_in_table_other_table.
Qed.

(** The resolver only appends to the economy table, however it ends: no
    existing economy row is changed or removed, at most two rows are added,
    one per call of the simulator, and at most one when the baseline is the
    reform. *)
Theorem resolver_appends_to_economy b p c r t o w :
  let w2 := (set_reform_impact_data b p c r t o w).2 in
  ∃ new,
    db w2 !!! "economy" = db w !!! "economy" ++ new ∧
    length (simulator_calls w2)
      = (length (simulator_calls w) + length new)%nat ∧
    (length new ≤ 2)%nat ∧
    (b = p → (length new ≤ 1)%nat).
Proof.
  destruct (set_reform_impact_data_economy b p c r t o w)
    as (w' & Hreq & Hdb & Hsim).
  destruct (ensure_required_appends b p c r t o w)
    as (w'' & new & Hreq' & Hdb' & Hsim' & Hlen & Hsame).
  assert (w'' = w') as -> by congruence.
  exists new. simpl. by rewrite Hdb, Hsim, Hdb', Hsim'.
Qed.

End ResolverFacts.

(** The resolver leaves the economy record of every key other than its two
    prerequisites as it was, present or absent, also for a key under
    another version of the API. *)
Theorem resolver_leaves_other_keys (E1 E2 : External)
    b p c r t o c' q' r' t' o' w :
  @economy_key E2 c' q' r' t' o' ≠ @economy_key E1 c b r t o →
  @economy_key E2 c' q' r' t' o' ≠ @economy_key E1 c p r t o →
  Database.get_in_table
    (db (@set_reform_impact_data E1 b p c r t o w).2) "economy"
    (@economy_key E2 c' q' r' t' o')
  = Database.get_in_table (db w) "economy" (@economy_key E2 c' q' r' t' o').
Proof.
  intros Hb Hp.
  destruct (@set_reform_impact_data_economy E1 b p c r t o w)
    as (w' & Hreq & Hdb & _).
  unfold Database.get_in_table at 1. rewrite Hdb.
  change (Database.get_in_table (db w') "economy"
            (@economy_key E2 c' q' r' t' o')
          = Database.get_in_table (db w) "economy"
              (@economy_key E2 c' q' r' t' o')).
  replace w' with (@ensure_required E1 b p c r t o w).2 by by rewrite Hreq.
  rewrite (@ensure_required_steps E1).
  by rewrite !ensure_economy_computed_other_key.
Qed.

Section ImpactFacts.
Context `{!External}.

(** When the resolver returns, the reform-impact record is ok exactly when
    both prerequisites are ok, and then the comparator has been called
    once; otherwise the record is the dependency failure and the
    comparator has not been called. *)
Theorem impact_status_reflects_prerequisites b p c r t o w :
  (set_reform_impact_data b p c r t o w).1 = Ok JNull →
  let w2 := (set_reform_impact_data b p c r t o w).2 in
  let impact_column :=
    column_of w2 "reform_impact" (reform_impact_key c p b r t o) in
  (impact_column "status" = Some (VStr "ok") ∧
   economy_status w2 (economy_key c b r t o) = Some (VStr "ok") ∧
   economy_status w2 (economy_key c p r t o) = Some (VStr "ok") ∧
   length (comparator_calls w2) = S (length (comparator_calls w)))
  ∨
  (impact_column "status" = Some (VStr "error") ∧
   impact_column "message" = Some (VStr dependency_failure_message) ∧
   (economy_status w2 (economy_key c b r t o) ≠ Some (VStr "ok") ∨
    economy_status w2 (economy_key c p r t o) ≠ Some (VStr "ok")) ∧
   comparator_calls w2 = comparator_calls w).
Proof.
  destruct (set_reform_impact_data b p c r t o w) as [outcome w2] eqn:Hrun.
  cbn [fst snd]. intros ->. revert Hrun.
  destruct (ensure_required_frame b p c r t o w)
    as (w' & Hreq & Hcmp & _ & _).
  unfold set_reform_impact_data, mbind, M_bind, get_in_table, lift, getitem,
    text_of, call_compare_economic_outputs, set_in_table, raise.
  rewrite Hreq. intros Hrun.
  assert (∀ update column v sims cmps slots ths,
    update !! column = Some v →
    dom update ⊆ {["reform_impact_json"; "status"; "message"]} →
    column_of
      (World
         (Database.set_in_table (db w') "reform_impact"
            (reform_impact_key c p b r t o) update None)
         (writes w' ++
            [Write "reform_impact" (reform_impact_key c p b r t o) update
               (bool_decide
                  (Database.get_in_table (db w') "reform_impact"
                     (reform_impact_key c p b r t o) = None))])
         sims cmps slots ths)
      "reform_impact" (reform_impact_key c p b r t o) column = Some v)
    as Hcolumn.
  { intros update column v sims cmps slots ths Hv Hdom.
    destruct (get_set_in_table_holds (db w') "reform_impact"
                (reform_impact_key c p b r t o) update None)
      as (record & Hrecord & Hsub); [by apply reform_impact_key_disjoint|].
    unfold column_of. cbn [db]. rewrite Hrecord. simpl.
    by eapply lookup_weaken. }
  assert (∀ update key sims cmps slots ths,
    economy_status
      (World
         (Database.set_in_table (db w') "reform_impact"
            (reform_impact_key c p b r t o) update None)
         (writes w' ++
            [Write "reform_impact" (reform_impact_key c p b r t o) update
               (bool_decide
                  (Database.get_in_table (db w') "reform_impact"
                     (reform_impact_key c p b r t o) = None))])
         sims cmps slots ths) key
    = economy_status w' key) as Heconomy.
  { intros. unfold economy_status, column_of. cbn [db].
    by rewrite get_set_in_table_other. }
  assert (dom (mkrow [("reform_impact_json", VStr (json_dumps (JDict [])));
                      ("status", VStr "error");
                      ("message", VStr dependency_failure_message)])
            ⊆ ({["reform_impact_json"; "status"; "message"]} : gset string))
    as Hdom_error.
  { unfold mkrow. simpl. rewrite !dom_insert_L. set_solver. }
  destruct (Database.get_in_table (db w') "economy" (economy_key c b r t o))
    as [rb|] eqn:Hrb; [|done].
  destruct (rb !! "status") as [sb|] eqn:Hsb; [|done].
  cbn [mret M_ret] in Hrun.
  destruct (bool_decide (sb ≠ VStr "ok")) eqn:Hb_ok.
  { apply bool_decide_eq_true in Hb_ok. injection Hrun as <-. right.
    split; [by apply Hcolumn|]. split; [by apply Hcolumn|].
    split; [|done]. left. rewrite Heconomy.
    unfold economy_status, column_of. rewrite Hrb. simpl. congruence. }
  apply bool_decide_eq_false in Hb_ok. apply dec_stable in Hb_ok. subst sb.
  destruct (Database.get_in_table (db w') "economy" (economy_key c p r t o))
    as [rp|] eqn:Hrp; [|done].
  destruct (rp !! "status") as [sp|] eqn:Hsp; [|done].
  cbn [mret M_ret] in Hrun.
  destruct (bool_decide (sp ≠ VStr "ok")) eqn:Hp_ok.
  { apply bool_decide_eq_true in Hp_ok. injection Hrun as <-. right.
    split; [by apply Hcolumn|]. split; [by apply Hcolumn|].
    split; [|done]. right. rewrite Heconomy.
    unfold economy_status, column_of. rewrite Hrp. simpl. congruence. }
  apply bool_decide_eq_false in Hp_ok. apply dec_stable in Hp_ok. subst sp.
  destruct (rb !! "economy_json") as [[| |text_b]|]; try done.
  cbn [mret M_ret] in Hrun.
  destruct (json_loads text_b) as [result_b|]; [|done].
  destruct (rp !! "economy_json") as [[| |text_p]|]; try done.
  destruct (json_loads text_p) as [result_p|]; [|done].
  destruct (compare_economic_outputs result_b result_p) as [impact|];
    [|done].
  injection Hrun as <-. left.
  split.
  { apply Hcolumn; [reflexivity|].
    unfold mkrow. simpl. rewrite !dom_insert_L. set_solver. }
  rewrite !Heconomy. unfold economy_status, column_of. rewrite Hrb, Hrp.
  simpl. rewrite Hsb, Hsp. repeat split.
  rewrite length_app, Hcmp. simpl. lia.
Qed.

End ImpactFacts.

(** ** The requested computations *)

Section SplitFacts.

Lemma split_nonempty sep s : Py.split sep s ≠ [].
Proof.
  destruct s as [|c s]; simpl; [done|].
  destruct (Ascii.eqb c sep); [done|]. by destruct (Py.split sep s).
Qed.

Lemma split_without_separator sep s :
  occurs sep s = false → Py.split sep s = [s].
Proof.
  induction s as [|c s IH]; simpl; [done|].
  intros [Hc Hs]%orb_false_iff. rewrite Hc. by rewrite IH.
Qed.

Lemma split_with_separator sep s :
  occurs sep s = true → (2 ≤ length (Py.split sep s))%nat.
Proof.
  induction s as [|c s IH]; simpl; [done|].
  destruct (Ascii.eqb c sep); simpl.
  - intros _. pose proof (split_nonempty sep s).
    destruct (Py.split sep s); simpl; [done|lia].
  - intros Hs. specialize (IH Hs).
    destruct (Py.split sep s); simpl in *; lia.
Qed.

Lemma split_app sep s1 s2 :
  Py.split sep (s1 +:+ String sep s2) = Py.split sep s1 ++ Py.split sep s2.
Proof.
  induction s1 as [|c s1 IH].
  - change ("" +:+ String sep s2) with (String sep s2). simpl.
    by rewrite Ascii.eqb_refl.
  - rewrite string_app_cons. simpl. rewrite IH.
    destruct (Ascii.eqb c sep); [done|].
    pose proof (split_nonempty sep s1).
    by destruct (Py.split sep s1).
Qed.

Lemma split_joined_path a b c d :
  Py.split "/" (join "/" [a; b; c; d]) =
  Py.split "/" a ++ Py.split "/" b ++ Py.split "/" c ++ Py.split "/" d.
Proof.
  change (join "/" [a; b; c; d])
    with (a +:+ String "/" (b +:+ String "/" (c +:+ String "/" d))).
  by rewrite !split_app.
Qed.

Lemma occurs_split_length sep s :
  (1 ≤ length (Py.split sep s))%nat ∧
  (occurs sep s = true → 2 ≤ length (Py.split sep s))%nat.
Proof.
  split; [|apply split_with_separator].
  pose proof (split_nonempty sep s).
  destruct (Py.split sep s); simpl; [done|lia].
Qed.

Lemma unpack_path_separator_free a b c d :
  separator_free (a, b, c, d) →
  unpack_path (join "/" [a; b; c; d]) = Ok (a, b, c, d).
Proof.
  intros (Ha & Hb & Hc & Hd). unfold unpack_path.
  by rewrite split_joined_path, !split_without_separator.
Qed.

Lemma unpack_path_with_separator a b c d :
  ¬ separator_free (a, b, c, d) →
  unpack_path (join "/" [a; b; c; d])
  = Raise (ValueError "too many values to unpack (expected 4)").
Proof.
  intros Hsep. unfold unpack_path.
  assert (5 ≤ length (Py.split "/" (join "/" [a; b; c; d])))%nat as Hlen.
  { rewrite split_joined_path, !length_app.
    destruct (occurs_split_length "/" a) as [? Ha],
      (occurs_split_length "/" b) as [? Hb],
      (occurs_split_length "/" c) as [? Hc],
      (occurs_split_length "/" d) as [? Hd].
    destruct (occurs "/" a) eqn:?; [specialize (Ha eq_refl); lia|].
    destruct (occurs "/" b) eqn:?; [specialize (Hb eq_refl); lia|].
    destruct (occurs "/" c) eqn:?; [specialize (Hc eq_refl); lia|].
    destruct (occurs "/" d) eqn:?; [specialize (Hd eq_refl); lia|].
    exfalso. by apply Hsep. }
  destruct (Py.split "/" (join "/" [a; b; c; d]))
    as [|? [|? [|? [|? [|? ?]]]]]; simpl in Hlen; try lia.
  rewrite bool_decide_eq_false_2; [done|]. simpl. lia.
Qed.

End SplitFacts.

(** ** The walk of a document *)

Section JsonInduction.

Lemma json_nested_ind (P : json → Prop) :
  P JNull → (∀ b, P (JBool b)) → (∀ z, P (JInt z)) →
  (∀ literal, P (JFloat literal)) → (∀ s, P (JStr s)) →
  (∀ items, Forall P items → P (JList items)) →
  (∀ entries, Forall (λ kv, P kv.2) entries → P (JDict entries)) →
  ∀ j, P j.
Proof.
  intros Hnull Hbool Hint Hfloat Hstr Hlist Hdict.
  fix IH 1. intros [ |b|z|literal|s|items|entries].
  - exact Hnull.
  - apply Hbool.
  - apply Hint.
  - apply Hfloat.
  - apply Hstr.
  - apply Hlist. induction items as [|x items IHitems]; constructor.
    + apply IH.
    + exact IHitems.
  - apply Hdict. induction entries as [|[k v] entries IHentries]; constructor.
    + apply IH.
    + exact IHentries.
Qed.

End JsonInduction.

Section WalkFacts.

Lemma then_yields_None {A} (first second : yields A) :
  first.2 = None →
  then_yields first second = (first.1 ++ second.1, second.2).
Proof. unfold then_yields. by intros ->. Qed.

Lemma list_entries_free location entries :
  forallb (λ kv : string * json, negb (String.eqb kv.1 "")) entries = true →
  list_entries location entries
  = ((λ kv, (location ++ [Key kv.1], kv.2)) <$> entries, None).
Proof.
  induction entries as [|[k v] entries IH]; simpl; [done|].
  intros Hfree. apply andb_prop in Hfree as [Hk Hfree].
  apply negb_true_iff in Hk. rewrite Hk, IH by done. done.
Qed.

Lemma filter_at_length_fmap (L : nat) (g : string * json → list segment * json)
    (entries : list (string * json)) (n : nat) :
  (∀ kv, length (g kv).1 = n) →
  List.filter (at_length L) (g <$> entries)
  = if decide (n = L) then g <$> entries else [].
Proof.
  intros Hlen. induction entries as [|kv entries IH].
  { by destruct (decide (n = L)). }
  rewrite fmap_cons. cbn [List.filter]. rewrite IH.
  unfold at_length. rewrite Hlen.
  destruct (decide (n = L)) as [->|Hne].
  - by rewrite bool_decide_eq_true_2.
  - by rewrite bool_decide_eq_false_2.
Qed.

Lemma filter_at_length_imap {A} (L n : nat)
    (g : nat → A → list segment * json) (l : list A) :
  (∀ i x, length (g i x).1 = n) →
  List.filter (at_length L) (imap g l)
  = if decide (n = L) then imap g l else [].
Proof.
  intros Hlen. revert g Hlen.
  induction l as [|x l IH]; intros g Hlen.
  { by destruct (decide (n = L)). }
  rewrite imap_cons. cbn [List.filter]. rewrite IH by (intros; apply Hlen).
  unfold at_length. rewrite Hlen.
  destruct (decide (n = L)) as [->|Hne].
  - by rewrite bool_decide_eq_true_2.
  - by rewrite bool_decide_eq_false_2.
Qed.

Lemma each_from_walk {A} (seg : nat → A → segment) (val : A → json)
    (location : list segment) (L i0 : nat) (l : list A) :
  Forall (λ x, walks_well (val x)) l →
  let f := λ i x, walk (val x) (location ++ [seg i x]) in
  (each_from f i0 l).2 = None ∧
  texts <$> List.filter (at_length L) (each_from f i0 l).1
  = if decide (L ≤ S (length location))%nat then []
    else
      imap (λ i x, (int_str (seg (i0 + i)%nat x), val x)) l
        ≫= (λ kv, prefixed (map int_str location ++ [kv.1])
                    <$> paths_at (L - S (length location)) kv.2).
Proof.
  intros Hwell f. revert i0.
  induction Hwell as [|x l Hx Hl IH]; intros i0.
  { split; [done|]. simpl. by case_decide. }
  destruct (Hx (location ++ [seg i0 x]) L) as [Hend Hfound].
  destruct (IH (S i0)) as [Hend' Hfound'].
  change (each_from f i0 (x :: l))
    with (then_yields (f i0 x) (each_from f (S i0) l)).
  rewrite then_yields_None by exact Hend.
  split; [exact Hend'|]. cbn [fst].
  rewrite List.filter_app, fmap_app. unfold f at 1.
  rewrite Hfound, Hfound'. rewrite length_app, Nat.add_1_r.
  case_decide; [done|].
  rewrite imap_cons, bind_cons. rewrite Nat.add_0_r. cbn [fst snd].
  rewrite map_app. cbn [map]. f_equal.
  f_equal. apply imap_ext. intros i y _. simpl.
  by rewrite Nat.add_succ_r.
Qed.

Lemma prefixed_paths_at prefix n obj :
  prefixed prefix <$> paths_at (S n) obj
  = children obj
      ≫= (λ kv, prefixed (prefix ++ [kv.1]) <$> paths_at n kv.2).
Proof.
  cbn [paths_at]. induction (children obj) as [|kv kids IH]; [done|].
  rewrite !bind_cons, fmap_app, IH. f_equal.
  rewrite <- list_fmap_compose. apply list_fmap_ext. intros _ [path v] _.
  unfold prefixed. simpl. by rewrite <- app_assoc.
Qed.

Lemma walk_assemble obj location L (yielded : list (list segment * json)) :
  texts <$> yielded
  = (λ kv, (map int_str location ++ [kv.1], kv.2)) <$> children obj →
  (texts <$> (if decide (S (length location) = L) then yielded else []))
  ++ (if decide (L ≤ S (length location))%nat then []
      else
        children obj
          ≫= (λ kv, prefixed (map int_str location ++ [kv.1])
                      <$> paths_at (L - S (length location)) kv.2))
  = if decide (L ≤ length location)%nat then []
    else prefixed (map int_str location)
           <$> paths_at (L - length location) obj.
Proof.
  intros Hyielded.
  destruct (decide (L ≤ length location)%nat) as [Hle|Hgt].
  { rewrite decide_False, decide_True by lia. done. }
  destruct (decide (S (length location) = L)) as [<-|Hne].
  - rewrite decide_True by lia. rewrite app_nil_r, Hyielded.
    replace (S (length location) - length location)%nat with 1%nat by lia.
    rewrite prefixed_paths_at. clear Hyielded.
    induction (children obj) as [|kv kids IH]; [done|].
    rewrite fmap_cons, bind_cons, IH. simpl.
    unfold prefixed. simpl. by rewrite app_nil_r.
  - rewrite decide_False by lia. simpl.
    replace (L - length location)%nat
      with (S (L - S (length location))) by lia.
    by rewrite prefixed_paths_at.
Qed.

Lemma entries_eta (entries : list (string * json)) :
  imap (λ (_ : nat) (kv : string * json), (kv.1, kv.2)) entries = entries.
Proof.
  rewrite (imap_const (λ kv : string * json, (kv.1, kv.2))).
  induction entries as [|[k v] entries IH]; [done|].
  by rewrite fmap_cons, IH.
Qed.

(** The walk of a document without empty keys ends without raising, and
    the nodes that it yields under paths of a given length are the nodes
    at that depth, in the order of the traversal. *)
Lemma walk_paths_at obj : empty_key_free obj = true → walks_well obj.
Proof.
  induction obj as [ | | | | |items IH|entries IH] using json_nested_ind;
    intros Hfree location L.
  1-5: (split; [done|]; simpl; case_decide; [done|];
        by destruct (L - length location)%nat eqn:Hdepth; [lia|]).
  - assert (Forall walks_well items) as Hwell.
    { simpl in Hfree. rewrite forallb_forall in Hfree.
      apply Forall_forall. intros x Hx.
      eapply Forall_forall in IH; [|exact Hx]. apply IH.
      apply Hfree. by apply list_elem_of_In. }
    destruct (each_from_walk (λ i _, Index i) id location L 0 items Hwell)
      as [Hend Hfound].
    unfold id in Hend, Hfound.
    cbn [walk]. rewrite then_yields_None by done.
    split; [exact Hend|]. cbn [fst].
    rewrite List.filter_app, fmap_app, Hfound.
    rewrite (filter_at_length_imap L (S (length location)))
      by (intros; simpl; rewrite length_app; simpl; lia).
    apply (walk_assemble (JList items)).
    cbn [children]. rewrite !fmap_imap. apply imap_ext. intros i x _.
    unfold texts. simpl. by rewrite map_app.
  - assert (forallb (λ kv : string * json, negb (String.eqb kv.1 ""))
              entries = true) as Hkeys.
    { simpl in Hfree. rewrite forallb_forall in *. intros kv Hkv.
      apply Hfree in Hkv. by apply andb_prop in Hkv as [? _]. }
    assert (Forall (λ kv : string * json, walks_well kv.2) entries) as Hwell.
    { simpl in Hfree. rewrite forallb_forall in Hfree.
      apply Forall_forall. intros kv Hkv.
      eapply Forall_forall in IH; [|exact Hkv]. apply IH.
      apply list_elem_of_In in Hkv. apply Hfree in Hkv.
      by apply andb_prop in Hkv as [_ ?]. }
    destruct (each_from_walk (λ _ kv, Key kv.1) snd location L 0 entries
                Hwell) as [Hend Hfound].
    cbn [walk]. rewrite list_entries_free by done.
    rewrite then_yields_None by done.
    split; [exact Hend|]. cbn [fst].
    rewrite List.filter_app, fmap_app, Hfound.
    rewrite (filter_at_length_fmap L _ _ (S (length location)))
      by (intros; simpl; rewrite length_app; simpl; lia).
    cbn [int_str]. rewrite entries_eta.
    apply (walk_assemble (JDict entries)).
    cbn [children]. rewrite <- list_fmap_compose.
    apply list_fmap_ext. intros _ kv _.
    unfold texts. simpl. by rewrite map_app.
Qed.

Lemma fmap_list_bind {A B C} (g : B → C) (f : A → list B) (l : list A) :
  g <$> (l ≫= f) = l ≫= (λ x, g <$> f x).
Proof.
  induction l as [|x l IH]; [done|].
  by rewrite !bind_cons, fmap_app, IH.
Qed.

Lemma filter_list_bind {A B} (p : B → bool) (f : A → list B) (l : list A) :
  List.filter p (l ≫= f) = l ≫= (λ x, List.filter p (f x)).
Proof.
  induction l as [|x l IH]; [done|].
  by rewrite !bind_cons, List.filter_app, IH.
Qed.

Lemma filter_keeper (yielded : list (list segment * json)) :
  (λ found, join "/" (map int_str found.1)) <$> List.filter keeper yielded
  = (λ pv : list string * json, join "/" pv.1)
      <$> List.filter (λ pv, match pv.2 with JNull => true | _ => false end)
            (texts <$> List.filter (at_length 4%nat) yielded).
Proof.
  induction yielded as [|[path v] yielded IH]; [done|].
  cbn [List.filter]. unfold keeper at 1, at_length at 1. cbn [fst snd].
  destruct (bool_decide (length path = 4%nat)); cbn [andb]; [|exact IH].
  rewrite fmap_cons. cbn [List.filter]. unfold texts at 2. cbn [fst snd].
  destruct v; try exact IH. rewrite !fmap_cons, IH. done.
Qed.

(** In a household without empty keys the search runs to its end, and it
    yields the paths of the [None] leaves at depth four. *)
Lemma search_none_none_leaves household :
  empty_key_free household = true →
  search_none household = (join_slot <$> none_leaves household, None).
Proof.
  intros Hfree.
  destruct (walk_paths_at household Hfree [] 4%nat) as [Hend Hfound].
  unfold search_none. cbn zeta. rewrite Hend. f_equal.
  change (map ?f ?l) with (f <$> l).
  rewrite decide_False in Hfound by (simpl; lia).
  rewrite filter_keeper, Hfound.
  unfold none_leaves. cbn [paths_at Nat.sub length].
  repeat rewrite ?fmap_list_bind, ?filter_list_bind.
  apply list_bind_ext; [|done]. intros kv1.
  repeat rewrite ?fmap_list_bind, ?filter_list_bind.
  apply list_bind_ext; [|done]. intros kv2.
  repeat rewrite ?fmap_list_bind, ?filter_list_bind.
  apply list_bind_ext; [|done]. intros kv3.
  repeat rewrite ?fmap_list_bind, ?filter_list_bind.
  apply list_bind_ext; [|done]. intros kv4.
  simpl. by destruct (kv4.2).
Qed.

Lemma then_yields_raises_l {A} (first second : yields A) e :
  first.2 = Some e → (then_yields first second).2 = Some e.
Proof. unfold then_yields. intros Hfirst. by rewrite Hfirst. Qed.

Lemma then_yields_raises_r {A} (first second : yields A) e :
  second.2 = Some e → ∃ e', (then_yields first second).2 = Some e'.
Proof.
  unfold then_yields. intros Hsecond.
  destruct (first.2) as [e'|] eqn:Hfirst; [by eexists|].
  by exists e.
Qed.

Lemma list_entries_empty_key location entries :
  forallb (λ kv : string * json, negb (String.eqb kv.1 "")) entries = false →
  ∃ e, (list_entries location entries).2 = Some e.
Proof.
  induction entries as [|[k v] entries IH]; simpl; [done|].
  destruct (String.eqb k ""); simpl; [by eexists|]. exact IH.
Qed.

Lemma each_from_raises {A B} (f : nat → A → yields B) i0 l :
  Exists (λ x, ∀ i, ∃ e, (f i x).2 = Some e) l →
  ∃ e, (each_from f i0 l).2 = Some e.
Proof.
  intros Hraises. revert i0.
  induction Hraises as [x l Hx|x l _ IH]; intros i0.
  - destruct (Hx i0) as [e He]. exists e.
    change (each_from f i0 (x :: l))
      with (then_yields (f i0 x) (each_from f (S i0) l)).
    by apply then_yields_raises_l.
  - destruct (IH (S i0)) as [e He].
    change (each_from f i0 (x :: l))
      with (then_yields (f i0 x) (each_from f (S i0) l)).
    by eapply then_yields_raises_r.
Qed.

(** The walk of a document that has an empty key raises. *)
Lemma walk_empty_key obj :
  empty_key_free obj = false → ∀ location, ∃ e, (walk obj location).2 = Some e.
Proof.
  induction obj as [ | | | | |items IH|entries IH] using json_nested_ind;
    intros Hfree location; try done.
  - cbn [walk]. simpl in Hfree.
    assert (Exists (λ x, empty_key_free x = false) items) as Hsome.
    { clear IH. induction items as [|x items IHitems]; [done|].
      simpl in Hfree. apply andb_false_iff in Hfree as [Hx|Hrest].
      - by left.
      - right. by apply IHitems. }
    clear Hfree.
    edestruct (each_from_raises
                 (λ i x, walk x (location ++ [Index i])) 0 items) as [e He];
      [|eapply then_yields_raises_r; exact He].
    induction Hsome as [x items Hx|x items _ IHsome].
    + left. intros i. apply Forall_cons in IH as [IHx _]. by apply IHx.
    + right. apply Forall_cons in IH as [_ IH]. by apply IHsome.
  - cbn [walk]. simpl in Hfree.
    destruct (forallb (λ kv : string * json, negb (String.eqb kv.1 ""))
                entries) eqn:Hkeys.
    + assert (Exists (λ kv : string * json, empty_key_free kv.2 = false)
                entries) as Hsome.
      { clear IH. induction entries as [|kv entries IHentries]; [done|].
        simpl in Hfree, Hkeys.
        apply andb_prop in Hkeys as [Hk Hkeys]. rewrite Hk in Hfree.
        simpl in Hfree. apply andb_false_iff in Hfree as [Hv|Hrest].
        - by left.
        - right. by apply IHentries. }
      clear Hfree Hkeys.
      edestruct (each_from_raises
                   (λ (_ : nat) (kv : string * json),
                      walk kv.2 (location ++ [Key kv.1])) 0 entries)
        as [e He]; [|eapply then_yields_raises_r; exact He].
      induction Hsome as [kv entries Hkv|kv entries _ IHsome].
      * left. intros i. apply Forall_cons in IH as [IHkv _]. by apply IHkv.
      * right. apply Forall_cons in IH as [_ IH]. by apply IHsome.
    + destruct (list_entries_empty_key location entries Hkeys) as [e He].
      exists e. by apply then_yields_raises_l.
Qed.

End WalkFacts.

Section RequestedFacts.

Lemma requested_cons (s : slot) (slots : list slot) :
  get_requested_computations_of (join_slot <$> s :: slots) =
  computation ← unpack_path (join_slot s);
  requested ← get_requested_computations_of (join_slot <$> slots);
  Ok (computation :: requested).
Proof. reflexivity. Qed.

Lemma requested_of_separator_free (slots : list slot) :
  Forall separator_free slots →
  get_requested_computations_of (join_slot <$> slots) = Ok slots.
Proof.
  induction 1 as [|[[[a b] c] d] slots Hfree _ IH]; [done|].
  rewrite requested_cons.
  change (join_slot (a, b, c, d)) with (join "/" [a; b; c; d]).
  rewrite unpack_path_separator_free by done. simpl.
  by rewrite IH.
Qed.

Lemma requested_with_separator (slots : list slot) s :
  s ∈ slots → ¬ separator_free s →
  get_requested_computations_of (join_slot <$> slots)
  = Raise (ValueError "too many values to unpack (expected 4)").
Proof.
  intros Hin Hsep.
  induction slots as [|[[[a b] c] d] slots IH]; [by apply elem_of_nil in Hin|].
  rewrite requested_cons.
  change (join_slot (a, b, c, d)) with (join "/" [a; b; c; d]).
  destruct (occurs "/" a || occurs "/" b || occurs "/" c || occurs "/" d)
    eqn:Hoccurs.
  - rewrite unpack_path_with_separator; [done|].
    intros (Ha & Hb & Hc & Hd). by rewrite Ha, Hb, Hc, Hd in Hoccurs.
  - apply orb_false_iff in Hoccurs as [Hoccurs Hd].
    apply orb_false_iff in Hoccurs as [Hoccurs Hc].
    apply orb_false_iff in Hoccurs as [Ha Hb].
    rewrite unpack_path_separator_free by done. simpl.
    apply elem_of_cons in Hin as [->|Hin]; [by destruct Hsep|].
    by rewrite IH.
Qed.

Lemma dict_get_elem_of entries key v :
  Py.dict_get entries key = Some v → (key, v) ∈ entries.
Proof.
  unfold Py.dict_get. intros Hget.
  destruct (List.find _ entries) as [[k x]|] eqn:Hfind; [|done].
  simpl in Hget. injection Hget as ->.
  apply List.find_some in Hfind as [Hin Hk]. simpl in Hk.
  apply String.eqb_eq in Hk as ->. by apply list_elem_of_In.
Qed.

Lemma getitem_children j key v :
  Py.getitem j key = Ok v → (key, v) ∈ children j.
Proof.
  destruct j; try done. simpl.
  destruct (Py.dict_get entries key) eqn:Hget; [|done].
  intros [= ->]. by apply dict_get_elem_of.
Qed.

(** Every slot that reads [None] is among the [None] leaves. *)
Lemma none_slot_is_leaf household s :
  get_slot household s = Ok JNull → s ∈ none_leaves household.
Proof.
  destruct s as [[[e i] v] p]. unfold get_slot, none_leaves.
  destruct (Py.getitem household e) as [entities|] eqn:He; [simpl|done].
  destruct (Py.getitem entities i) as [entity|] eqn:Hi; [simpl|done].
  destruct (Py.getitem entity v) as [variable|] eqn:Hv; [simpl|done].
  intros Hp.
  apply getitem_children in He, Hi, Hv, Hp.
  apply list_elem_of_bind. exists (e, entities). split; [|done].
  apply list_elem_of_bind. exists (i, entity). split; [|done].
  apply list_elem_of_bind. exists (v, variable). split; [|done].
  apply list_elem_of_bind. exists (p, JNull). split; [|done].
  simpl. by apply list_elem_of_singleton.
Qed.

(** On a household with an empty key the request for the computations
    raises: the search raises on the key, unless the unpacking of a path
    that it yielded before has raised. *)
Lemma get_requested_computations_empty_key household :
  empty_key_free household = false →
  ∃ e, get_requested_computations household = Raise e.
Proof.
  intros Hkeys. destruct (walk_empty_key household Hkeys []) as [e He].
  unfold get_requested_computations, search_none. cbn [fst snd].
  destruct (get_requested_computations_of _) as [requested|e'];
    [|by exists e'].
  exists e. simpl. by rewrite He.
Qed.

(** In a household without empty keys, when no key on the way to a [None]
    leaf holds the separator, the requested computations are exactly the
    [None] leaves at depth four, in the order of the traversal, and every
    slot that reads [None] is requested. *)
Theorem requested_are_the_none_leaves household :
  empty_key_free household = true →
  Forall separator_free (none_leaves household) →
  get_requested_computations household = Ok (none_leaves household) ∧
  ∀ s, get_slot household s = Ok JNull → s ∈ none_leaves household.
Proof.
  intros Hkeys Hfree. split; [|apply none_slot_is_leaf].
  unfold get_requested_computations.
  rewrite search_none_none_leaves by done. cbn [fst snd].
  by rewrite requested_of_separator_free.
Qed.

End RequestedFacts.

(** ** The filling of the slots *)

Section FillFacts.
Context `{!External} `{!Engine}.











(** A key that holds the path separator on the way to a [None] leaf makes
    the unpacking of its path fail outside the [try] statement: [calculate]
    raises, and no slot is attempted. The search joins the keys of a path
    with the separator as they are. *)
Theorem separator_in_key_aborts
    c household0 reform system sim household s w :
  reformed_system c reform = Ok system →
  Simulation c system household0 = Ok sim →
  json_loads (json_dumps household0) = Ok household →
  empty_key_free household = true →
  s ∈ none_leaves household →
  ¬ separator_free s →
  calculate c household0 reform w
  = (Raise (ValueError "too many values to unpack (expected 4)"), w).
Proof.
  intros Hsystem Hsim Hcopy Hkeys Hin Hsep. unfold calculate.
  unfold mbind at 1 2 3 4, M_bind, lift.
  rewrite Hsystem, Hsim, Hcopy. unfold get_requested_computations.
  rewrite search_none_none_leaves by done. cbn [fst snd].
  by rewrite (requested_with_separator _ s).
Qed.

(** An empty key anywhere in the household makes [calculate] raise
    outside the [try] statement, in the search or in the unpacking of a
    path before it: no slot is attempted. *)
Theorem empty_key_aborts c household0 reform system sim household w :
  reformed_system c reform = Ok system →
  Simulation c system household0 = Ok sim →
  json_loads (json_dumps household0) = Ok household →
  empty_key_free household = false →
  ∃ e, calculate c household0 reform w = (Raise e, w).
Proof.
  intros Hsystem Hsim Hcopy Hkeys.
  destruct (get_requested_computations_empty_key household Hkeys)
    as [e He].
  exists e. unfold calculate. unfold mbind at 1 2 3 4, M_bind, lift.
  by rewrite Hsystem, Hsim, Hcopy, He.
Qed.

End FillFacts.

(** ** The household handler *)

Section HouseholdHandlerFacts.
Context `{!External} `{!Engine}.

Lemma get_household_under_policy_hit
    country_id household_id policy_id w cached text result :
  Database.get_in_table (db w) "computed_household"
    (computed_household_key country_id household_id policy_id)
    = Some cached →
  cached !! "computed_household_json" = Some (VStr text) →
  json_loads text = Ok result →
  get_household_under_policy country_id household_id policy_id w =
  (Ok (JDict [("status", JStr "ok"); ("result", result)]), w).
Proof.
  intros Hhit Htext Hloads.
  unfold get_household_under_policy, mbind, M_bind, get_in_table, lift,
    getitem, text_of.
  rewrite Hhit, Htext. simpl. by rewrite Hloads.
Qed.

(** Without the household, or with the household but without the policy,
    the answer is an error that names what is missing, the household
    first; nothing is computed and nothing is cached. *)
Theorem missing_household_or_policy
    country_id household_id policy_id w :
  Database.get_in_table (db w) "computed_household"
    (computed_household_key country_id household_id policy_id) = None →
  Database.get_in_table (db w) "household"
    (mkrow [("country_id", VStr country_id); ("id", household_id)]) = None ∨
  Database.get_in_table (db w) "policy"
    (mkrow [("country_id", VStr country_id); ("id", policy_id)]) = None →
  get_household_under_policy country_id household_id policy_id w =
  (Ok (JDict
         [("status", JStr "error");
          ("message",
           JStr (match Database.get_in_table (db w) "household"
                         (mkrow [("country_id", VStr country_id);
                                 ("id", household_id)]) with
                 | None =>
                     "Household " +:+ str_value household_id
                       +:+ " not found in " +:+ country_id
                 | Some _ =>
                     "Policy " +:+ str_value policy_id
                       +:+ " not found in " +:+ country_id
                 end))]), w).
Proof.
  intros Hmiss Hmissing.
  unfold get_household_under_policy, mbind, M_bind, get_in_table.
  rewrite Hmiss.
  destruct (Database.get_in_table (db w) "household" _) as [household_data|];
    [|done].
  destruct Hmissing as [?|Hpolicy]; [done|]. by rewrite Hpolicy.
Qed.

Lemma get_household_under_policy_miss
    country_id household_id policy_id w household_data policy
    household_text policy_text household0 reform c system sim household
    requested :
  Database.get_in_table (db w) "computed_household"
    (computed_household_key country_id household_id policy_id) = None →
  Database.get_in_table (db w) "household"
    (mkrow [("country_id", VStr country_id); ("id", household_id)])
    = Some household_data →
  household_data !! "household_json" = Some (VStr household_text) →
  json_loads household_text = Ok household0 →
  Database.get_in_table (db w) "policy"
    (mkrow [("country_id", VStr country_id); ("id", policy_id)])
    = Some policy →
  policy !! "policy_json" = Some (VStr policy_text) →
  json_loads policy_text = Ok reform →
  COUNTRIES country_id = Some c →
  reformed_system c reform = Ok system →
  Simulation c system household0 = Ok sim →
  json_loads (json_dumps household0) = Ok household →
  get_requested_computations household = Ok requested →
  get_household_under_policy country_id household_id policy_id w =
  (Ok (JDict [("status", JStr "ok"); ("message", JNull);
              ("result", foldl (fill_slot system sim) household requested)]),
   World
     (Database.set_in_table (db w) "computed_household"
        (computed_household_key country_id household_id policy_id)
        (mkrow [("computed_household_json",
                 VStr (json_dumps
                         (foldl (fill_slot system sim) household
                            requested)))]) None)
     (writes w ++
        [Write "computed_household"
           (computed_household_key country_id household_id policy_id)
           (mkrow [("computed_household_json",
                    VStr (json_dumps
                            (foldl (fill_slot system sim) household
                               requested)))]) true])
     (simulator_calls w) (comparator_calls w)
     (slot_calls w ++ requested) (threads w)).
Proof.
  intros Hmiss Hh Hhj Hhl Hp Hpj Hpl Hc Hsystem Hsim Hcopy Hrequested.
  unfold get_household_under_policy, mbind, M_bind, get_in_table, lift,
    getitem, text_of.
  rewrite Hmiss, Hh, Hp, Hpj. simpl. rewrite Hpl, Hc, Hhj. simpl.
  rewrite Hhl.
  rewrite (calculate_fills c household0 reform system sim household
             requested w Hsystem Hsim Hcopy Hrequested).
  cbn [db writes simulator_calls comparator_calls slot_calls threads].
  unfold set_in_table.
  cbn [db writes simulator_calls comparator_calls slot_calls threads].
  rewrite Hmiss. reflexivity.
Qed.


(** A household that has been computed is served from the cache the next
    time: the second call returns the same household, without the message
    field of the first answer, attempts no slot and writes nothing. *)
Theorem computed_household_is_reused
    country_id household_id policy_id w household_data policy
    household_text policy_text household0 reform c system sim household
    requested :
  Database.get_in_table (db w) "computed_household"
    (computed_household_key country_id household_id policy_id) = None →
  Database.get_in_table (db w) "household"
    (mkrow [("country_id", VStr country_id); ("id", household_id)])
    = Some household_data →
  household_data !! "household_json" = Some (VStr household_text) →
  json_loads household_text = Ok household0 →
  Database.get_in_table (db w) "policy"
    (mkrow [("country_id", VStr country_id); ("id", policy_id)])
    = Some policy →
  policy !! "policy_json" = Some (VStr policy_text) →
  json_loads policy_text = Ok reform →
  COUNTRIES country_id = Some c →
  reformed_system c reform = Ok system →
  Simulation c system household0 = Ok sim →
  json_loads (json_dumps household0) = Ok household →
  empty_key_free household = true →
  get_requested_computations household = Ok requested →
  json_loads (json_dumps (foldl (fill_slot system sim) household requested))
    = Ok (foldl (fill_slot system sim) household requested) →
  ∃ computed_household w1,
    get_household_under_policy country_id household_id policy_id w =
      (Ok (JDict [("status", JStr "ok"); ("message", JNull);
                  ("result", computed_household)]), w1) ∧
    get_household_under_policy country_id household_id policy_id w1 =
      (Ok (JDict [("status", JStr "ok"); ("result", computed_household)]),
       w1).
Proof.
  intros Hmiss Hh Hhj Hhl Hp Hpj Hpl Hc Hsystem Hsim Hcopy Hkeys Hrequested
    Hround.
  eexists _, _. split; [by eapply get_household_under_policy_miss|].
  set (update := mkrow [("computed_household_json", _)]).
  destruct (get_set_in_table_holds (db w) "computed_household"
              (computed_household_key country_id household_id policy_id)
              update None) as (record & Hrecord & Hsub).
  { apply map_disjoint_dom. unfold computed_household_key, update, mkrow.
    simpl. rewrite !dom_insert_L. set_solver. }
  eapply get_household_under_policy_hit; [exact Hrecord| |exact Hround].
  eapply lookup_weaken; [|exact Hsub]. reflexivity.
Qed.

End HouseholdHandlerFacts.

(** ** Policies *)

Section UpsertFacts.
Implicit Types (key update r : row) (rows : list row) (d : database).

Lemma matches_weaken key key' r :
  key ⊆ key' → Database.matches key' r = true → Database.matches key r = true.
Proof. rewrite !matches_subseteq. intros ??. by etrans. Qed.

(** After an upsert, every row of the table that matches the match fields
    holds the value fields. *)
Lemma set_in_table_matching d table_name key update auto_increment r :
  r ∈ Database.set_in_table d table_name key update auto_increment
        !!! table_name →
  Database.matches key r = true →
  update ⊆ r.
Proof.
  unfold Database.set_in_table.
  destruct (List.find (Database.matches key) (d !!! table_name))
    as [found|] eqn:Hfind; rewrite lookup_total_insert_eq.
  - intros Hin Hmatch. apply list_elem_of_fmap in Hin as (r0 & -> & Hin).
    destruct (Database.matches key r0) eqn:Hr0; [|congruence].
    apply map_union_subseteq_l.
  - intros Hin Hmatch. apply elem_of_app in Hin as [Hin|Hin].
    + exfalso. apply list_elem_of_In in Hin.
      eapply List.find_none in Hfind; [|exact Hin]. congruence.
    + apply list_elem_of_singleton in Hin as ->.
      apply update_subseteq_new_row.
Qed.

Lemma get_in_table_elem d table_name kwargs r :
  Database.get_in_table d table_name kwargs = Some r →
  r ∈ d !!! table_name ∧ Database.matches kwargs r = true.
Proof.
  unfold Database.get_in_table. intros Hfind.
  apply List.find_some in Hfind as [Hin Hmatch].
  split; [by apply list_elem_of_In|done].
Qed.

Lemma find_map_same {A} (g : A → bool) (f : A → A) (l : list A) :
  (∀ x, x ∈ l → g (f x) = g x) →
  List.find g (map f l) = f <$> List.find g l.
Proof.
  induction l as [|x l IH]; intros Hsame; simpl; [done|].
  rewrite Hsame by left. destruct (g x); [done|].
  apply IH. intros y Hy. apply Hsame. by right.
Qed.

End UpsertFacts.

Section PolicyFacts.
Context `{!External}.

Local Abbreviation policy_update c definition label :=
  (mkrow [("country_id", VStr c);
          ("policy_json", VStr (json_dumps definition));
          ("label", value_of_label label);
          ("api_version", VStr VERSION)]).

Local Abbreviation policy_lookup c definition :=
  (mkrow [("country_id", VStr c);
          ("policy_hash", VStr (hash_object definition))]).

Lemma set_policy_returns c definition label w response w1 :
  validate_country c = None →
  set_policy c None definition label w = (Ok response, w1) →
  db w1 = Database.set_in_table (db w) "policy"
            (policy_match (hash_object definition) None)
            (policy_update c definition label) (Some "id") ∧
  ∃ policy id,
    Database.get_in_table (db w1) "policy" (policy_lookup c definition)
      = Some policy ∧
    policy !! "id" = Some id ∧
    policy_update c definition label ⊆ policy ∧
    response = JDict [("status", JStr "ok"); ("message", JNull);
                      ("result", JDict [("policy_id", json_of_value id)])].
Proof.
  intros Hvalid. unfold set_policy. rewrite Hvalid.
  unfold mbind, M_bind, set_in_table, get_in_table, lift, getitem, raise.
  cbn [db].
  destruct (Database.get_in_table _ "policy" (policy_lookup c definition))
    as [policy|] eqn:Hget; [|done].
  destruct (policy !! "id") as [id|] eqn:Hid; [|done].
  intros [= <- <-]. cbn [db]. split; [done|].
  exists policy, id. repeat split; try done.
  apply get_in_table_elem in Hget as [Hin Hmatch].
  eapply set_in_table_matching; [exact Hin|].
  eapply matches_weaken; [|exact Hmatch].
  apply map_subseteq_spec. intros k v Hk.
  unfold policy_match, mkrow in Hk. simpl in Hk.
  apply lookup_insert_Some in Hk as [[<- <-]|[_ Hk]]; [reflexivity|done].
Qed.

(** A policy that has been set is found again by its definition: the
    lookup returns the row whose id [set_policy] returned, in the same
    country, under the label given, with the definition parsed back. *)
Theorem set_then_get_policy c definition label w response :
  validate_country c = None →
  json_loads (json_dumps definition) = Ok definition →
  (set_policy c None definition label w).1 = Ok response →
  let w1 := (set_policy c None definition label w).2 in
  ∃ policy id,
    get_policy c None (Some definition) w1
      = (Ok (PolicyFound policy definition), w1) ∧
    response = JDict [("status", JStr "ok"); ("message", JNull);
                      ("result", JDict [("policy_id", json_of_value id)])] ∧
    policy !! "id" = Some id ∧
    policy !! "country_id" = Some (VStr c) ∧
    policy !! "label" = Some (value_of_label label).
Proof.
  intros Hvalid Hround.
  destruct (set_policy c None definition label w) as [outcome w1] eqn:Hset.
  cbn [fst snd]. intros ->.
  destruct (set_policy_returns c definition label w response w1 Hvalid Hset)
    as (_ & policy & id & Hget & Hid & Hsub & ->).
  exists policy, id. split; [|repeat split; try done].
  - unfold get_policy, policy_found. rewrite Hvalid.
    unfold mbind, M_bind, get_in_table, lift, getitem, text_of.
    rewrite Hget.
    assert (policy !! "policy_json" = Some (VStr (json_dumps definition)))
      as -> by (eapply lookup_weaken; [|exact Hsub]; reflexivity).
    cbn -[json_dumps]. by rewrite Hround.
  - eapply lookup_weaken; [|exact Hsub]. reflexivity.
  - eapply lookup_weaken; [|exact Hsub]. reflexivity.
Qed.

Lemma policy_lookup_matches c definition label r :
  Database.matches (policy_match (hash_object definition) None) r = true →
  policy_update c definition label ⊆ r →
  Database.matches (policy_lookup c definition) r = true.
Proof.
  rewrite !matches_subseteq. intros Hhash Hupdate.
  apply map_subseteq_spec. intros k v Hk.
  unfold mkrow in Hk. simpl in Hk.
  apply lookup_insert_Some in Hk as [[<- <-]|[_ Hk]].
  { eapply lookup_weaken; [|exact Hupdate]. reflexivity. }
  apply lookup_insert_Some in Hk as [[<- <-]|[_ Hk]]; [|done].
  eapply lookup_weaken; [|exact Hhash]. reflexivity.
Qed.

(** Setting the same definition again in the same country, under any
    label, resolves to the same row: the call returns the same id, adds no
    row, and leaves the row under the new label. *)
Theorem set_policy_same_definition c definition label1 label2 w response :
  validate_country c = None →
  (set_policy c None definition label1 w).1 = Ok response →
  let w1 := (set_policy c None definition label1 w).2 in
  ∃ w2,
    set_policy c None definition label2 w1 = (Ok response, w2) ∧
    length (db w2 !!! "policy") = length (db w1 !!! "policy") ∧
    column_of w2 "policy" (policy_lookup c definition) "label"
      = Some (value_of_label label2).
Proof.
  intros Hvalid.
  destruct (set_policy c None definition label1 w) as [outcome w1] eqn:Hset.
  cbn [fst snd]. intros ->.
  destruct (set_policy_returns c definition label1 w response w1 Hvalid Hset)
    as (Hdb1 & policy & id & Hget & Hid & Hsub & ->).
  set (key := policy_match (hash_object definition) None) in *.
  set (update := policy_update c definition label2).
  pose proof Hget as Hfound.
  apply get_in_table_elem in Hfound as [Hin Hmatch].
  assert (Database.matches key policy = true) as Hkey.
  { eapply matches_weaken; [|exact Hmatch].
    apply map_subseteq_spec. intros k v Hk.
    unfold key, policy_match, mkrow in Hk. simpl in Hk.
    apply lookup_insert_Some in Hk as [[<- <-]|[_ Hk]]; [reflexivity|done]. }
  assert (∃ found, List.find (Database.matches key) (db w1 !!! "policy")
                     = Some found) as [found Hfind].
  { destruct (List.find (Database.matches key) (db w1 !!! "policy"))
      as [found|] eqn:Hfind; [by eexists|].
    apply list_elem_of_In in Hin.
    eapply List.find_none in Hfind; [|exact Hin]. congruence. }
  assert (Database.set_in_table (db w1) "policy" key update (Some "id")
            !!! "policy"
          = map (λ r, if Database.matches key r then update ∪ r else r)
              (db w1 !!! "policy")) as Htable.
  { unfold Database.set_in_table. rewrite Hfind.
    by rewrite lookup_total_insert_eq. }
  assert (Database.get_in_table
            (Database.set_in_table (db w1) "policy" key update (Some "id"))
            "policy" (policy_lookup c definition)
          = Some (update ∪ policy)) as Hget2.
  { unfold Database.get_in_table at 1. rewrite Htable.
    rewrite find_map_same.
    - unfold Database.get_in_table in Hget. rewrite Hget. simpl.
      by rewrite Hkey.
    - intros r Hr. destruct (Database.matches key r) eqn:Hr_key; [|done].
      assert (policy_update c definition label1 ⊆ r) as Hr_sub.
      { eapply set_in_table_matching; [|exact Hr_key].
        by rewrite <- Hdb1. }
      rewrite (policy_lookup_matches c definition label1 r) by done.
      apply (policy_lookup_matches c definition label2).
      + apply matches_subseteq. apply map_subseteq_spec. intros k v Hk.
        unfold key, policy_match, mkrow in Hk. simpl in Hk.
        apply lookup_insert_Some in Hk as [[<- <-]|[_ Hk]]; [|done].
        rewrite lookup_union_r by reflexivity.
        apply matches_subseteq in Hr_key.
        eapply lookup_weaken; [|exact Hr_key]. reflexivity.
      + apply map_union_subseteq_l. }
  eexists. split; [|split].
  - unfold set_policy. rewrite Hvalid.
    unfold mbind, M_bind, set_in_table, get_in_table, lift, getitem, raise.
    cbn [db]. fold key. fold update. rewrite Hget2.
    rewrite lookup_union_r by reflexivity. rewrite Hid. reflexivity.
  - cbn [db]. rewrite Htable. apply length_map.
  - unfold column_of. cbn [db]. rewrite Hget2. simpl.
    apply lookup_union_Some_l. reflexivity.
Qed.

(** The current law of a country is the policy that was set there with the
    empty reform: after [set_policy] with the empty reform, the lookup of
    the current law returns the id that [set_policy] returned and writes
    nothing. *)
Theorem current_law_is_the_empty_reform c label w response :
  validate_country c = None →
  (set_policy c None (JDict []) label w).1 = Ok response →
  let w1 := (set_policy c None (JDict []) label w).2 in
  ∃ id,
    get_current_law_policy_id c w1 = (Ok id, w1) ∧
    response = JDict [("status", JStr "ok"); ("message", JNull);
                      ("result", JDict [("policy_id", json_of_value id)])].
Proof.
  intros Hvalid.
  destruct (set_policy c None (JDict []) label w) as [outcome w1] eqn:Hset.
  cbn [fst snd]. intros ->.
  destruct (set_policy_returns c (JDict []) label w response w1 Hvalid Hset)
    as (_ & policy & id & Hget & Hid & _ & ->).
  exists id. split; [|done].
  unfold get_current_law_policy_id, mbind, M_bind, get_in_table.
  rewrite Hget. cbn [mret M_ret].
  by rewrite (lookup_total_correct _ _ _ Hid).
Qed.

(** [get_policy] only reads: whatever it is asked and however it ends, it
    leaves the database, the write log and every other part of the world
    as they were. *)
Theorem get_policy_reads_only c policy_id policy_data w :
  (get_policy c policy_id policy_data w).2 = w.
Proof.
  assert (∀ policy, (policy_found policy w).2 = w) as Hfound.
  { intros policy.
    unfold policy_found, mbind, M_bind, lift, getitem, text_of.
    destruct (policy !! "policy_json") as [[| |text]|]; simpl; try done.
    by destruct (json_loads text). }
  unfold get_policy.
  destruct (validate_country c); [done|].
  unfold mbind, M_bind, get_in_table.
  destruct policy_id as [id|]; [|destruct policy_data as [data|]];
    [| |done].
  - destruct (Database.get_in_table (db w) "policy" _); [apply Hfound|done].
  - destruct (Database.get_in_table (db w) "policy" _); [apply Hfound|done].
Qed.

End PolicyFacts.

(** ** The entity index and the country table *)

Section EntityIndex.

(** The loop over the keys of an entity group stops at the first position
    of the entity; for an entity that is not among the keys it runs to the
    end and yields their number, which is no position of the group. *)
Theorem entity_index_of_position entity_id keys :
  (keys !! entity_index_of entity_id keys
   = if decide (entity_id ∈ keys) then Some entity_id else None) ∧
  (entity_id ∉ take (entity_index_of entity_id keys) keys) ∧
  (entity_index_of entity_id keys ≤ length keys)%nat.
Proof.
  induction keys as [|k keys IH].
  - rewrite decide_False by apply not_elem_of_nil.
    repeat split; [apply not_elem_of_nil|done].
  - destruct IH as (Hlookup & Htake & Hlen).
    cbn [entity_index_of].
    destruct (String.eqb_spec k entity_id) as [->|Hne].
    + rewrite decide_True by left.
      repeat split; [apply not_elem_of_nil|cbn; lia].
    + split; [|split; [|cbn; lia]].
      * replace ((k :: keys) !! S (entity_index_of entity_id keys))
          with (keys !! entity_index_of entity_id keys) by reflexivity.
        rewrite Hlookup.
        destruct (decide (entity_id ∈ keys)) as [Hin|Hnot].
        -- rewrite decide_True by (by right). done.
        -- rewrite decide_False; [done|].
           intros [Heq|Hin]%elem_of_cons; congruence.
      * cbn [take]. apply not_elem_of_cons. split; [congruence|done].
Qed.

End EntityIndex.

Section CountryFacts.
Context `{!External} `{!Engine}.

(** When the household and the policy are found but the country has no
    entry in [COUNTRIES], the subscript raises [KeyError]: the call ends
    with the exception, and nothing is computed or cached. *)
Theorem unknown_country_raises
    country_id household_id policy_id w household_data policy policy_text
    reform :
  Database.get_in_table (db w) "computed_household"
    (computed_household_key country_id household_id policy_id) = None →
  Database.get_in_table (db w) "household"
    (mkrow [("country_id", VStr country_id); ("id", household_id)])
    = Some household_data →
  Database.get_in_table (db w) "policy"
    (mkrow [("country_id", VStr country_id); ("id", policy_id)])
    = Some policy →
  policy !! "policy_json" = Some (VStr policy_text) →
  json_loads policy_text = Ok reform →
  COUNTRIES country_id = None →
  get_household_under_policy country_id household_id policy_id w
  = (Raise (KeyError country_id), w).
Proof.
  intros Hmiss Hh Hp Hpj Hpl Hc.
  unfold get_household_under_policy, mbind, M_bind, get_in_table, lift,
    getitem, text_of, raise.
  rewrite Hmiss, Hh, Hp, Hpj. simpl. by rewrite Hpl, Hc.
Qed.

End CountryFacts.

(** ** Further instances and evaluations *)

Lemma invalid_request_untouched_witness :
  @score_policy_reform_against_baseline Scenario.external Scenario.args "fr"
    (VStr "2") (Some (VStr "1")) Scenario.empty_world
  = (Ok (FlaskResponse "Country fr not found." 404), Scenario.empty_world).
Proof.
  apply (@invalid_request_untouched Scenario.external Scenario.args "fr"
           (VStr "2") (Some (VStr "1")) Scenario.empty_world).
  right. right. reflexivity.
Defined.

Lemma repeated_request_starts_one_thread_witness :
  ∃ w1,
    @score_policy_reform_against_baseline Scenario.external Scenario.args
      "uk" (VStr "2") (Some (VStr "1")) Scenario.empty_world =
      (Ok (Body (JDict [("status", JStr "computing")])), w1) ∧
    @score_policy_reform_against_baseline Scenario.external Scenario.args
      "uk" (VStr "2") (Some (VStr "1")) w1 =
      (Ok (Body (JDict [("status", JStr "computing")])), w1) ∧
    threads w1 =
      threads Scenario.empty_world
        ++ [Thread (VStr "1") (VStr "2") "uk" "uk" "2024" []] ∧
    column_of w1 "reform_impact"
      (@reform_impact_key Scenario.external "uk" (VStr "2") (VStr "1") "uk"
         "2024" []) "status"
      = Some (VStr "computing").
Proof.
  apply (@repeated_request_starts_one_thread Scenario.external Scenario.args
           "uk" (VStr "2") (VStr "1") Scenario.empty_world "uk" "2024" []
           [("time_period", "2024")] "policyengine_uk").
  - reflexivity.
  - reflexivity.
  - reflexivity.
  - by_computation.
Defined.

Lemma options_are_the_other_parameters_witness :
  threads
    (@score_policy_reform_against_baseline Scenario.external Cases.query
       "uk" (VStr "2") (Some (VStr "1")) Scenario.empty_world).2
  = threads Scenario.empty_world
      ++ [Thread (VStr "1") (VStr "2") "uk" "uk" "2024"
            [("dataset", "frs"); ("target", "general")]].
Proof.
  apply (@options_are_the_other_parameters Scenario.external Cases.query
           "uk" (VStr "2") (VStr "1") Scenario.empty_world "uk" "2024"
           "policyengine_uk").
  - by_computation.
  - by_computation.
  - by_computation.
  - reflexivity.
  - by_computation.
Defined.

Lemma simulator_failure_is_cached_witness :
  ∃ w1,
    @ensure_economy_computed Scenario.external "uk" (VStr "3") "uk" "2024" []
      Scenario.empty_world = (Ok JNull, w1) ∧
    @ensure_economy_computed Scenario.external "uk" (VStr "3") "uk" "2024" []
      w1 = (Ok JNull, w1) ∧
    simulator_calls w1 =
      simulator_calls Scenario.empty_world
        ++ [SimulatorCall "uk" (VStr "3") "uk" "2024" []] ∧
    economy_status w1
      (@economy_key Scenario.external "uk" (VStr "3") "uk" "2024" [])
      = Some (VStr "error") ∧
    column_of w1 "economy"
      (@economy_key Scenario.external "uk" (VStr "3") "uk" "2024" [])
      "message" = Some (VStr "Simulation failed") ∧
    column_of w1 "economy"
      (@economy_key Scenario.external "uk" (VStr "3") "uk" "2024" [])
      "economy_json" = Some (VStr "{}").
Proof.
  apply (@simulator_failure_is_cached Scenario.external "uk" (VStr "3") "uk"
           "2024" [] Scenario.empty_world (ValueError "Simulation failed")).
  - by_computation.
  - reflexivity.
Defined.

Lemma resolver_leaves_other_keys_witness :
  Database.get_in_table
    (db (@set_reform_impact_data Scenario.external (VStr "1") (VStr "2")
           "uk" "uk" "2024" [] Cases.us_economy_world).2) "economy"
    (@economy_key Scenario.external "us" (VStr "1") "us" "2024" [])
  = Database.get_in_table (db Cases.us_economy_world) "economy"
      (@economy_key Scenario.external "us" (VStr "1") "us" "2024" []).
Proof.
  apply (resolver_leaves_other_keys Scenario.external Scenario.external
           (VStr "1") (VStr "2") "uk" "uk" "2024" [] "us" (VStr "1") "us"
           "2024" [] Cases.us_economy_world).
  - by_computation.
  - by_computation.
Defined.

Lemma version_invalidates_cache_witness :
  Database.get_in_table
    (db (@ensure_economy_computed Scenario.external "uk" (VStr "1") "uk"
           "2024" [] Scenario.empty_world).2) "economy"
    (@economy_key Cases.external_next_version "uk" (VStr "1") "uk" "2024" [])
    = None ∧
  simulator_calls
    (@ensure_economy_computed Cases.external_next_version "uk" (VStr "1")
       "uk" "2024" []
       (@ensure_economy_computed Scenario.external "uk" (VStr "1") "uk"
          "2024" [] Scenario.empty_world).2).2
  = simulator_calls
      (@ensure_economy_computed Scenario.external "uk" (VStr "1") "uk"
         "2024" [] Scenario.empty_world).2
      ++ [SimulatorCall "uk" (VStr "1") "uk" "2024" []].
Proof.
  apply (version_invalidates_cache Scenario.external
           Cases.external_next_version "uk" (VStr "1") "uk" "2024" []
           Scenario.empty_world).
  - by_computation.
  - by_computation.
Defined.

Lemma prerequisites_resolved_independently_witness :
  Database.get_in_table
    (db (@ensure_required Scenario.external (VStr "3") (VStr "2") "uk" "uk"
           "2024" [] Scenario.empty_world).2) "economy"
    (@economy_key Scenario.external "uk" (VStr "2") "uk" "2024" [])
  = Some (match
            Database.get_in_table (db Scenario.empty_world) "economy"
              (@economy_key Scenario.external "uk" (VStr "2") "uk" "2024" [])
          with
          | Some cached => cached
          | None =>
              economy_row_of
                (@compute_economy Scenario.external "uk" (VStr "2") "uk"
                   "2024" [])
                ∪ @economy_key Scenario.external "uk" (VStr "2") "uk" "2024"
                    []
          end).
Proof.
  apply (@prerequisites_resolved_independently Scenario.external (VStr "3")
           (VStr "2") "uk" "uk" "2024" [] Scenario.empty_world (VStr "2")).
  right. reflexivity.
Defined.

Lemma impact_status_reflects_prerequisites_witness :
  let w2 :=
    (@set_reform_impact_data Scenario.external (VStr "1") (VStr "2") "uk"
       "uk" "2024" [] Scenario.empty_world).2 in
  let impact_column :=
    column_of w2 "reform_impact"
      (@reform_impact_key Scenario.external "uk" (VStr "2") (VStr "1") "uk"
         "2024" []) in
  (impact_column "status" = Some (VStr "ok") ∧
   economy_status w2
     (@economy_key Scenario.external "uk" (VStr "1") "uk" "2024" [])
     = Some (VStr "ok") ∧
   economy_status w2
     (@economy_key Scenario.external "uk" (VStr "2") "uk" "2024" [])
     = Some (VStr "ok") ∧
   length (comparator_calls w2)
     = S (length (comparator_calls Scenario.empty_world)))
  ∨
  (impact_column "status" = Some (VStr "error") ∧
   impact_column "message" = Some (VStr dependency_failure_message) ∧
   (economy_status w2
      (@economy_key Scenario.external "uk" (VStr "1") "uk" "2024" [])
      ≠ Some (VStr "ok") ∨
    economy_status w2
      (@economy_key Scenario.external "uk" (VStr "2") "uk" "2024" [])
      ≠ Some (VStr "ok")) ∧
   comparator_calls w2 = comparator_calls Scenario.empty_world).
Proof.
  apply (@impact_status_reflects_prerequisites Scenario.external (VStr "1")
           (VStr "2") "uk" "uk" "2024" [] Scenario.empty_world).
  vm_compute. reflexivity.
Defined.

Lemma requested_are_the_none_leaves_witness :
  get_requested_computations Scenario.household
    = Ok (none_leaves Scenario.household) ∧
  ∀ s, get_slot Scenario.household s = Ok JNull →
    s ∈ none_leaves Scenario.household.
Proof.
  apply (requested_are_the_none_leaves Scenario.household).
  - reflexivity.
  - vm_compute. repeat constructor.
Defined.



Lemma separator_in_key_aborts_witness :
  @calculate Cases.extended_external Scenario.engine "policyengine_uk"
    Cases.household_with_separator (JDict []) Scenario.empty_world
  = (Raise (ValueError "too many values to unpack (expected 4)"),
     Scenario.empty_world).
Proof.
  apply (@separator_in_key_aborts Cases.extended_external Scenario.engine
           "policyengine_uk" Cases.household_with_separator (JDict []) tt tt
           Cases.household_with_separator
           ("people", "you/partner", "age", "2023") Scenario.empty_world).
  - reflexivity.
  - reflexivity.
  - vm_compute. reflexivity.
  - reflexivity.
  - vm_compute. left.
  - vm_compute. intros (_ & Hname & _). discriminate Hname.
Defined.

Lemma empty_key_aborts_witness :
  ∃ e,
    @calculate Cases.extended_external Scenario.engine "policyengine_uk"
      Cases.household_with_empty_key (JDict []) Scenario.empty_world
    = (Raise e, Scenario.empty_world).
Proof.
  apply (@empty_key_aborts Cases.extended_external Scenario.engine
           "policyengine_uk" Cases.household_with_empty_key (JDict []) tt tt
           Cases.household_with_empty_key Scenario.empty_world).
  - reflexivity.
  - reflexivity.
  - vm_compute. reflexivity.
  - reflexivity.
Defined.

Lemma missing_household_or_policy_witness :
  @get_household_under_policy Scenario.external Scenario.engine "uk"
    (VInt 2) (VInt 1) Scenario.household_world
  = (Ok (JDict [("status", JStr "error");
                ("message", JStr "Household 2 not found in uk")]),
     Scenario.household_world).
Proof.
  refine (eq_trans
            (@missing_household_or_policy Scenario.external Scenario.engine
               "uk" (VInt 2) (VInt 1) Scenario.household_world _ _) _).
  - by_computation.
  - left. by_computation.
  - vm_compute. reflexivity.
Defined.

Lemma computed_household_is_reused_witness :
  ∃ computed_household w1,
    @get_household_under_policy Cases.extended_external Scenario.engine
      "uk" (VInt 1) (VInt 1) Scenario.household_world =
      (Ok (JDict [("status", JStr "ok"); ("message", JNull);
                  ("result", computed_household)]), w1) ∧
    @get_household_under_policy Cases.extended_external Scenario.engine
      "uk" (VInt 1) (VInt 1) w1 =
      (Ok (JDict [("status", JStr "ok"); ("result", computed_household)]),
       w1).
Proof.
  apply (@computed_household_is_reused Cases.extended_external
           Scenario.engine "uk" (VInt 1) (VInt 1) Scenario.household_world
           Scenario.household_row Scenario.policy_row
           (json_dumps Scenario.household) "{}" Scenario.household
           (JDict []) "policyengine_uk" tt tt Scenario.household
           Scenario.requested).
  - by_computation.
  - by_computation.
  - vm_compute; reflexivity.
  - vm_compute; reflexivity.
  - by_computation.
  - vm_compute; reflexivity.
  - vm_compute; reflexivity.
  - vm_compute; reflexivity.
  - vm_compute; reflexivity.
  - vm_compute; reflexivity.
  - vm_compute; reflexivity.
  - vm_compute; reflexivity.
  - vm_compute; reflexivity.
  - vm_compute; reflexivity.
Defined.

Lemma unknown_country_raises_witness :
  @get_household_under_policy Scenario.external Scenario.engine "fr"
    (VInt 1) (VInt 1) Cases.foreign_world
  = (Raise (KeyError "fr"), Cases.foreign_world).
Proof.
  apply (@unknown_country_raises Scenario.external Scenario.engine "fr"
           (VInt 1) (VInt 1) Cases.foreign_world Cases.foreign_household_row
           Cases.foreign_policy_row "{}" (JDict [])).
  - by_computation.
  - by_computation.
  - by_computation.
  - vm_compute; reflexivity.
  - vm_compute; reflexivity.
  - reflexivity.
Defined.

Lemma set_then_get_policy_witness :
  let w1 :=
    (@set_policy Scenario.external "uk" None (JDict []) (Some "No reform")
       Scenario.empty_world).2 in
  ∃ policy id,
    @get_policy Scenario.external "uk" None (Some (JDict [])) w1
      = (Ok (PolicyFound policy (JDict [])), w1) ∧
    JDict [("status", JStr "ok"); ("message", JNull);
           ("result", JDict [("policy_id", JInt 1)])]
      = JDict [("status", JStr "ok"); ("message", JNull);
               ("result", JDict [("policy_id", json_of_value id)])] ∧
    policy !! "id" = Some id ∧
    policy !! "country_id" = Some (VStr "uk") ∧
    policy !! "label" = Some (value_of_label (Some "No reform")).
Proof.
  apply (@set_then_get_policy Scenario.external "uk" (JDict [])
           (Some "No reform") Scenario.empty_world
           (JDict [("status", JStr "ok"); ("message", JNull);
                   ("result", JDict [("policy_id", JInt 1)])])).
  - reflexivity.
  - vm_compute; reflexivity.
  - vm_compute; reflexivity.
Defined.

Lemma set_policy_same_definition_witness :
  let w1 :=
    (@set_policy Scenario.external "uk" None (JDict []) None
       Scenario.empty_world).2 in
  ∃ w2,
    @set_policy Scenario.external "uk" None (JDict []) (Some "No reform") w1
      = (Ok (JDict [("status", JStr "ok"); ("message", JNull);
                    ("result", JDict [("policy_id", JInt 1)])]), w2) ∧
    length (db w2 !!! "policy") = length (db w1 !!! "policy") ∧
    column_of w2 "policy"
      (mkrow [("country_id", VStr "uk");
              ("policy_hash",
               VStr (@hash_object Scenario.external (JDict [])))]) "label"
      = Some (value_of_label (Some "No reform")).
Proof.
  apply (@set_policy_same_definition Scenario.external "uk" (JDict []) None
           (Some "No reform") Scenario.empty_world
           (JDict [("status", JStr "ok"); ("message", JNull);
                   ("result", JDict [("policy_id", JInt 1)])])).
  - reflexivity.
  - vm_compute; reflexivity.
Defined.

Lemma current_law_is_the_empty_reform_witness :
  let w1 :=
    (@set_policy Scenario.external "uk" None (JDict []) None
       Scenario.empty_world).2 in
  ∃ id,
    @get_current_law_policy_id Scenario.external "uk" w1 = (Ok id, w1) ∧
    JDict [("status", JStr "ok"); ("message", JNull);
           ("result", JDict [("policy_id", JInt 1)])]
      = JDict [("status", JStr "ok"); ("message", JNull);
               ("result", JDict [("policy_id", json_of_value id)])].
Proof.
  apply (@current_law_is_the_empty_reform Scenario.external "uk" None
           Scenario.empty_world
           (JDict [("status", JStr "ok"); ("message", JNull);
                   ("result", JDict [("policy_id", JInt 1)])])).
  - reflexivity.
  - vm_compute; reflexivity.
Defined.
